(** * EyeCompanionApp: local event store, session lifecycle and sync

    A shallow embedding of
      - [src/api/routes/sessions.py]   (cloud session start / end, health score),
      - [src/api/routes/sync.py]       (upload reconciliation),
      - [src/desktop/database/sqlite_manager.py] (local store, blink queue,
        background batch writer),
      - [src/desktop/services/session_manager.py] (the local and the cloud
        session track),
    followed by the properties of the specification that concern them.

    Conventions of the embedding.
      - Python [int] is [Z]; Python [float] is [Q] (only comparisons, sums and
        one division are performed on rates, and the request validators
        exclude NaN), [datetime] is a [Z] count of microseconds.
      - [None] / a missing dict key is [None] of an [option].
      - A SQL table or the rows an ORM query ranges over is a [list] in
        insertion order; [.first()] is the first row satisfying the filter.
      - An exception that leaves a function is the [inl] of a sum. *)

From Stdlib Require Import ZArith QArith List Bool Lia Lqa String Sorted Permutation.
Import ListNotations.

Local Open Scope Z_scope.

(** ** Python built-ins used by the sources *)

Module Py.

(** [a > b] on floats. *)
Definition Qgtb (a b : Q) : bool :=
  match Qcompare a b with Gt => true | _ => false end.

(** [a < b] on floats. *)
Definition Qltb (a b : Q) : bool :=
  match Qcompare a b with Lt => true | _ => false end.

(** [a >= b] on floats. *)
Definition Qgeb (a b : Q) : bool :=
  match Qcompare a b with Lt => false | _ => true end.

(** [max(a, b)]: the first argument is kept unless the second is strictly
    greater. *)
Definition max2 {A : Type} (gt : A -> A -> bool) (a b : A) : A :=
  if gt b a then b else a.

(** [max(xs)] for a list whose first element is [x]. *)
Definition max_list {A : Type} (gt : A -> A -> bool) (x : A) (xs : list A) : A :=
  fold_left (max2 gt) xs x.

(** [sum(xs)] on floats: starts from [0] and adds from the left. *)
Definition sum (xs : list Q) : Q := fold_left Qplus xs (0 # 1)%Q.

(** [d.get(key, default)]. *)
Definition get {A : Type} (v : option A) (default : A) : A :=
  match v with Some x => x | None => default end.

(** [len(xs)] as a float divisor. *)
Definition len {A : Type} (xs : list A) : Q := inject_Z (Z.of_nat (List.length xs)).

(** The first element of a list that satisfies [p], rewritten by [f]; this
    is what mutating the object returned by [query.first()] does to the
    table. *)
Fixpoint update_first {A : Type} (p : A -> bool) (f : A -> A) (l : list A) : list A :=
  match l with
  | [] => []
  | x :: r => if p x then f x :: r else x :: update_first p f r
  end.

End Py.

(** ** The cloud API: [src/api/models.py], [routes/sessions.py], [routes/sync.py] *)

Module Cloud.

Definition uuid := nat.
Definition datetime := Z.

Inductive HTTPException : Type :=
| HTTP_400_BAD_REQUEST
| HTTP_403_FORBIDDEN
| HTTP_404_NOT_FOUND
| HTTP_409_CONFLICT.

Inductive SessionStatus : Type := ACTIVE | ENDED.

(** Row of [cloud_sessions] (the JSON columns [device_info],
    [system_metrics] and the server-side [created_at] play no part in the
    routes below and are left out). *)
Record CloudSession : Type := mkCloudSession {
  cs_id : uuid;
  cs_user_id : uuid;
  cs_local_session_id : option Z;
  cs_start_time : datetime;
  cs_end_time : option datetime;
  cs_total_blinks : Z;
  cs_avg_blink_rate : Q;
  cs_max_blink_rate : Q;
  cs_session_duration : Z;
  cs_health_score : option Z
}.

(** Row of [session_data] (surrogate key and [created_at] left out). *)
Record SessionData : Type := mkSessionData {
  sd_session_id : uuid;
  sd_timestamp : option datetime;
  sd_blink_count : Z;
  sd_blink_rate : Q;
  sd_eye_aspect_ratio : option Q;
  sd_cpu_usage : option Q;
  sd_memory_usage : option Q
}.

(** The database as one SQLAlchemy session sees it.  [next_uuid] stands for
    [uuid.uuid4]: every call yields an identifier not handed out before. *)
Record DB : Type := mkDB {
  cloud_sessions : list CloudSession;
  session_data : list SessionData;
  next_uuid : uuid
}.

(** *** routes/sessions.py *)

Record SessionEndRequest : Type := mkSessionEndRequest {
  req_session_id : uuid;
  req_total_blinks : Z;
  req_avg_blink_rate : Q;
  req_max_blink_rate : Q;
  req_session_duration : Z
}.

Record SessionResponse : Type := mkSessionResponse {
  resp_id : uuid;
  resp_start_time : datetime;
  resp_end_time : option datetime;
  resp_duration : Z;
  resp_total_blinks : Z;
  resp_avg_blink_rate : Q;
  resp_max_blink_rate : Q;
  resp_health_score : option Z;
  resp_status : SessionStatus
}.

Definition is_none {A : Type} (o : option A) : bool :=
  match o with None => true | Some _ => false end.

Definition get_active_session (db : DB) (user_id : uuid) : option CloudSession :=
  find (fun s => Nat.eqb (cs_user_id s) user_id && is_none (cs_end_time s))
       (cloud_sessions db).

(** [int((end_time - start_time).total_seconds())]. *)
Definition calculate_session_duration (start_time end_time : datetime) : Z :=
  Z.quot (end_time - start_time) 1000000.

Definition calculate_health_score (avg_blink_rate : Q) (session_duration : Z) : Z :=
  let score := 100 in
  let score :=
    if Py.Qltb avg_blink_rate (10 # 1) then score - 20
    else if Py.Qgtb avg_blink_rate (30 # 1) then score - 15
    else if Py.Qgtb avg_blink_rate (25 # 1) then score - 10
    else score in
  let score :=
    if session_duration >? 7200 then score - 20
    else if session_duration >? 3600 then score - 10
    else score in
  Z.max 0 (Z.min 100 score).

Definition new_session (id user : uuid) (local_id : option Z)
           (start_time : datetime) (end_time : option datetime) : CloudSession :=
  mkCloudSession id user local_id start_time end_time 0 (0 # 1) (0 # 1) 0 None.

Definition start_session (request_user_id : uuid) (now : datetime)
           (current_user : uuid) (db : DB)
  : HTTPException + (DB * SessionResponse) :=
  if negb (Nat.eqb request_user_id current_user) then inl HTTP_403_FORBIDDEN
  else
    match get_active_session db current_user with
    | Some _ => inl HTTP_409_CONFLICT
    | None =>
        let session := new_session (next_uuid db) current_user None now None in
        inr (mkDB (cloud_sessions db ++ [session]) (session_data db)
                  (S (next_uuid db)),
             mkSessionResponse (cs_id session) (cs_start_time session)
               (cs_end_time session) 0 (cs_total_blinks session)
               (cs_avg_blink_rate session) (cs_max_blink_rate session)
               (cs_health_score session) ACTIVE)
    end.

Definition has_id (id : uuid) (s : CloudSession) : bool := Nat.eqb (cs_id s) id.

(** The assignments of [end_session] to the session object. *)
Definition close_with (request : SessionEndRequest) (now : datetime)
           (s : CloudSession) : CloudSession :=
  mkCloudSession (cs_id s) (cs_user_id s) (cs_local_session_id s)
    (cs_start_time s) (Some now)
    (req_total_blinks request) (req_avg_blink_rate request)
    (req_max_blink_rate request) (req_session_duration request)
    (Some (calculate_health_score (req_avg_blink_rate request)
                                  (req_session_duration request))).

Definition end_session (request : SessionEndRequest) (now : datetime)
           (current_user : uuid) (db : DB)
  : HTTPException + (DB * SessionResponse) :=
  match find (has_id (req_session_id request)) (cloud_sessions db) with
  | None => inl HTTP_404_NOT_FOUND
  | Some session =>
      if negb (Nat.eqb (cs_user_id session) current_user)
      then inl HTTP_403_FORBIDDEN
      else
        match cs_end_time session with
        | Some _ => inl HTTP_400_BAD_REQUEST
        | None =>
            let session' := close_with request now session in
            inr (mkDB (Py.update_first (has_id (req_session_id request))
                                       (close_with request now)
                                       (cloud_sessions db))
                      (session_data db) (next_uuid db),
                 mkSessionResponse (cs_id session') (cs_start_time session')
                   (cs_end_time session') (cs_session_duration session')
                   (cs_total_blinks session') (cs_avg_blink_rate session')
                   (cs_max_blink_rate session') (cs_health_score session')
                   ENDED)
        end
  end.

(** *** routes/sync.py *)

(** One element of [blink_data]: a JSON object read with [dict.get]. *)
Record DataPoint : Type := mkDataPoint {
  dp_timestamp : option datetime;
  dp_blink_count : option Z;
  dp_blink_rate : option Q;
  dp_eye_aspect_ratio : option Q;
  dp_cpu_usage : option Q;
  dp_memory_usage : option Q
}.

(** One element of [request.sessions]; a missing ["blink_data"] key is the
    empty list, as [session_data.get("blink_data", [])] makes it. *)
Record LocalSessionDict : Type := mkLocalSessionDict {
  local_id : option Z;
  start_time : option datetime;
  end_time : option datetime;
  blink_data : list DataPoint
}.

Record SyncUploadRequest : Type := mkSyncUploadRequest {
  user_id : uuid;
  sessions : list LocalSessionDict
}.

(** The text
    [f"Session {local_session_id} conflicts with existing cloud session {existing_session.id}"]. *)
Inductive ConflictMessage : Type :=
| SessionConflicts (local_session_id : Z) (cloud_session_id : uuid).

Record SyncResponse : Type := mkSyncResponse {
  synced_sessions : Z;
  synced_data_points : Z;
  conflicts : list ConflictMessage;
  status : string
}.

Definition session_data_row (session_id : uuid) (data_point : DataPoint) : SessionData :=
  mkSessionData session_id (dp_timestamp data_point)
    (Py.get (dp_blink_count data_point) 0)
    (Py.get (dp_blink_rate data_point) (0 # 1)%Q)
    (dp_eye_aspect_ratio data_point) (dp_cpu_usage data_point)
    (dp_memory_usage data_point).

(** Adds one row per data point and returns how many were added. *)
Definition process_blink_data (db : DB) (session_id : uuid)
           (blink_data : list DataPoint) : DB * Z :=
  fold_left
    (fun (acc : DB * Z) data_point =>
       let (db, data_points_processed) := acc in
       (mkDB (cloud_sessions db)
             (session_data db ++ [session_data_row session_id data_point])
             (next_uuid db),
        data_points_processed + 1))
    blink_data (db, 0).

Definition same_start (user : uuid) (t : datetime) (s : CloudSession) : bool :=
  Nat.eqb (cs_user_id s) user && Z.eqb (cs_start_time s) t.

(** Truth value of an optional integer: [None] and [0] are false. *)
Definition truthy (o : option Z) : bool :=
  match o with Some z => negb (Z.eqb z 0) | None => false end.

(** Defined in the module, called by no route. *)
Definition resolve_session_conflicts (db : DB) (user_id : uuid)
           (local_sessions : list LocalSessionDict) : list ConflictMessage :=
  fold_left
    (fun conflicts local_session =>
       match start_time local_session with
       | None => conflicts
       | Some t =>
           if negb (truthy (local_id local_session)) then conflicts
           else
             match find (same_start user_id t) (cloud_sessions db) with
             | Some existing_session =>
                 conflicts ++ [SessionConflicts (Py.get (local_id local_session) 0)
                                                (cs_id existing_session)]
             | None => conflicts
             end
       end)
    local_sessions [].

Definition blink_counts (blink_data : list DataPoint) : list Z :=
  map (fun d => Py.get (dp_blink_count d) 0) blink_data.

Definition blink_rates (blink_data : list DataPoint) : list Q :=
  map (fun d => Py.get (dp_blink_rate d) (0 # 1)%Q) blink_data.

(** [total_blinks], [avg_blink_rate], [max_blink_rate] of a non-empty
    [blink_data = d :: ds]. *)
Definition total_blinks_of (d : DataPoint) (ds : list DataPoint) : Z :=
  Py.max_list Z.gtb (Py.get (dp_blink_count d) 0) (blink_counts ds).

Definition avg_blink_rate_of (d : DataPoint) (ds : list DataPoint) : Q :=
  (Py.sum (blink_rates (d :: ds)) / Py.len (d :: ds))%Q.

Definition max_blink_rate_of (d : DataPoint) (ds : list DataPoint) : Q :=
  Py.max_list Py.Qgtb (Py.get (dp_blink_rate d) (0 # 1)%Q) (blink_rates ds).

Definition set_end_time (t : option datetime) (s : CloudSession) : CloudSession :=
  mkCloudSession (cs_id s) (cs_user_id s) (cs_local_session_id s)
    (cs_start_time s) t (cs_total_blinks s) (cs_avg_blink_rate s)
    (cs_max_blink_rate s) (cs_session_duration s) (cs_health_score s).

Definition set_statistics (total : Z) (avg mx : Q) (s : CloudSession) : CloudSession :=
  mkCloudSession (cs_id s) (cs_user_id s) (cs_local_session_id s)
    (cs_start_time s) (cs_end_time s) total avg mx
    (cs_session_duration s) (cs_health_score s).

(** The branch [if existing_session:] up to the statistics. *)
Definition merge_existing (end_time : option datetime)
           (blink_data : list DataPoint) (existing_session : CloudSession)
  : CloudSession :=
  let existing_session :=
    match end_time, cs_end_time existing_session with
    | Some t, None => set_end_time (Some t) existing_session
    | _, _ => existing_session
    end in
  match blink_data with
  | [] => existing_session
  | d :: ds =>
      set_statistics
        (Py.max2 Z.gtb (cs_total_blinks existing_session) (total_blinks_of d ds))
        (Py.max2 Py.Qgtb (cs_avg_blink_rate existing_session) (avg_blink_rate_of d ds))
        (Py.max2 Py.Qgtb (cs_max_blink_rate existing_session) (max_blink_rate_of d ds))
        existing_session
  end.

(** The branch [else:]: the new row with its statistics filled in. *)
Definition create_cloud_session (id user : uuid) (t : datetime)
           (session : LocalSessionDict) : CloudSession :=
  let cloud_session := new_session id user (local_id session) t (end_time session) in
  match blink_data session with
  | [] => cloud_session
  | d :: ds =>
      set_statistics (total_blinks_of d ds) (avg_blink_rate_of d ds)
                     (max_blink_rate_of d ds) cloud_session
  end.

(** The local variables of [upload_local_data] next to the database. *)
Record UploadState : Type := mkUploadState {
  up_db : DB;
  up_synced_sessions : Z;
  up_synced_data_points : Z
}.

(** One iteration of [for session_data in request.sessions]. *)
Definition upload_session (current_user : uuid) (st : UploadState)
           (session : LocalSessionDict) : UploadState :=
  match start_time session with
  | None => st
  | Some t =>
      let db := up_db st in
      match find (same_start current_user t) (cloud_sessions db) with
      | Some existing_session =>
          let db :=
            mkDB (Py.update_first (same_start current_user t)
                    (merge_existing (end_time session) (blink_data session))
                    (cloud_sessions db))
                 (session_data db) (next_uuid db) in
          let (db, data_points_added) :=
            process_blink_data db (cs_id existing_session) (blink_data session) in
          mkUploadState db (up_synced_sessions st)
                        (up_synced_data_points st + data_points_added)
      | None =>
          let cloud_session :=
            create_cloud_session (next_uuid db) current_user t session in
          let db :=
            mkDB (cloud_sessions db ++ [cloud_session]) (session_data db)
                 (S (next_uuid db)) in
          let (db, data_points_added) :=
            process_blink_data db (cs_id cloud_session) (blink_data session) in
          mkUploadState db (up_synced_sessions st + 1)
                        (up_synced_data_points st + data_points_added)
      end
  end.

Definition upload_sessions (current_user : uuid) (st : UploadState)
           (sessions : list LocalSessionDict) : UploadState :=
  fold_left (upload_session current_user) sessions st.

(** [upload_local_data].  The [try ... except Exception] around the loop rolls
    back and answers HTTP 500 when the database raises; the store modelled
    here does not fail, so only the 403 of the owner check is an error. *)
Definition upload_local_data (request : SyncUploadRequest) (current_user : uuid)
           (db : DB) : HTTPException + (DB * SyncResponse) :=
  if negb (Nat.eqb (user_id request) current_user) then inl HTTP_403_FORBIDDEN
  else
    let conflicts := [] in
    let st := upload_sessions current_user (mkUploadState db 0 0) (sessions request) in
    inr (up_db st,
         mkSyncResponse (up_synced_sessions st) (up_synced_data_points st)
                        conflicts "success").

End Cloud.

(** ** The local store: [src/desktop/database/models.py], [sqlite_manager.py] *)

Module Desktop.

Definition datetime := Z.

(** Row of [local_sessions], which is also what [LocalSession.from_dict]
    rebuilds from it.  [avg_blink_rate] is nullable because
    [_update_session_totals] stores an SQL [AVG], which is [NULL] over no
    rows. *)
Record LocalSession : Type := mkLocalSession {
  ls_id : nat;
  ls_user_id : option string;
  ls_user_email : option string;
  ls_start_time : datetime;
  ls_end_time : option datetime;
  ls_total_blinks : Z;
  ls_max_blink_rate : Q;
  ls_avg_blink_rate : option Q;
  ls_session_duration : Z;
  ls_is_synced : bool;
  ls_cloud_session_id : option string;
  ls_created_at : datetime
}.

(** The dataclass [BlinkData]: what [log_blink] puts on the queue. *)
Record BlinkData : Type := mkBlinkData {
  bd_id : option nat;
  bd_session_id : nat;
  bd_user_id : option string;
  bd_timestamp : datetime;
  bd_blink_count : Z;
  bd_blink_rate : Q;
  bd_eye_aspect_ratio : option Q;
  bd_is_synced : bool
}.

(** Row of the table [blink_data]. *)
Record BlinkRow : Type := mkBlinkRow {
  row_id : nat;
  row_session_id : nat;
  row_user_id : option string;
  row_timestamp : datetime;
  row_blink_count : Z;
  row_blink_rate : Q;
  row_eye_aspect_ratio : option Q;
  row_is_synced : bool
}.

(** The SQLite file: two tables and their [AUTOINCREMENT] sequences (the
    largest key handed out so far). *)
Record Database : Type := mkDatabase {
  local_sessions : list LocalSession;
  blink_data : list BlinkRow;
  seq_local_sessions : nat;
  seq_blink_data : nat
}.

Definition empty_database : Database := mkDatabase [] [] 0 0.

(** [queue.Queue(maxsize)]: [maxsize <= 0] means no bound. *)
Record Queue : Type := mkQueue {
  maxsize : nat;
  items : list BlinkData
}.

(** [queue.Queue()] *)
Definition Queue_new : Queue := mkQueue 0 [].

Definition qsize (q : Queue) : nat := List.length (items q).

Definition empty (q : Queue) : bool :=
  match items q with [] => true | _ => false end.

(** The test of [Queue.put]: [0 < maxsize <= qsize]. *)
Definition full (q : Queue) : bool :=
  Nat.ltb 0 (maxsize q) && Nat.leb (maxsize q) (qsize q).

(** [put(item, block=False)]; [None] is the exception [queue.Full]. *)
Definition put_nowait (q : Queue) (item : BlinkData) : option Queue :=
  if full q then None else Some (mkQueue (maxsize q) (items q ++ [item])).

(** [get(timeout=0.5)]; [None] is the exception [queue.Empty]. *)
Definition get (q : Queue) : option (BlinkData * Queue) :=
  match items q with
  | [] => None
  | item :: rest => Some (item, mkQueue (maxsize q) rest)
  end.

(** What the methods hand to [logger]. *)
Inductive LogRecord : Type :=
| Warning_no_active_session
| Warning_queue_full_dropping
| Error_logging_blink
| Error_updating_session_totals
| Debug_blink_logged (blink_count : Z) (blink_rate : Q)
| Debug_inserted_batch (n : nat)
| Error_inserting_blink_batch
| Error_in_blink_batch_processing
| Error_processing_final_batch
| Info_using_existing_session (session_id : nat)
| Info_auto_created_session (session_id : nat)
| Error_auto_creating_session
| Info_session_ended (session_id : nat) (total_blinks : Z)
| Error_ending_session
| Info_cleanup_completed (sessions : nat)
| Error_during_cleanup.

(** The exception [sqlite3.Error] leaving a method. *)
Inductive Exception : Type := sqlite3_Error.

(** The attributes of a [SQLiteManager] together with the file it has
    open. *)
Record SQLiteManager : Type := mkSQLiteManager {
  user_id : option string;
  user_email : option string;
  blink_queue : Queue;
  batch_size : nat;
  batch_timeout : Q;
  current_session_id : option nat;
  db : Database;
  logged : list LogRecord
}.

(** [__init__] on the file contents [d]. *)
Definition init (d : Database) (user : option (string * string)) : SQLiteManager :=
  mkSQLiteManager (option_map fst user) (option_map snd user)
    Queue_new 50 (2 # 1) None d [].

Definition set_queue (q : Queue) (m : SQLiteManager) : SQLiteManager :=
  mkSQLiteManager (user_id m) (user_email m) q (batch_size m) (batch_timeout m)
    (current_session_id m) (db m) (logged m).

Definition set_current (c : option nat) (m : SQLiteManager) : SQLiteManager :=
  mkSQLiteManager (user_id m) (user_email m) (blink_queue m) (batch_size m)
    (batch_timeout m) c (db m) (logged m).

Definition set_db (d : Database) (m : SQLiteManager) : SQLiteManager :=
  mkSQLiteManager (user_id m) (user_email m) (blink_queue m) (batch_size m)
    (batch_timeout m) (current_session_id m) d (logged m).

Definition log (r : LogRecord) (m : SQLiteManager) : SQLiteManager :=
  mkSQLiteManager (user_id m) (user_email m) (blink_queue m) (batch_size m)
    (batch_timeout m) (current_session_id m) (db m) (logged m ++ [r]).

(** *** The background batch writer *)

(** The local variables of the thread [_process_blink_batches]. *)
Record Processor : Type := mkProcessor {
  batch : list BlinkData;
  last_batch_time : Q
}.

Definition blink_row (id : nat) (b : BlinkData) : BlinkRow :=
  mkBlinkRow id (bd_session_id b) None (bd_timestamp b) (bd_blink_count b)
    (bd_blink_rate b) (bd_eye_aspect_ratio b) (bd_is_synced b).

(** The [INSERT] statements of one transaction. *)
Fixpoint insert_rows (d : Database) (l : list BlinkData) : Database :=
  match l with
  | [] => d
  | b :: r =>
      insert_rows
        (mkDatabase (local_sessions d)
                    (blink_data d ++ [blink_row (S (seq_blink_data d)) b])
                    (seq_local_sessions d) (S (seq_blink_data d)))
        r
  end.

(** [_insert_blink_batch].  [fault] says that a statement of the
    transaction raises; the handler rolls back, logs and re-raises. *)
Definition _insert_blink_batch (fault : bool) (blink_data_list : list BlinkData)
           (m : SQLiteManager) : SQLiteManager * (Exception + unit) :=
  if fault then (log Error_inserting_blink_batch m, inl sqlite3_Error)
  else
    (log (Debug_inserted_batch (List.length blink_data_list))
         (set_db (insert_rows (db m) blink_data_list) m),
     inr tt).

Definition nonempty {A : Type} (l : list A) : bool :=
  match l with [] => false | _ => true end.

(** One pass through the body of [while not self._stop_processing.is_set()],
    run at clock value [current_time]. *)
Definition process_blink_batches_step (current_time : Q) (fault : bool)
           (s : SQLiteManager * Processor) : SQLiteManager * Processor :=
  let (m, p) := s in
  let (m, batch) :=
    match get (blink_queue m) with
    | Some (blink_data, q) => (set_queue q m, batch p ++ [blink_data])
    | None => (m, batch p)
    end in
  if Nat.leb (batch_size m) (List.length batch)
     || (nonempty batch
         && Py.Qgeb (current_time - last_batch_time p) (batch_timeout m))
  then
    if nonempty batch then
      match _insert_blink_batch fault batch m with
      | (m, inr _) => (m, mkProcessor [] current_time)
      | (m, inl _) =>
          (log Error_in_blink_batch_processing m,
           mkProcessor batch (last_batch_time p))
      end
    else (m, mkProcessor batch (last_batch_time p))
  else (m, mkProcessor batch (last_batch_time p)).

(** The statements after the loop ("Process remaining items"); the thread
    ends, and its [batch] with it. *)
Definition process_remaining_items (fault : bool)
           (s : SQLiteManager * Processor) : SQLiteManager :=
  let (m, p) := s in
  if nonempty (batch p) then
    match _insert_blink_batch fault (batch p) m with
    | (m, inr _) => m
    | (m, inl _) => log Error_processing_final_batch m
    end
  else m.

(** Successive passes of the loop, one clock value and fault flag each. *)
Definition process_blink_batches (passes : list (Q * bool))
           (s : SQLiteManager * Processor) : SQLiteManager * Processor :=
  fold_left (fun s pass => process_blink_batches_step (fst pass) (snd pass) s)
            passes s.

(** *** Sessions *)

Definition is_open (s : LocalSession) : bool :=
  match ls_end_time s with None => true | Some _ => false end.

(** [ORDER BY start_time DESC LIMIT 1]: a row with the largest
    [start_time], the earliest inserted among equals. *)
Definition latest (rows : list LocalSession) : option LocalSession :=
  fold_left
    (fun best r =>
       match best with
       | None => Some r
       | Some b => if ls_start_time b <? ls_start_time r then Some r else Some b
       end)
    rows None.

(** [SELECT id FROM local_sessions WHERE end_time IS NULL
     ORDER BY start_time DESC LIMIT 1] *)
Definition select_active_session (d : Database) : option nat :=
  option_map ls_id (latest (filter is_open (local_sessions d))).

(** [auto_create_session]; an sqlite error is logged and re-raised. *)
Definition auto_create_session (now : datetime) (fault : bool) (m : SQLiteManager)
  : SQLiteManager * (Exception + nat) :=
  if fault then (log Error_auto_creating_session m, inl sqlite3_Error)
  else
    match select_active_session (db m) with
    | Some session_id =>
        (set_current (Some session_id)
                     (log (Info_using_existing_session session_id) m),
         inr session_id)
    | None =>
        let d := db m in
        let session_id := S (seq_local_sessions d) in
        let row :=
          mkLocalSession session_id (user_id m) (user_email m) now None
                         0 (0 # 1) (Some (0 # 1)%Q) 0 false None now in
        (set_current (Some session_id)
           (log (Info_auto_created_session session_id)
              (set_db (mkDatabase (local_sessions d ++ [row]) (blink_data d)
                                  session_id (seq_blink_data d)) m)),
         inr session_id)
    end.

(** [SELECT AVG(blink_rate) FROM blink_data WHERE session_id = ?] *)
Definition avg_blink_rate_of (d : Database) (session_id : nat) : option Q :=
  match filter (fun r => Nat.eqb (row_session_id r) session_id) (blink_data d) with
  | [] => None
  | rows => Some (Py.sum (map row_blink_rate rows) / Py.len rows)%Q
  end.

(** The [SET] clause of [_update_session_totals]. *)
Definition set_totals (blink_count : Z) (blink_rate : Q) (avg : option Q)
           (s : LocalSession) : LocalSession :=
  mkLocalSession (ls_id s) (ls_user_id s) (ls_user_email s) (ls_start_time s)
    (ls_end_time s) blink_count
    (if Py.Qgtb blink_rate (ls_max_blink_rate s) then blink_rate
     else ls_max_blink_rate s)
    avg (ls_session_duration s) (ls_is_synced s) (ls_cloud_session_id s)
    (ls_created_at s).

(** [UPDATE local_sessions SET ... WHERE id = ?] *)
Definition update_where_id (id : nat) (f : LocalSession -> LocalSession)
           (d : Database) : Database :=
  mkDatabase
    (map (fun s => if Nat.eqb (ls_id s) id then f s else s) (local_sessions d))
    (blink_data d) (seq_local_sessions d) (seq_blink_data d).

(** [_update_session_totals]; an sqlite error is logged and swallowed.
    With no current session the [WHERE id = NULL] matches no row. *)
Definition _update_session_totals (fault : bool) (blink_count : Z)
           (blink_rate : Q) (m : SQLiteManager) : SQLiteManager :=
  if fault then log Error_updating_session_totals m
  else
    match current_session_id m with
    | None => m
    | Some id =>
        set_db (update_where_id id
                  (set_totals blink_count blink_rate (avg_blink_rate_of (db m) id))
                  (db m)) m
    end.

(** [log_blink], called at wall-clock [now]; [fault] is the oracle of
    [_update_session_totals].  The handler [except queue.Full] is the [None]
    branch of the put; the last handler, [except Exception], has nothing left
    to catch, [_update_session_totals] swallowing its own errors. *)
Definition log_blink (now : datetime) (fault : bool) (blink_count : Z)
           (blink_rate : Q) (eye_aspect_ratio : option Q) (m : SQLiteManager)
  : SQLiteManager :=
  match current_session_id m with
  | None => log Warning_no_active_session m
  | Some session_id =>
      let blink_data :=
        mkBlinkData None session_id (user_id m) now blink_count blink_rate
                    eye_aspect_ratio false in
      match put_nowait (blink_queue m) blink_data with
      | None => log Warning_queue_full_dropping m
      | Some q =>
          log (Debug_blink_logged blink_count blink_rate)
              (_update_session_totals fault blink_count blink_rate
                 (set_queue q m))
      end
  end.

(** [get_session] *)
Definition get_session (session_id : nat) (m : SQLiteManager) : option LocalSession :=
  find (fun s => Nat.eqb (ls_id s) session_id) (local_sessions (db m)).

Definition set_end (end_time : datetime) (s : LocalSession) : LocalSession :=
  mkLocalSession (ls_id s) (ls_user_id s) (ls_user_email s) (ls_start_time s)
    (Some end_time) (ls_total_blinks s) (ls_max_blink_rate s)
    (ls_avg_blink_rate s)
    (Z.quot (end_time - ls_start_time s) 1000000)
    (ls_is_synced s) (ls_cloud_session_id s) (ls_created_at s).

(** Result of a call that may sit in
    [while not self.blink_queue.empty(): time.sleep(0.1)]. *)
Inductive Outcome (A : Type) : Type :=
| Returned (m : SQLiteManager) (result : A)
| Waiting.
Arguments Returned {A} m result.
Arguments Waiting {A}.

(** [end_current_session], called at wall-clock [now]. *)
Definition end_current_session (now : datetime) (fault : bool) (m : SQLiteManager)
  : Outcome (option LocalSession) :=
  match current_session_id m with
  | None => Returned m None
  | Some session_id =>
      if negb (empty (blink_queue m)) then Waiting
      else if fault then Returned (log Error_ending_session m) None
      else
        match get_session session_id m with
        | None => Returned (log Error_ending_session m) None
        | Some _ =>
            let m := set_db (update_where_id session_id (set_end now) (db m)) m in
            match get_session session_id m with
            | Some session_data =>
                Returned
                  (log (Info_session_ended (ls_id session_data)
                                           (ls_total_blinks session_data))
                       (set_current None m))
                  (Some session_data)
            | None => Returned (log Error_ending_session (set_current None m)) None
            end
        end
  end.

(** [cleanup_old_data]: closed sessions older than the horizon go, and
    their [blink_data] rows with them ([ON DELETE CASCADE]). *)
Definition cleanup_old_data (now : datetime) (days_to_keep : Z) (fault : bool)
           (m : SQLiteManager) : SQLiteManager :=
  if fault then log Error_during_cleanup m
  else
    let cutoff_date := now - days_to_keep * 86400 * 1000000 in
    let d := db m in
    let old s := (ls_start_time s <? cutoff_date) && negb (is_open s) in
    let kept := filter (fun s => negb (old s)) (local_sessions d) in
    let alive sid := existsb (fun s => Nat.eqb (ls_id s) sid) kept in
    log (Info_cleanup_completed (List.length (filter old (local_sessions d))))
        (set_db (mkDatabase kept
                   (filter (fun r => alive (row_session_id r)) (blink_data d))
                   (seq_local_sessions d) (seq_blink_data d)) m).

(** *** The process as a transition system *)

Inductive Call : Type :=
| Call_auto_create_session (now : datetime) (fault : bool)
| Call_log_blink (now : datetime) (fault : bool) (blink_count : Z)
                 (blink_rate : Q) (eye_aspect_ratio : option Q)
| Call_end_current_session (now : datetime) (fault : bool)
| Call_cleanup_old_data (now : datetime) (days_to_keep : Z) (fault : bool)
| Writer_pass (current_time : Q) (fault : bool)
| Restart (fault : bool) (user : option (string * string)) (clock : Q).

(** One method call by the application, one pass of the writer thread, or
    [close()] followed by a new [SQLiteManager] on the same file. *)
Definition step (c : Call) (s : SQLiteManager * Processor)
  : SQLiteManager * Processor :=
  match c with
  | Call_auto_create_session now fault =>
      (fst (auto_create_session now fault (fst s)), snd s)
  | Call_log_blink now fault n r e => (log_blink now fault n r e (fst s), snd s)
  | Call_end_current_session now fault =>
      match end_current_session now fault (fst s) with
      | Returned m _ => (m, snd s)
      | Waiting => s
      end
  | Call_cleanup_old_data now days fault =>
      (cleanup_old_data now days fault (fst s), snd s)
  | Writer_pass t fault => process_blink_batches_step t fault s
  | Restart fault user clock =>
      (init (db (process_remaining_items fault s)) user, mkProcessor [] clock)
  end.

Definition run (calls : list Call) (s : SQLiteManager * Processor)
  : SQLiteManager * Processor :=
  fold_left (fun s c => step c s) calls s.

(** First start on a fresh file. *)
Definition initial (user : option (string * string)) (clock : Q)
  : SQLiteManager * Processor :=
  (init empty_database user, mkProcessor [] clock).

End Desktop.

(** ** The other routes of [routes/sessions.py] and [routes/sync.py] *)

Module Routes.

Import Cloud.

(** *** GET /{session_id}, DELETE /{session_id} (sessions.py) *)

Definition is_some {A : Type} (o : option A) : bool := negb (is_none o).

(** The answer built from a stored session by [get_session_details] and
    [get_session_history]: the duration is computed from the two timestamps,
    0 while the session is open. *)
Definition session_response (session : CloudSession) : SessionResponse :=
  let duration :=
    match cs_end_time session with
    | Some e => calculate_session_duration (cs_start_time session) e
    | None => 0
    end in
  mkSessionResponse (cs_id session) (cs_start_time session) (cs_end_time session)
    duration (cs_total_blinks session) (cs_avg_blink_rate session)
    (cs_max_blink_rate session) (cs_health_score session)
    (if is_some (cs_end_time session) then ENDED else ACTIVE).

(** [get_session_details].  The path parameter is a string; [None] stands for
    one that [uuid.UUID] rejects. *)
Definition get_session_details (session_id : option uuid) (current_user : uuid)
           (db : DB) : HTTPException + SessionResponse :=
  match session_id with
  | None => inl HTTP_400_BAD_REQUEST
  | Some id =>
      match find (has_id id) (cloud_sessions db) with
      | None => inl HTTP_404_NOT_FOUND
      | Some session =>
          if negb (Nat.eqb (cs_user_id session) current_user)
          then inl HTTP_403_FORBIDDEN
          else inr (session_response session)
      end
  end.

(** [delete_session]: the row goes, and with it the samples that refer to it
    ([cascade="all, delete-orphan"], [ondelete="CASCADE"]). *)
Definition delete_session (session_id : option uuid) (current_user : uuid)
           (db : DB) : HTTPException + DB :=
  match session_id with
  | None => inl HTTP_400_BAD_REQUEST
  | Some id =>
      match find (has_id id) (cloud_sessions db) with
      | None => inl HTTP_404_NOT_FOUND
      | Some session =>
          if negb (Nat.eqb (cs_user_id session) current_user)
          then inl HTTP_403_FORBIDDEN
          else
            inr (mkDB (filter (fun s => negb (has_id id s)) (cloud_sessions db))
                      (filter (fun r => negb (Nat.eqb (sd_session_id r) id))
                              (session_data db))
                      (next_uuid db))
      end
  end.

(** *** GET /history (sessions.py) *)






(** *** GET /download, POST /manual (sync.py) *)





(** [db.query(SessionData).filter(SessionData.session_id == session.id).all()] *)
Definition data_points (db : DB) (session_id : uuid) : list SessionData :=
  filter (fun r => Nat.eqb (sd_session_id r) session_id) (session_data db).


Definition owned_by (current_user : uuid) (s : CloudSession) : bool :=
  Nat.eqb (cs_user_id s) current_user.


(** [manual_sync]: counts, no writes. *)
Definition manual_sync (current_user : uuid) (db : DB) : SyncResponse :=
  let sessions := filter (owned_by current_user) (cloud_sessions db) in
  let total_data_points :=
    fold_left (fun total session =>
                 total + Z.of_nat (List.length (data_points db (cs_id session))))
              sessions 0 in
  mkSyncResponse (Z.of_nat (List.length sessions)) total_data_points []
                 "manual_sync_completed".

(** *** POST /resolve-conflicts (sync.py) *)

(** The value of ["resolution_type"]: the three the route knows, or any other
    non-empty string. *)
Inductive ResolutionType : Type := Keep_local | Keep_cloud | Merge | Unknown.

(** A non-empty ["local_data"] object. *)
Record LocalData : Type := mkLocalData {
  ld_total_blinks : option Z;
  ld_avg_blink_rate : option Q;
  ld_max_blink_rate : option Q;
  ld_health_score : option Z
}.

(** One element of [conflict_resolutions]; [None] is a missing key or a value
    that counts as false (empty string, empty object). *)
Record Resolution : Type := mkResolution {
  res_conflict_id : option string;
  res_resolution_type : option ResolutionType;
  res_session_id : option uuid;
  res_local_data : option LocalData
}.

Definition set_resolved (total : Z) (avg mx : Q) (health : option Z)
           (s : CloudSession) : CloudSession :=
  mkCloudSession (cs_id s) (cs_user_id s) (cs_local_session_id s) (cs_start_time s)
    (cs_end_time s) total avg mx (cs_session_duration s) health.

(** [resolution_type == "local"] *)
Definition apply_local (local_data : LocalData) (session : CloudSession) : CloudSession :=
  set_resolved
    (Py.get (ld_total_blinks local_data) (cs_total_blinks session))
    (Py.get (ld_avg_blink_rate local_data) (cs_avg_blink_rate session))
    (Py.get (ld_max_blink_rate local_data) (cs_max_blink_rate session))
    (match ld_health_score local_data with
     | Some h => Some h
     | None => cs_health_score session
     end)
    session.

(** [local_health > session.health_score], the latter not [None]. *)
Definition better_health (local_health : Z) (stored : option Z) : bool :=
  match stored with None => true | Some h => local_health >? h end.

(** [resolution_type == "merge"] *)
Definition apply_merge (local_data : LocalData) (session : CloudSession) : CloudSession :=
  set_resolved
    (Py.max2 Z.gtb (cs_total_blinks session) (Py.get (ld_total_blinks local_data) 0))
    (Py.max2 Py.Qgtb (cs_avg_blink_rate session)
             (Py.get (ld_avg_blink_rate local_data) (0 # 1)%Q))
    (Py.max2 Py.Qgtb (cs_max_blink_rate session)
             (Py.get (ld_max_blink_rate local_data) (0 # 1)%Q))
    (match ld_health_score local_data with
     | Some local_health =>
         if negb (Z.eqb local_health 0)
            && better_health local_health (cs_health_score session)
         then Some local_health else cs_health_score session
     | None => cs_health_score session
     end)
    session.

(** What one resolution of a known session does to it. *)
Definition apply_resolution (resolution : Resolution) (session : CloudSession)
  : CloudSession :=
  match res_resolution_type resolution, res_local_data resolution with
  | Some Keep_local, Some local_data => apply_local local_data session
  | Some Merge, Some local_data => apply_merge local_data session
  | _, _ => session
  end.

Definition truthy_string (o : option string) : bool :=
  match o with Some EmptyString => false | Some _ => true | None => false end.

(** One iteration of [for resolution in conflict_resolutions]. *)
Definition resolve_one (current_user : uuid) (acc : DB * Z) (resolution : Resolution)
  : DB * Z :=
  let (db, resolved_conflicts) := acc in
  match res_resolution_type resolution, res_session_id resolution with
  | Some _, Some session_id =>
      if negb (truthy_string (res_conflict_id resolution)) then acc
      else
        let mine s := has_id session_id s && owned_by current_user s in
        match find mine (cloud_sessions db) with
        | None => acc
        | Some _ =>
            (mkDB (Py.update_first mine (apply_resolution resolution)
                                   (cloud_sessions db))
                  (session_data db) (next_uuid db),
             resolved_conflicts + 1)
        end
  | _, _ => acc
  end.

(** [resolve_conflicts]: the store after the commit and [resolved_conflicts]. *)
Definition resolve_conflicts (conflict_resolutions : list Resolution)
           (current_user : uuid) (db : DB) : DB * Z :=
  fold_left (resolve_one current_user) conflict_resolutions (db, 0).

End Routes.

(** ** Further methods of [SQLiteManager] *)

Module Store.

Import Desktop.

(** [get_current_session] *)
Definition get_current_session (m : SQLiteManager) : option LocalSession :=
  match current_session_id m with
  | None => None
  | Some session_id => get_session session_id m
  end.

End Store.

(** ** [desktop/services/session_manager.py]: the two session tracks *)

Module Manager.

Definition datetime := Z.

Inductive SessionType : Type := LOCAL | CLOUD.

Inductive SessionState : Type := INACTIVE | ACTIVE | PAUSED | ENDED.

Definition SessionState_eqb (a b : SessionState) : bool :=
  match a, b with
  | INACTIVE, INACTIVE | ACTIVE, ACTIVE | PAUSED, PAUSED | ENDED, ENDED => true
  | _, _ => false
  end.

(** The two ways a [session_id] string is built: [str(session_id)] of a
    key of [local_sessions], and [f"cloud_{int(time.time())}"]. *)
Inductive SessionId : Type :=
| Str (session_id : nat)
| Cloud_ (seconds : Z).

(** The dataclass [SessionInfo].  [blink_rate] is annotated [float] but
    receives [ended_session.avg_blink_rate], which can be [None]. *)
Record SessionInfo : Type := mkSessionInfo {
  session_id : SessionId;
  session_type : SessionType;
  state : SessionState;
  start_time : datetime;
  end_time : option datetime;
  total_blinks : Z;
  blink_rate : option Q;
  duration_seconds : Z;
  is_synced : bool
}.

(** A registered callable, by name.  A callback is taken not to call back
    into the manager. *)
Definition Callback := nat.

(** What the methods hand to [logger]. *)
Inductive LogRecord : Type :=
| Info_session_manager_initialized
| Info_user_authenticated (email : option string)
| Info_no_user_authentication
| Info_local_session_auto_started (session_id : nat)
| Error_auto_starting_local_session
| Warning_cannot_start_cloud_session
| Info_cloud_session_already_active
| Info_cloud_session_started (cloud_session_id : SessionId)
| Info_session_paused (session_type : SessionType)
| Info_session_resumed (session_type : SessionType)
| Info_local_session_ended (total_blinks : Z)
| Info_cloud_session_ended
| Info_session_manager_cleaned_up.

(** The attributes of a [SessionManager]; [user_data] is the pair of its
    ['id'] and ['email'] entries, [called] the callbacks invoked so far. *)
Record SessionManager : Type := mkSessionManager {
  db_manager : Desktop.SQLiteManager;
  user_data : option (string * string);
  user_id : option string;
  _local_session : option SessionInfo;
  _cloud_session : option SessionInfo;
  _state_change_callbacks : list Callback;
  _session_update_callbacks : list Callback;
  called : list Callback;
  logged : list LogRecord
}.

Definition set_db_manager (d : Desktop.SQLiteManager) (m : SessionManager)
  : SessionManager :=
  mkSessionManager d (user_data m) (user_id m) (_local_session m) (_cloud_session m)
    (_state_change_callbacks m) (_session_update_callbacks m) (called m) (logged m).

Definition set_local (l : option SessionInfo) (m : SessionManager) : SessionManager :=
  mkSessionManager (db_manager m) (user_data m) (user_id m) l (_cloud_session m)
    (_state_change_callbacks m) (_session_update_callbacks m) (called m) (logged m).

Definition set_cloud (c : option SessionInfo) (m : SessionManager) : SessionManager :=
  mkSessionManager (db_manager m) (user_data m) (user_id m) (_local_session m) c
    (_state_change_callbacks m) (_session_update_callbacks m) (called m) (logged m).

Definition log (r : LogRecord) (m : SessionManager) : SessionManager :=
  mkSessionManager (db_manager m) (user_data m) (user_id m) (_local_session m)
    (_cloud_session m) (_state_change_callbacks m) (_session_update_callbacks m)
    (called m) (logged m ++ [r]).

(** [register_state_change_callback] *)
Definition register_state_change_callback (callback : Callback) (m : SessionManager)
  : SessionManager :=
  mkSessionManager (db_manager m) (user_data m) (user_id m) (_local_session m)
    (_cloud_session m) (_state_change_callbacks m ++ [callback])
    (_session_update_callbacks m) (called m) (logged m).

(** [register_session_update_callback] *)
Definition register_session_update_callback (callback : Callback) (m : SessionManager)
  : SessionManager :=
  mkSessionManager (db_manager m) (user_data m) (user_id m) (_local_session m)
    (_cloud_session m) (_state_change_callbacks m)
    (_session_update_callbacks m ++ [callback]) (called m) (logged m).

(** [_notify_state_change]: each registered callback once, in order. *)
Definition _notify_state_change (m : SessionManager) : SessionManager :=
  mkSessionManager (db_manager m) (user_data m) (user_id m) (_local_session m)
    (_cloud_session m) (_state_change_callbacks m) (_session_update_callbacks m)
    (called m ++ _state_change_callbacks m) (logged m).

(** [_notify_session_update] *)
Definition _notify_session_update (m : SessionManager) : SessionManager :=
  mkSessionManager (db_manager m) (user_data m) (user_id m) (_local_session m)
    (_cloud_session m) (_state_change_callbacks m) (_session_update_callbacks m)
    (called m ++ _session_update_callbacks m) (logged m).

(** Truth value of [self.user_id]. *)
Definition truthy (o : option string) : bool :=
  match o with Some EmptyString => false | Some _ => true | None => false end.

(** [session and session.state == st] *)
Definition in_state (st : SessionState) (session : option SessionInfo) : bool :=
  match session with
  | Some s => SessionState_eqb (state s) st
  | None => false
  end.

Definition set_state (st : SessionState) (s : SessionInfo) : SessionInfo :=
  mkSessionInfo (session_id s) (session_type s) st (start_time s) (end_time s)
    (total_blinks s) (blink_rate s) (duration_seconds s) (is_synced s).

(** [int((b - a).total_seconds())] *)
Definition seconds_between (a b : datetime) : Z := Z.quot (b - a) 1000000.

(** [_auto_start_local_session]: [db_now] is the clock as
    [auto_create_session] reads it and [fault] its oracle, [now] the clock
    read for the [SessionInfo]. *)
Definition _auto_start_local_session (db_now now : datetime) (fault : bool)
           (m : SessionManager) : SessionManager :=
  match Desktop.auto_create_session db_now fault (db_manager m) with
  | (d, inl _) => log Error_auto_starting_local_session (set_db_manager d m)
  | (d, inr session_id) =>
      _notify_state_change
        (log (Info_local_session_auto_started session_id)
           (set_local
              (Some (mkSessionInfo (Str session_id) LOCAL ACTIVE now None
                                   0 (Some (0 # 1)%Q) 0 false))
              (set_db_manager d m)))
  end.

(** [__init__] *)
Definition init (db_manager : Desktop.SQLiteManager)
           (user_data : option (string * string))
           (db_now now : datetime) (fault : bool) : SessionManager :=
  let m :=
    log Info_session_manager_initialized
      (_auto_start_local_session db_now now fault
         (mkSessionManager db_manager user_data (option_map fst user_data)
                           None None [] [] [] [])) in
  if truthy (user_id m)
  then log (Info_user_authenticated (option_map snd user_data)) m
  else log Info_no_user_authentication m.

(** [start_cloud_session]; [seconds] is [int(time.time())]. *)
Definition start_cloud_session (seconds : Z) (now : datetime) (m : SessionManager)
  : SessionManager * bool :=
  if negb (truthy (user_id m))
  then (log Warning_cannot_start_cloud_session m, false)
  else if in_state ACTIVE (_cloud_session m)
  then (log Info_cloud_session_already_active m, true)
  else
    let cloud_session_id := Cloud_ seconds in
    (_notify_state_change
       (log (Info_cloud_session_started cloud_session_id)
          (set_cloud
             (Some (mkSessionInfo cloud_session_id CLOUD ACTIVE now None
                                  0 (Some (0 # 1)%Q) 0 true)) m)),
     true).

(** The session of a track and its assignment. *)
Definition session_of (session_type : SessionType) (m : SessionManager)
  : option SessionInfo :=
  match session_type with
  | LOCAL => _local_session m
  | CLOUD => _cloud_session m
  end.

Definition set_session (session_type : SessionType) (s : option SessionInfo)
           (m : SessionManager) : SessionManager :=
  match session_type with
  | LOCAL => set_local s m
  | CLOUD => set_cloud s m
  end.

(** [pause_session]: the two branches differ in the attribute only. *)
Definition pause_session (session_type : SessionType) (m : SessionManager)
  : SessionManager * bool :=
  match session_of session_type m with
  | Some s =>
      if SessionState_eqb (state s) ACTIVE
      then (_notify_state_change
              (log (Info_session_paused session_type)
                 (set_session session_type (Some (set_state PAUSED s)) m)),
            true)
      else (m, false)
  | None => (m, false)
  end.

(** [resume_session] *)
Definition resume_session (session_type : SessionType) (m : SessionManager)
  : SessionManager * bool :=
  match session_of session_type m with
  | Some s =>
      if SessionState_eqb (state s) PAUSED
      then (_notify_state_change
              (log (Info_session_resumed session_type)
                 (set_session session_type (Some (set_state ACTIVE s)) m)),
            true)
      else (m, false)
  | None => (m, false)
  end.

(** The three assignments that open both branches of [stop_session]. *)
Definition ended (now : datetime) (s : SessionInfo) : SessionInfo :=
  mkSessionInfo (session_id s) (session_type s) ENDED (start_time s) (Some now)
    (total_blinks s) (blink_rate s) (seconds_between (start_time s) now)
    (is_synced s).

Definition set_stats (total : Z) (rate : option Q) (s : SessionInfo) : SessionInfo :=
  mkSessionInfo (session_id s) (session_type s) (state s) (start_time s) (end_time s)
    total rate (duration_seconds s) (is_synced s).

(** [stop_session]; [db_now] and [fault] belong to [end_current_session].
    [None]: the call sits in [end_current_session], which waits for the
    queue to be empty, and has not returned. *)
Definition stop_session (now db_now : datetime) (fault : bool)
           (session_type : SessionType) (m : SessionManager)
  : option (SessionManager * bool) :=
  match session_type with
  | LOCAL =>
      match _local_session m with
      | Some s =>
          match Desktop.end_current_session db_now fault (db_manager m) with
          | Desktop.Waiting => None
          | Desktop.Returned d ended_session =>
              let s :=
                match ended_session with
                | Some e =>
                    set_stats (Desktop.ls_total_blinks e) (Desktop.ls_avg_blink_rate e)
                              (ended now s)
                | None => ended now s
                end in
              Some (_notify_state_change
                      (log (Info_local_session_ended (total_blinks s))
                         (set_local (Some s) (set_db_manager d m))),
                    true)
          end
      | None => Some (m, false)
      end
  | CLOUD =>
      match _cloud_session m with
      | Some s =>
          Some (_notify_state_change
                  (log Info_cloud_session_ended (set_cloud (Some (ended now s)) m)),
                true)
      | None => Some (m, false)
      end
  end.

(** The clock readings and database oracles of one [reset_session] or
    [cleanup]: those of the [stop_session] inside it, then those of the
    start. *)
Record Readings : Type := mkReadings {
  stop_now : datetime;
  stop_db_now : datetime;
  stop_fault : bool;
  start_db_now : datetime;
  start_now : datetime;
  start_fault : bool;
  start_seconds : Z
}.

(** [reset_session] *)
Definition reset_session (r : Readings) (session_type : SessionType)
           (m : SessionManager) : option (SessionManager * bool) :=
  match session_type with
  | LOCAL =>
      let stopped :=
        match _local_session m with
        | Some _ =>
            option_map fst (stop_session (stop_now r) (stop_db_now r) (stop_fault r)
                                         LOCAL m)
        | None => Some m
        end in
      match stopped with
      | None => None
      | Some m =>
          Some (_auto_start_local_session (start_db_now r) (start_now r)
                                          (start_fault r) m,
                true)
      end
  | CLOUD =>
      let stopped :=
        match _cloud_session m with
        | Some _ =>
            option_map fst (stop_session (stop_now r) (stop_db_now r) (stop_fault r)
                                         CLOUD m)
        | None => Some m
        end in
      match stopped with
      | None => None
      | Some m => Some (start_cloud_session (start_seconds r) (start_now r) m)
      end
  end.

(** [get_session_info] *)
Definition get_session_info (session_type : SessionType) (m : SessionManager)
  : option SessionInfo := session_of session_type m.

(** The assignments of one branch of [update_session_stats]. *)
Definition updated (now : datetime) (blink_count : Z) (blink_rate : Q)
           (session : option SessionInfo) : option SessionInfo :=
  match session with
  | Some s =>
      if SessionState_eqb (state s) ACTIVE
      then Some (mkSessionInfo (session_id s) (session_type s) (state s)
                               (start_time s) (end_time s) blink_count
                               (Some blink_rate)
                               (seconds_between (start_time s) now) (is_synced s))
      else Some s
  | None => None
  end.

(** [update_session_stats]; the clock is read once in each branch. *)
Definition update_session_stats (now_local now_cloud : datetime)
           (blink_count : Z) (blink_rate : Q) (m : SessionManager) : SessionManager :=
  _notify_session_update
    (set_cloud (updated now_cloud blink_count blink_rate (_cloud_session m))
       (set_local (updated now_local blink_count blink_rate (_local_session m)) m)).

(** [cleanup]: [stop_now], [stop_db_now] and [stop_fault] serve the local
    stop, [start_now] the cloud one. *)
Definition cleanup (r : Readings) (m : SessionManager) : option SessionManager :=
  let local_done :=
    if in_state ACTIVE (_local_session m)
    then option_map fst (stop_session (stop_now r) (stop_db_now r) (stop_fault r)
                                      LOCAL m)
    else Some m in
  match local_done with
  | None => None
  | Some m =>
      let cloud_done :=
        if in_state ACTIVE (_cloud_session m)
        then option_map fst (stop_session (start_now r) (stop_db_now r) (stop_fault r)
                                          CLOUD m)
        else Some m in
      match cloud_done with
      | None => None
      | Some m =>
          Some (log Info_session_manager_cleaned_up
                  (mkSessionManager (db_manager m) (user_data m) (user_id m)
                     (_local_session m) (_cloud_session m) [] []
                     (called m) (logged m)))
      end
  end.

(** *** The manager, the tracker and the writer thread as a transition system *)

Inductive Call : Type :=
| Call_start_cloud_session (seconds : Z) (now : datetime)
| Call_pause_session (session_type : SessionType)
| Call_resume_session (session_type : SessionType)
| Call_stop_session (now db_now : datetime) (fault : bool)
                    (session_type : SessionType)
| Call_reset_session (r : Readings) (session_type : SessionType)
| Call_update_session_stats (now_local now_cloud : datetime)
                            (blink_count : Z) (blink_rate : Q)
| Call_register_state_change_callback (callback : Callback)
| Call_register_session_update_callback (callback : Callback)
| Call_cleanup (r : Readings)
| Tracker_log_blink (now : datetime) (fault : bool) (blink_count : Z)
                    (blink_rate : Q) (eye_aspect_ratio : option Q)
| Writer_pass (current_time : Q) (fault : bool).

(** One call on the manager, one [db_manager.log_blink] by the tracker or
    one pass of the writer thread.  A call that would wait for the queue is
    not taken at this state. *)
Definition step (c : Call) (s : SessionManager * Desktop.Processor)
  : SessionManager * Desktop.Processor :=
  let m := fst s in
  match c with
  | Call_start_cloud_session seconds now =>
      (fst (start_cloud_session seconds now m), snd s)
  | Call_pause_session t => (fst (pause_session t m), snd s)
  | Call_resume_session t => (fst (resume_session t m), snd s)
  | Call_stop_session now db_now fault t =>
      match stop_session now db_now fault t m with
      | Some (m', _) => (m', snd s)
      | None => s
      end
  | Call_reset_session r t =>
      match reset_session r t m with
      | Some (m', _) => (m', snd s)
      | None => s
      end
  | Call_update_session_stats now_local now_cloud n rate =>
      (update_session_stats now_local now_cloud n rate m, snd s)
  | Call_register_state_change_callback c =>
      (register_state_change_callback c m, snd s)
  | Call_register_session_update_callback c =>
      (register_session_update_callback c m, snd s)
  | Call_cleanup r =>
      match cleanup r m with
      | Some m' => (m', snd s)
      | None => s
      end
  | Tracker_log_blink now fault n rate e =>
      (set_db_manager (Desktop.log_blink now fault n rate e (db_manager m)) m, snd s)
  | Writer_pass t fault =>
      let s' := Desktop.process_blink_batches_step t fault (db_manager m, snd s) in
      (set_db_manager (fst s') m, snd s')
  end.

Definition run (calls : list Call) (s : SessionManager * Desktop.Processor)
  : SessionManager * Desktop.Processor :=
  fold_left (fun s c => step c s) calls s.

End Manager.

(** ** The specification's own formulations, for comparison with the code *)

Module Spec.

(** "deduct 20 if avg_rate < 10, 15 if > 30, 10 if in (25,30]" *)
Definition rate_deduction (a : Q) : Z :=
  if Qlt_le_dec a (10 # 1) then 20
  else if Qlt_le_dec (30 # 1) a then 15
  else if Qlt_le_dec (25 # 1) a then 10
  else 0.

(** "deduct 20 if duration > 7200s, 10 if > 3600s" *)
Definition duration_deduction (d : Z) : Z :=
  if Z_lt_dec 7200 d then 20
  else if Z_lt_dec 3600 d then 10
  else 0.

(** "clamp to [0,100]" *)
Definition clamp (x : Z) : Z :=
  if Z_lt_dec x 0 then 0 else if Z_lt_dec 100 x then 100 else x.

Definition derived_score (a : Q) (d : Z) : Z :=
  clamp (100 - rate_deduction a - duration_deduction d).


End Spec.

(** ** Concrete data used by the scenarios below *)

Module Examples.

Import Cloud.

Definition alice : uuid := 7%nat.

(** 2023-11-14T22:13:20 in microseconds. *)
Definition T : datetime := 1700000000000000.

Definition point (t : datetime) (count : Z) (rate : Q) : DataPoint :=
  mkDataPoint (Some t) (Some count) (Some rate) None None None.

(** A remote session that started at [T] and counts 30 blinks so far. *)
Definition remote_30 : CloudSession :=
  mkCloudSession 1%nat alice (Some 5) T None 30 (12 # 1) (20 # 1) 0 None.

Definition remote_db : DB := mkDB [remote_30] [] 2%nat.

(** The local session that started at [T]; its last sample counts 40. *)
Definition local_40 : LocalSessionDict :=
  mkLocalSessionDict (Some 5) (Some T) (Some (T + 60000000))
    [point (T + 1000000) 10 (15 # 1);
     point (T + 2000000) 25 (18 # 1);
     point (T + 3000000) 40 (24 # 1)].

Definition upload_40 : SyncUploadRequest := mkSyncUploadRequest alice [local_40].

(** Both sides closed the session that started at [T], at different times. *)
Definition remote_closed : CloudSession :=
  mkCloudSession 1%nat alice (Some 5) T (Some (T + 90000000)) 30 (12 # 1) (20 # 1)
                 90 (Some 100).

Definition remote_closed_db : DB := mkDB [remote_closed] [] 2%nat.

(** Two local sessions, both still open, with different start times. *)
Definition open_at (local_id : Z) (t : datetime) : LocalSessionDict :=
  mkLocalSessionDict (Some local_id) (Some t) None [].

Definition upload_two_open : SyncUploadRequest :=
  mkSyncUploadRequest alice [open_at 1 T; open_at 2 (T + 1000000)].

Definition empty_db : DB := mkDB [] [] 0%nat.

(** One local session, still open, that started a second after [T]. *)
Definition upload_one_open : SyncUploadRequest :=
  mkSyncUploadRequest alice [open_at 2 (T + 1000000)].

Definition end_request : SessionEndRequest :=
  mkSessionEndRequest 1%nat 40 (35 # 1) (50 # 1) 8000.

End Examples.

Module LocalExamples.

Import Desktop.

Definition T : datetime := 1700000000000000.

(** A manager just started on a fresh file, nobody signed in. *)
Definition fresh : SQLiteManager := init empty_database None.

(** ... after [auto_create_session]: session 1 is open and current. *)
Definition tracking : SQLiteManager := fst (auto_create_session T false fresh).

(** One sample waiting in the writer's batch, last flush at clock 0. *)
Definition sample : BlinkData :=
  mkBlinkData None 1 None (T + 1000000) 1 (15 # 1) None false.

Definition pending : SQLiteManager * Processor :=
  (tracking, mkProcessor [sample] (0 # 1)).

(** [n] samples logged in a row while the writer thread does not run. *)
Fixpoint flood (n : nat) : SQLiteManager :=
  match n with
  | O => tracking
  | S k => log_blink (T + Z.of_nat n) false (Z.of_nat n) (15 # 1) None (flood k)
  end.

End LocalExamples.

(** ** Predicates used to state the invariants *)

Module Inv.

(** A function on remote sessions that leaves the key columns alone. *)
Definition keeps_key (f : Cloud.CloudSession -> Cloud.CloudSession) : Prop :=
  forall s,
    Cloud.cs_id (f s) = Cloud.cs_id s /\
    Cloud.cs_user_id (f s) = Cloud.cs_user_id s /\
    Cloud.cs_start_time (f s) = Cloud.cs_start_time s.


(** The open remote sessions of one owner. *)
Definition open_sessions_of (user : Cloud.uuid) (l : list Cloud.CloudSession)
  : list Cloud.CloudSession :=
  filter (fun s => Nat.eqb (Cloud.cs_user_id s) user
                   && Cloud.is_none (Cloud.cs_end_time s)) l.

(** The open sessions of the local store. *)
Definition open_sessions (d : Desktop.Database) : list Desktop.LocalSession :=
  filter Desktop.is_open (Desktop.local_sessions d).

(** A remote session that is the same one, counting no less. *)
Definition no_less (s s' : Cloud.CloudSession) : Prop :=
  Cloud.cs_id s' = Cloud.cs_id s /\
  Cloud.cs_total_blinks s <= Cloud.cs_total_blinks s' /\
  (Cloud.cs_max_blink_rate s <= Cloud.cs_max_blink_rate s')%Q.

(** [l'] holds the sessions of [l], in place and counting no less, and
    possibly further ones after them. *)
Definition grown (l l' : list Cloud.CloudSession) : Prop :=
  exists kept extra, l' = kept ++ extra /\ Forall2 no_less l kept.

(** What [_update_session_totals] for session [id] with count [n] may do to a
    local row. *)
Definition totals_written (id : nat) (n : Z) (s s' : Desktop.LocalSession) : Prop :=
  Desktop.ls_id s' = Desktop.ls_id s /\
  (Desktop.ls_max_blink_rate s <= Desktop.ls_max_blink_rate s')%Q /\
  Desktop.ls_total_blinks s'
  = if Nat.eqb (Desktop.ls_id s) id then n else Desktop.ls_total_blinks s.

(** The writer's view after its [get]: the sample taken off the queue, if
    there was one, has joined the batch. *)
Definition taken (s : Desktop.SQLiteManager * Desktop.Processor)
  : Desktop.SQLiteManager * list Desktop.BlinkData :=
  match Desktop.get (Desktop.blink_queue (fst s)) with
  | Some (b, q) => (Desktop.set_queue q (fst s), Desktop.batch (snd s) ++ [b])
  | None => (fst s, Desktop.batch (snd s))
  end.

(** A flush is attempted in the pass at clock [t]: there is something to
    write, and the batch is full or the flush interval has elapsed. *)
Definition flush_due (t : Q) (s : Desktop.SQLiteManager * Desktop.Processor) : bool :=
  Desktop.nonempty (snd (taken s))
  && (Nat.leb (Desktop.batch_size (fst s)) (List.length (snd (taken s)))
      || Py.Qgeb (t - Desktop.last_batch_time (snd s))
                 (Desktop.batch_timeout (fst s))).

(** The columns an [INSERT] of [_insert_blink_batch] fills, as stored and as
    queued. *)
Definition row_content (r : Desktop.BlinkRow)
  : nat * Desktop.datetime * Z * Q * option Q * bool :=
  (Desktop.row_session_id r, Desktop.row_timestamp r, Desktop.row_blink_count r,
   Desktop.row_blink_rate r, Desktop.row_eye_aspect_ratio r, Desktop.row_is_synced r).

Definition item_content (b : Desktop.BlinkData)
  : nat * Desktop.datetime * Z * Q * option Q * bool :=
  (Desktop.bd_session_id b, Desktop.bd_timestamp b, Desktop.bd_blink_count b,
   Desktop.bd_blink_rate b, Desktop.bd_eye_aspect_ratio b, Desktop.bd_is_synced b).

End Inv.

(** ** Well-formedness of the stores and of requests *)

Module Wf.

(** The remote store as the routes leave it: primary keys are distinct, and
    no session or sample row refers to an identifier not yet handed out. *)
Definition cloud_ok (db : Cloud.DB) : Prop :=
  NoDup (map Cloud.cs_id (Cloud.cloud_sessions db)) /\
  Forall (fun s => (Cloud.cs_id s < Cloud.next_uuid db)%nat) (Cloud.cloud_sessions db) /\
  Forall (fun r => (Cloud.sd_session_id r < Cloud.next_uuid db)%nat)
         (Cloud.session_data db).

(** The key the upload matches on. *)
Definition key (s : Cloud.CloudSession) : Cloud.uuid * Cloud.datetime :=
  (Cloud.cs_user_id s, Cloud.cs_start_time s).

(** No two remote sessions of one owner share a start time. *)
Definition keys_distinct (l : list Cloud.CloudSession) : Prop := NoDup (map key l).

(** The sessions of a request that carry a start time. *)
Definition timed (sessions : list Cloud.LocalSessionDict) : list Cloud.LocalSessionDict :=
  filter (fun s => negb (Cloud.is_none (Cloud.start_time s))) sessions.

(** The number of samples in a list of sessions. *)
Definition samples (sessions : list Cloud.LocalSessionDict) : nat :=
  list_sum (map (fun s => List.length (Cloud.blink_data s)) sessions).

(** The remote row [e] already holds what an upload with this [end_time] and
    these samples would merge into it. *)
Definition absorbed (end_time : option Cloud.datetime)
           (blink_data : list Cloud.DataPoint) (e : Cloud.CloudSession) : Prop :=
  (end_time = None \/ Cloud.cs_end_time e <> None) /\
  match blink_data with
  | [] => True
  | d :: ds =>
      Cloud.total_blinks_of d ds <= Cloud.cs_total_blinks e /\
      (Cloud.avg_blink_rate_of d ds <= Cloud.cs_avg_blink_rate e)%Q /\
      (Cloud.max_blink_rate_of d ds <= Cloud.cs_max_blink_rate e)%Q
  end.

(** The local session [s] is found among [l] and absorbed there. *)
Definition covered (user : Cloud.uuid) (l : list Cloud.CloudSession)
           (s : Cloud.LocalSessionDict) : Prop :=
  forall t,
    Cloud.start_time s = Some t ->
    exists e,
      find (Cloud.same_start user t) l = Some e /\
      absorbed (Cloud.end_time s) (Cloud.blink_data s) e.


(** The samples [manual_sync] counts for sessions with the identifiers
    [ids]. *)
Definition counted (rows : list Cloud.SessionData) (ids : list Cloud.uuid) : nat :=
  list_sum
    (map (fun i => List.length
                     (filter (fun r => Nat.eqb (Cloud.sd_session_id r) i) rows))
         ids).

(** The identifiers of a user's sessions. *)
Definition ids_of (user : Cloud.uuid) (l : list Cloud.CloudSession) : list Cloud.uuid :=
  map Cloud.cs_id (filter (Routes.owned_by user) l).

(** The columns no conflict resolution writes. *)
Definition fixed_columns (s : Cloud.CloudSession)
  : Cloud.uuid * Cloud.uuid * option Z * Cloud.datetime * option Cloud.datetime * Z :=
  (Cloud.cs_id s, Cloud.cs_user_id s, Cloud.cs_local_session_id s,
   Cloud.cs_start_time s, Cloud.cs_end_time s, Cloud.cs_session_duration s).

(** [s'] shows no smaller aggregate and no worse health score than [s]. *)
Definition not_lowered (s s' : Cloud.CloudSession) : Prop :=
  Cloud.cs_total_blinks s <= Cloud.cs_total_blinks s' /\
  (Cloud.cs_avg_blink_rate s <= Cloud.cs_avg_blink_rate s')%Q /\
  (Cloud.cs_max_blink_rate s <= Cloud.cs_max_blink_rate s')%Q /\
  match Cloud.cs_health_score s with
  | None => True
  | Some h => exists h', Cloud.cs_health_score s' = Some h' /\ h <= h'
  end.

(** A resolution that does not ask to keep the local values. *)
Definition gentle (r : Routes.Resolution) : Prop :=
  Routes.res_resolution_type r <> Some Routes.Keep_local.

(** A resolution that keeps the cloud values or brings no local ones. *)
Definition idle (r : Routes.Resolution) : Prop :=
  Routes.res_resolution_type r = Some Routes.Keep_cloud \/
  Routes.res_resolution_type r = Some Routes.Unknown \/
  Routes.res_local_data r = None.

(** Every sample the local side holds, oldest first: the rows stored, then
    the writer's batch, then the queue. *)
Definition pipeline (s : Desktop.SQLiteManager * Desktop.Processor)
  : list (nat * Desktop.datetime * Z * Q * option Q * bool) :=
  map Inv.row_content (Desktop.blink_data (Desktop.db (fst s)))
      ++ map Inv.item_content (Desktop.batch (snd s))
      ++ map Inv.item_content (Desktop.items (Desktop.blink_queue (fst s))).

(** Calls after which samples may be gone: the retention sweep deletes rows,
    a restart abandons the queue. *)
Definition keeps_samples (c : Desktop.Call) : bool :=
  match c with
  | Desktop.Call_cleanup_old_data _ _ _ | Desktop.Restart _ _ _ => false
  | _ => true
  end.

(** The local file as the manager leaves it: keys are distinct and none
    exceeds its [AUTOINCREMENT] sequence. *)
Definition local_ok (d : Desktop.Database) : Prop :=
  NoDup (map Desktop.ls_id (Desktop.local_sessions d)) /\
  Forall (fun s => (Desktop.ls_id s <= Desktop.seq_local_sessions d)%nat)
         (Desktop.local_sessions d) /\
  NoDup (map Desktop.row_id (Desktop.blink_data d)) /\
  Forall (fun r => (Desktop.row_id r <= Desktop.seq_blink_data d)%nat)
         (Desktop.blink_data d).

(** The current session, if there is one, is a stored session that is still
    open. *)
Definition current_open (m : Desktop.SQLiteManager) : Prop :=
  match Desktop.current_session_id m with
  | None => True
  | Some id =>
      exists s,
        In s (Desktop.local_sessions (Desktop.db m)) /\
        Desktop.ls_id s = id /\ Desktop.ls_end_time s = None
  end.

(** What [resolve_session_conflicts] says about one local session. *)
Definition conflict_of (db : Cloud.DB) (user : Cloud.uuid) (s : Cloud.LocalSessionDict)
  : list Cloud.ConflictMessage :=
  match Cloud.start_time s, Cloud.local_id s with
  | Some t, Some lid =>
      if Z.eqb lid 0 then []
      else
        match find (Cloud.same_start user t) (Cloud.cloud_sessions db) with
        | Some e => [Cloud.SessionConflicts lid (Cloud.cs_id e)]
        | None => []
        end
  | _, _ => []
  end.

(** The track a call on the session manager names. *)
Definition track_of (c : Manager.Call) : option Manager.SessionType :=
  match c with
  | Manager.Call_start_cloud_session _ _ => Some Manager.CLOUD
  | Manager.Call_pause_session t | Manager.Call_resume_session t
  | Manager.Call_stop_session _ _ _ t | Manager.Call_reset_session _ t => Some t
  | _ => None
  end.

Definition other_track (t : Manager.SessionType) : Manager.SessionType :=
  match t with Manager.LOCAL => Manager.CLOUD | Manager.CLOUD => Manager.LOCAL end.

(** The calls that go through to the [SQLiteManager]. *)
Definition reaches_store (c : Manager.Call) : bool :=
  match c with
  | Manager.Call_stop_session _ _ _ Manager.LOCAL
  | Manager.Call_reset_session _ Manager.LOCAL
  | Manager.Call_cleanup _
  | Manager.Tracker_log_blink _ _ _ _ _
  | Manager.Writer_pass _ _ => true
  | _ => false
  end.

(** The local track and the store speak of the same session: unless the
    manager shows its local session as ended, that session is the store's
    current one. *)
Definition agree (m : Manager.SessionManager) : Prop :=
  match Manager._local_session m with
  | Some l =>
      Manager.state l = Manager.ENDED \/
      exists n, Manager.session_id l = Manager.Str n /\
                Desktop.current_session_id (Manager.db_manager m) = Some n
  | None => True
  end.

Definition consistent (m : Manager.SessionManager) : Prop :=
  agree m /\ local_ok (Desktop.db (Manager.db_manager m)) /\
  current_open (Manager.db_manager m).

(** Calls that can bring a track back. *)
Definition restarts (t : Manager.SessionType) (c : Manager.Call) : bool :=
  match c, t with
  | Manager.Call_reset_session _ Manager.LOCAL, Manager.LOCAL => true
  | Manager.Call_reset_session _ Manager.CLOUD, Manager.CLOUD => true
  | Manager.Call_start_cloud_session _ _, Manager.CLOUD => true
  | _, _ => false
  end.

End Wf.

(** ** Facts about the Python built-ins *)

Lemma Qltb_true (a b : Q) : Py.Qltb a b = true <-> (a < b)%Q.
Proof.
  unfold Py.Qltb. rewrite Qlt_alt.
  destruct (a ?= b)%Q; split; intro H; congruence.
Qed.

Lemma Qgtb_true (a b : Q) : Py.Qgtb a b = true <-> (b < a)%Q.
Proof.
  unfold Py.Qgtb. rewrite (Qgt_alt a b).
  destruct (a ?= b)%Q; split; intro H; congruence.
Qed.

Lemma Qltb_false (a b : Q) : Py.Qltb a b = false <-> (b <= a)%Q.
Proof.
  split; intro H.
  - apply Qnot_lt_le. intro L. apply Qltb_true in L. congruence.
  - destruct (Py.Qltb a b) eqn:E; [|reflexivity].
    apply Qltb_true in E. exfalso. exact (Qlt_not_le _ _ E H).
Qed.

Lemma Qgtb_false (a b : Q) : Py.Qgtb a b = false <-> (a <= b)%Q.
Proof.
  split; intro H.
  - apply Qnot_lt_le. intro L. apply Qgtb_true in L. congruence.
  - destruct (Py.Qgtb a b) eqn:E; [|reflexivity].
    apply Qgtb_true in E. exfalso. exact (Qlt_not_le _ _ E H).
Qed.

Lemma max2_Z (a b : Z) : Py.max2 Z.gtb a b = Z.max a b.
Proof.
  unfold Py.max2. rewrite Z.gtb_ltb.
  destruct (Z.ltb_spec a b); lia.
Qed.

Lemma max2_Q_left (a b : Q) : (a <= Py.max2 Py.Qgtb a b)%Q.
Proof.
  unfold Py.max2. destruct (Py.Qgtb b a) eqn:E.
  - apply Qgtb_true in E. apply Qlt_le_weak. exact E.
  - apply Qle_refl.
Qed.

Lemma max2_Q_right (a b : Q) : (b <= Py.max2 Py.Qgtb a b)%Q.
Proof.
  unfold Py.max2. destruct (Py.Qgtb b a) eqn:E.
  - apply Qle_refl.
  - apply Qgtb_false in E. exact E.
Qed.


(** ** Health score (sessions.py) *)

Ltac duration_cases d :=
  destruct (Z.ltb_spec 7200 d); destruct (Z_lt_dec 7200 d); try lia;
  destruct (Z.ltb_spec 3600 d); destruct (Z_lt_dec 3600 d); try lia;
  repeat match goal with
         | |- context [Z_lt_dec ?x ?y] => destruct (Z_lt_dec x y)
         end; lia.

Lemma calculate_health_score_table (a : Q) (d : Z) :
  Cloud.calculate_health_score a d = Spec.derived_score a d.
Proof.
  unfold Cloud.calculate_health_score, Spec.derived_score, Spec.rate_deduction,
    Spec.duration_deduction, Spec.clamp.
  rewrite !Z.gtb_ltb.
  destruct (Qlt_le_dec a (10 # 1)) as [L1|L1].
  - apply Qltb_true in L1. rewrite L1. duration_cases d.
  - apply Qltb_false in L1. rewrite L1.
    destruct (Qlt_le_dec (30 # 1) a) as [L2|L2].
    + apply Qgtb_true in L2. rewrite L2. duration_cases d.
    + apply Qgtb_false in L2. rewrite L2.
      destruct (Qlt_le_dec (25 # 1) a) as [L3|L3].
      * apply Qgtb_true in L3. rewrite L3. duration_cases d.
      * apply Qgtb_false in L3. rewrite L3. duration_cases d.
Qed.

Lemma find_update_first {A : Type} (p : A -> bool) (f : A -> A) (l : list A) (x : A) :
  find p l = Some x ->
  exists before after,
    l = before ++ x :: after /\
    Py.update_first p f l = before ++ f x :: after /\
    forallb (fun y => negb (p y)) before = true.
Proof.
  induction l as [|y r IH]; simpl; [discriminate|].
  destruct (p y) eqn:E; intro H.
  - injection H as ->. exists [], r. repeat split.
  - destruct (IH H) as (b & a & -> & -> & Hb).
    exists (y :: b), a. simpl. rewrite E. repeat split. exact Hb.
Qed.

Lemma find_after_update_first {A : Type} (p : A -> bool) (f : A -> A) (l : list A) (x : A) :
  find p l = Some x -> p (f x) = true ->
  find p (Py.update_first p f l) = Some (f x).
Proof.
  induction l as [|y r IH]; simpl; [discriminate|].
  destruct (p y) eqn:E; intros H K.
  - injection H as ->. simpl. rewrite K. reflexivity.
  - simpl. rewrite E. apply IH; assumption.
Qed.

Lemma end_session_inr (request : Cloud.SessionEndRequest) (now : Cloud.datetime)
      (user : Cloud.uuid) (db db' : Cloud.DB) (resp : Cloud.SessionResponse) :
  Cloud.end_session request now user db = inr (db', resp) ->
  exists session,
    find (Cloud.has_id (Cloud.req_session_id request)) (Cloud.cloud_sessions db)
    = Some session /\
    Cloud.cs_user_id session = user /\
    Cloud.cs_end_time session = None /\
    Cloud.cloud_sessions db'
    = Py.update_first (Cloud.has_id (Cloud.req_session_id request))
                      (Cloud.close_with request now) (Cloud.cloud_sessions db) /\
    Cloud.session_data db' = Cloud.session_data db /\
    Cloud.resp_health_score resp
    = Cloud.cs_health_score (Cloud.close_with request now session).
Proof.
  unfold Cloud.end_session.
  destruct (find _ _) as [session|] eqn:F; [|discriminate].
  destruct (Nat.eqb_spec (Cloud.cs_user_id session) user) as [U|U]; simpl;
    [|discriminate].
  destruct (Cloud.cs_end_time session) eqn:E; [discriminate|].
  intro H. injection H as <- <-.
  exists session. simpl. repeat split; assumption.
Qed.

(** C5. A session closed through [end_session] with average rate [a] and
    duration [d] gets, in the stored row and in the response, the score
    clamp(100 - rate deduction - duration deduction) of the deduction table;
    the table and the code agree on every [(a, d)], and the two scenarios
    evaluate to 65 and 80. *)
Theorem health_score_at_close
        (request : Cloud.SessionEndRequest) (now : Cloud.datetime)
        (user : Cloud.uuid) (db db' : Cloud.DB) (resp : Cloud.SessionResponse) :
  Cloud.end_session request now user db = inr (db', resp) ->
  let a := Cloud.req_avg_blink_rate request in
  let d := Cloud.req_session_duration request in
  Cloud.resp_health_score resp = Some (Spec.derived_score a d) /\
  option_map Cloud.cs_health_score
    (find (Cloud.has_id (Cloud.req_session_id request)) (Cloud.cloud_sessions db'))
  = Some (Some (Spec.derived_score a d)) /\
  (forall a' d', Cloud.calculate_health_score a' d' = Spec.derived_score a' d') /\
  Cloud.calculate_health_score (35 # 1) 8000 = 65 /\
  Cloud.calculate_health_score (8 # 1) 500 = 80.
Proof.
  intros H a d.
  destruct (end_session_inr _ _ _ _ _ _ H) as (s & F & _ & _ & L & _ & R).
  repeat split.
  - rewrite R. simpl. f_equal. apply calculate_health_score_table.
  - rewrite L.
    rewrite (find_after_update_first _ _ _ _ F).
    + simpl. do 2 f_equal. apply calculate_health_score_table.
    + apply find_some in F. destruct F as [_ F]. exact F.
  - exact calculate_health_score_table.
Qed.

Lemma health_score_at_close_witness :
  let closed :=
    Cloud.mkSessionResponse 1%nat Examples.T (Some (Examples.T + 8000000000))
                            8000 40 (35 # 1) (50 # 1) (Some 65) Cloud.ENDED in
  Cloud.end_session Examples.end_request (Examples.T + 8000000000) Examples.alice
                    Examples.remote_db
  = inr (Cloud.mkDB [Cloud.close_with Examples.end_request
                                      (Examples.T + 8000000000) Examples.remote_30]
                    [] 2%nat, closed)
  /\ Cloud.resp_health_score closed = Some (Spec.derived_score (35 # 1) 8000).
Proof.
  split; [reflexivity|].
  exact (proj1 (health_score_at_close Examples.end_request
                  (Examples.T + 8000000000) Examples.alice Examples.remote_db
                  _ _ eq_refl)).
Defined.

(** ** Upload reconciliation (sync.py) *)

Lemma process_blink_data_fold (session_id : Cloud.uuid) (blink_data : list Cloud.DataPoint) :
  forall (db : Cloud.DB) (n : Z),
    fold_left
      (fun (acc : Cloud.DB * Z) data_point =>
         let (db, data_points_processed) := acc in
         (Cloud.mkDB (Cloud.cloud_sessions db)
                     (Cloud.session_data db
                        ++ [Cloud.session_data_row session_id data_point])
                     (Cloud.next_uuid db),
          data_points_processed + 1))
      blink_data (db, n)
    = (Cloud.mkDB (Cloud.cloud_sessions db)
                  (Cloud.session_data db
                     ++ map (Cloud.session_data_row session_id) blink_data)
                  (Cloud.next_uuid db),
       n + Z.of_nat (List.length blink_data)).
Proof.
  induction blink_data as [|d r IH]; intros db n.
  - destruct db. simpl. rewrite app_nil_r, Z.add_0_r. reflexivity.
  - cbn [fold_left]. rewrite IH. cbn [Cloud.cloud_sessions Cloud.session_data
      Cloud.next_uuid map List.length]. rewrite <- app_assoc. simpl app.
    f_equal. lia.
Qed.

Lemma process_blink_data_eq (db : Cloud.DB) (session_id : Cloud.uuid)
      (blink_data : list Cloud.DataPoint) :
  Cloud.process_blink_data db session_id blink_data
  = (Cloud.mkDB (Cloud.cloud_sessions db)
                (Cloud.session_data db
                   ++ map (Cloud.session_data_row session_id) blink_data)
                (Cloud.next_uuid db),
     Z.of_nat (List.length blink_data)).
Proof.
  unfold Cloud.process_blink_data. rewrite process_blink_data_fold. reflexivity.
Qed.

Lemma upload_session_skipped (user : Cloud.uuid) (st : Cloud.UploadState)
      (session : Cloud.LocalSessionDict) :
  Cloud.start_time session = None -> Cloud.upload_session user st session = st.
Proof. unfold Cloud.upload_session. intros ->. reflexivity. Qed.

Lemma upload_session_matched (user : Cloud.uuid) (st : Cloud.UploadState)
      (session : Cloud.LocalSessionDict) (t : Cloud.datetime)
      (existing : Cloud.CloudSession) :
  Cloud.start_time session = Some t ->
  find (Cloud.same_start user t) (Cloud.cloud_sessions (Cloud.up_db st))
  = Some existing ->
  Cloud.upload_session user st session
  = Cloud.mkUploadState
      (Cloud.mkDB
         (Py.update_first (Cloud.same_start user t)
            (Cloud.merge_existing (Cloud.end_time session) (Cloud.blink_data session))
            (Cloud.cloud_sessions (Cloud.up_db st)))
         (Cloud.session_data (Cloud.up_db st)
            ++ map (Cloud.session_data_row (Cloud.cs_id existing))
                   (Cloud.blink_data session))
         (Cloud.next_uuid (Cloud.up_db st)))
      (Cloud.up_synced_sessions st)
      (Cloud.up_synced_data_points st
       + Z.of_nat (List.length (Cloud.blink_data session))).
Proof.
  unfold Cloud.upload_session. intros -> ->.
  rewrite process_blink_data_eq. reflexivity.
Qed.

Lemma create_cloud_session_id (id user : Cloud.uuid) (t : Cloud.datetime)
      (session : Cloud.LocalSessionDict) :
  Cloud.cs_id (Cloud.create_cloud_session id user t session) = id.
Proof.
  unfold Cloud.create_cloud_session.
  destruct (Cloud.blink_data session); reflexivity.
Qed.

Lemma upload_session_created (user : Cloud.uuid) (st : Cloud.UploadState)
      (session : Cloud.LocalSessionDict) (t : Cloud.datetime) :
  Cloud.start_time session = Some t ->
  find (Cloud.same_start user t) (Cloud.cloud_sessions (Cloud.up_db st)) = None ->
  Cloud.upload_session user st session
  = Cloud.mkUploadState
      (Cloud.mkDB
         (Cloud.cloud_sessions (Cloud.up_db st)
            ++ [Cloud.create_cloud_session (Cloud.next_uuid (Cloud.up_db st))
                                           user t session])
         (Cloud.session_data (Cloud.up_db st)
            ++ map (Cloud.session_data_row (Cloud.next_uuid (Cloud.up_db st)))
                   (Cloud.blink_data session))
         (S (Cloud.next_uuid (Cloud.up_db st))))
      (Cloud.up_synced_sessions st + 1)
      (Cloud.up_synced_data_points st
       + Z.of_nat (List.length (Cloud.blink_data session))).
Proof.
  unfold Cloud.upload_session. intros -> ->.
  rewrite process_blink_data_eq. simpl.
  rewrite create_cloud_session_id. reflexivity.
Qed.

(** C9. Whatever is uploaded, a response of [upload_local_data] carries an
    empty [conflicts] list: the list is created empty and nothing is ever
    added to it, [resolve_session_conflicts] not being called. *)
Theorem upload_never_reports_conflicts
        (request : Cloud.SyncUploadRequest) (user : Cloud.uuid)
        (db db' : Cloud.DB) (resp : Cloud.SyncResponse) :
  Cloud.upload_local_data request user db = inr (db', resp) ->
  Cloud.conflicts resp = [].
Proof.
  unfold Cloud.upload_local_data.
  destruct (negb _); [discriminate|].
  intro H. injection H as _ <-. reflexivity.
Qed.

(** Both sides hold different closing times for the session started at [T]:
    the helper would report it, the upload does not. *)
Lemma upload_never_reports_conflicts_witness :
  Cloud.cs_end_time Examples.remote_closed <> Cloud.end_time Examples.local_40
  /\ Cloud.resolve_session_conflicts Examples.remote_closed_db Examples.alice
       (Cloud.sessions Examples.upload_40)
     = [Cloud.SessionConflicts 5 1%nat]
  /\ (exists db' resp,
        Cloud.upload_local_data Examples.upload_40 Examples.alice
                                Examples.remote_closed_db = inr (db', resp)
        /\ Cloud.conflicts resp = []).
Proof.
  split; [discriminate|]. split; [reflexivity|].
  eexists. eexists. split; [reflexivity|].
  exact (upload_never_reports_conflicts Examples.upload_40 Examples.alice
           Examples.remote_closed_db _ _ eq_refl).
Defined.


Lemma merge_existing_end_time (e : option Cloud.datetime)
      (blink_data : list Cloud.DataPoint) (remote : Cloud.CloudSession) :
  Cloud.cs_end_time (Cloud.merge_existing e blink_data remote)
  = match Cloud.cs_end_time remote with
    | None => e
    | Some closed => Some closed
    end.
Proof.
  unfold Cloud.merge_existing.
  destruct e, (Cloud.cs_end_time remote) eqn:E, blink_data; simpl;
    try rewrite E; reflexivity.
Qed.

Lemma merge_existing_key (e : option Cloud.datetime)
      (blink_data : list Cloud.DataPoint) (remote : Cloud.CloudSession) :
  Cloud.cs_id (Cloud.merge_existing e blink_data remote) = Cloud.cs_id remote /\
  Cloud.cs_user_id (Cloud.merge_existing e blink_data remote)
  = Cloud.cs_user_id remote /\
  Cloud.cs_start_time (Cloud.merge_existing e blink_data remote)
  = Cloud.cs_start_time remote.
Proof.
  unfold Cloud.merge_existing.
  destruct e, (Cloud.cs_end_time remote), blink_data; simpl; repeat split.
Qed.

Lemma fold_max2_Z (xs : list Z) :
  forall x,
    let m := fold_left (Py.max2 Z.gtb) xs x in
    x <= m /\ (forall y, In y xs -> y <= m) /\ (m = x \/ In m xs).
Proof.
  induction xs as [|z xs IH]; intro x; simpl.
  - split; [lia|]. split; [intros y []|]. left. reflexivity.
  - destruct (IH (Py.max2 Z.gtb x z)) as (G & A & M).
    rewrite max2_Z in *.
    split; [lia|]. split.
    + intros y [<-|I]; [lia | apply A, I].
    + destruct M as [M|M]; [|right; right; exact M].
      rewrite M. destruct (Z.max_spec x z) as [[_ ->]|[_ ->]]; auto.
Qed.

(** The local total of an upload is the largest [blink_count] among its
    samples. *)
Lemma total_blinks_of_is_largest (d : Cloud.DataPoint) (ds : list Cloud.DataPoint) :
  In (Cloud.total_blinks_of d ds) (Cloud.blink_counts (d :: ds)) /\
  forall n, In n (Cloud.blink_counts (d :: ds)) -> n <= Cloud.total_blinks_of d ds.
Proof.
  unfold Cloud.total_blinks_of, Py.max_list.
  destruct (fold_max2_Z (Cloud.blink_counts ds) (Py.get (Cloud.dp_blink_count d) 0))
    as (G & A & M).
  simpl. split.
  - destruct M as [->|M]; [left; reflexivity | right; exact M].
  - intros n [<-|I]; [exact G | apply A, I].
Qed.



(** *** Uploading the same data twice *)

Lemma same_start_keeps (f : Cloud.CloudSession -> Cloud.CloudSession)
      (user : Cloud.uuid) (t : Cloud.datetime) (s : Cloud.CloudSession) :
  Inv.keeps_key f -> Cloud.same_start user t (f s) = Cloud.same_start user t s.
Proof.
  intro K. destruct (K s) as (_ & U & T).
  unfold Cloud.same_start. rewrite U, T. reflexivity.
Qed.

Lemma merge_existing_keeps_key (e : option Cloud.datetime)
      (blink_data : list Cloud.DataPoint) :
  Inv.keeps_key (Cloud.merge_existing e blink_data).
Proof. intro s. apply merge_existing_key. Qed.



Lemma find_app_some {A : Type} (p : A -> bool) (l r : list A) (x : A) :
  find p l = Some x -> find p (l ++ r) = Some x.
Proof.
  induction l as [|y l IH]; simpl; [discriminate|].
  destruct (p y); [trivial | exact IH].
Qed.

Lemma find_app_none {A : Type} (p : A -> bool) (l r : list A) :
  find p l = None -> find p (l ++ r) = find p r.
Proof.
  induction l as [|y l IH]; simpl; [reflexivity|].
  destruct (p y); [discriminate | exact IH].
Qed.










(** ** Open sessions *)

(** *** The local store *)

Lemma latest_some_acc (rows : list Desktop.LocalSession) :
  forall b,
    fold_left
      (fun best r =>
         match best with
         | None => Some r
         | Some b =>
             if Desktop.ls_start_time b <? Desktop.ls_start_time r
             then Some r else Some b
         end) rows (Some b) <> None.
Proof.
  induction rows as [|r rows IH]; intro b; simpl; [discriminate|].
  destruct (Desktop.ls_start_time b <? Desktop.ls_start_time r); apply IH.
Qed.

Lemma latest_none (rows : list Desktop.LocalSession) :
  Desktop.latest rows = None -> rows = [].
Proof.
  destruct rows as [|r rows]; [reflexivity|].
  unfold Desktop.latest. simpl. intro H.
  exfalso. exact (latest_some_acc rows r H).
Qed.

Lemma latest_in_acc (rows : list Desktop.LocalSession) :
  forall b s,
    fold_left
      (fun best r =>
         match best with
         | None => Some r
         | Some b =>
             if Desktop.ls_start_time b <? Desktop.ls_start_time r
             then Some r else Some b
         end) rows (Some b) = Some s ->
    s = b \/ In s rows.
Proof.
  induction rows as [|r rows IH]; intros b s; simpl.
  - intro H. injection H as ->. left. reflexivity.
  - destruct (Desktop.ls_start_time b <? Desktop.ls_start_time r); intro H;
      destruct (IH _ _ H) as [->|I]; auto.
Qed.

Lemma latest_in (rows : list Desktop.LocalSession) (s : Desktop.LocalSession) :
  Desktop.latest rows = Some s -> In s rows.
Proof.
  destruct rows as [|r rows]; [discriminate|].
  unfold Desktop.latest. simpl. intro H.
  destruct (latest_in_acc _ _ _ H) as [->|I]; auto.
Qed.

Lemma select_active_session_none (d : Desktop.Database) :
  Desktop.select_active_session d = None -> Inv.open_sessions d = [].
Proof.
  unfold Desktop.select_active_session, Inv.open_sessions.
  destruct (Desktop.latest _) eqn:L; [discriminate|].
  intros _. apply latest_none. exact L.
Qed.

Lemma select_active_session_some (d : Desktop.Database) (id : nat) :
  Desktop.select_active_session d = Some id ->
  exists s, In s (Inv.open_sessions d) /\ Desktop.ls_id s = id.
Proof.
  unfold Desktop.select_active_session, Inv.open_sessions.
  destruct (Desktop.latest _) as [s|] eqn:L; [|discriminate].
  intro H. injection H as <-. exists s. split; [|reflexivity].
  apply latest_in. exact L.
Qed.

Lemma open_after_update (id : nat) (f : Desktop.LocalSession -> Desktop.LocalSession)
      (d : Desktop.Database) :
  (forall s, Desktop.is_open (f s) = true -> Desktop.is_open s = true) ->
  (List.length (Inv.open_sessions (Desktop.update_where_id id f d))
   <= List.length (Inv.open_sessions d))%nat.
Proof.
  intro K. unfold Inv.open_sessions, Desktop.update_where_id. simpl.
  induction (Desktop.local_sessions d) as [|s l IH]; simpl; [lia|].
  destruct (Nat.eqb (Desktop.ls_id s) id).
  - destruct (Desktop.is_open (f s)) eqn:E.
    + rewrite (K _ E). simpl. lia.
    + destruct (Desktop.is_open s); simpl; lia.
  - destruct (Desktop.is_open s); simpl; lia.
Qed.

Lemma open_after_filter (q : Desktop.LocalSession -> bool)
      (l : list Desktop.LocalSession) :
  (List.length (filter Desktop.is_open (filter q l))
   <= List.length (filter Desktop.is_open l))%nat.
Proof.
  induction l as [|s l IH]; simpl; [lia|].
  destruct (q s); simpl; destruct (Desktop.is_open s); simpl; lia.
Qed.

Lemma insert_rows_sessions (l : list Desktop.BlinkData) :
  forall d,
    Desktop.local_sessions (Desktop.insert_rows d l) = Desktop.local_sessions d.
Proof.
  induction l as [|b l IH]; intro d; simpl; [reflexivity|].
  rewrite IH. reflexivity.
Qed.

Lemma insert_blink_batch_sessions (fault : bool) (l : list Desktop.BlinkData)
      (m : Desktop.SQLiteManager) :
  Desktop.local_sessions (Desktop.db (fst (Desktop._insert_blink_batch fault l m)))
  = Desktop.local_sessions (Desktop.db m).
Proof.
  unfold Desktop._insert_blink_batch. destruct fault; simpl; [reflexivity|].
  apply insert_rows_sessions.
Qed.

Lemma writer_pass_sessions (t : Q) (fault : bool)
      (s : Desktop.SQLiteManager * Desktop.Processor) :
  Desktop.local_sessions (Desktop.db (fst (Desktop.process_blink_batches_step t fault s)))
  = Desktop.local_sessions (Desktop.db (fst s)).
Proof.
  destruct s as [m p]. unfold Desktop.process_blink_batches_step.
  destruct (Desktop.get (Desktop.blink_queue m)) as [[b q]|];
    match goal with
    | |- context [if ?c then _ else _] => destruct c
    end; try reflexivity;
    match goal with
    | |- context [if Desktop.nonempty ?l then _ else _] =>
        destruct (Desktop.nonempty l)
    end; try reflexivity;
    match goal with
    | |- context [Desktop._insert_blink_batch ?f ?l ?m'] =>
        pose proof (insert_blink_batch_sessions f l m') as H;
        destruct (Desktop._insert_blink_batch f l m') as [m'' [e|u]]
    end; simpl in *; exact H.
Qed.

Lemma remaining_items_sessions (fault : bool)
      (s : Desktop.SQLiteManager * Desktop.Processor) :
  Desktop.local_sessions (Desktop.db (Desktop.process_remaining_items fault s))
  = Desktop.local_sessions (Desktop.db (fst s)).
Proof.
  destruct s as [m p]. unfold Desktop.process_remaining_items.
  destruct (Desktop.nonempty (Desktop.batch p)); [|reflexivity].
  pose proof (insert_blink_batch_sessions fault (Desktop.batch p) m) as H.
  destruct (Desktop._insert_blink_batch fault (Desktop.batch p) m) as [m' [e|u]];
    simpl in *; exact H.
Qed.

Lemma set_totals_open (n : Z) (r : Q) (a : option Q) (s : Desktop.LocalSession) :
  Desktop.is_open (Desktop.set_totals n r a s) = Desktop.is_open s.
Proof. reflexivity. Qed.

Lemma log_blink_open (now : Desktop.datetime) (fault : bool) (n : Z) (r : Q)
      (e : option Q) (m : Desktop.SQLiteManager) :
  (List.length (Inv.open_sessions (Desktop.db (Desktop.log_blink now fault n r e m)))
   <= List.length (Inv.open_sessions (Desktop.db m)))%nat.
Proof.
  unfold Desktop.log_blink.
  destruct (Desktop.current_session_id m) as [id|] eqn:C; simpl; [|lia].
  destruct (Desktop.put_nowait _ _) as [q|]; simpl; [|lia].
  unfold Desktop._update_session_totals. destruct fault; simpl; [lia|].
  rewrite C. simpl.
  apply open_after_update. intros s H. rewrite set_totals_open in H. exact H.
Qed.

Lemma end_current_session_open (now : Desktop.datetime) (fault : bool)
      (m m' : Desktop.SQLiteManager) (r : option Desktop.LocalSession) :
  Desktop.end_current_session now fault m = Desktop.Returned m' r ->
  (List.length (Inv.open_sessions (Desktop.db m'))
   <= List.length (Inv.open_sessions (Desktop.db m)))%nat.
Proof.
  unfold Desktop.end_current_session.
  destruct (Desktop.current_session_id m) as [id|].
  - destruct (negb _); [discriminate|].
    destruct fault.
    + intro H. injection H as <- _. simpl. lia.
    + destruct (Desktop.get_session id m).
      * destruct (Desktop.get_session id _);
          intro H; injection H as <- _; simpl;
          apply open_after_update; intros s; discriminate.
      * intro H. injection H as <- _. simpl. lia.
  - intro H. injection H as <- _. lia.
Qed.

Lemma cleanup_old_data_open (now : Desktop.datetime) (days : Z) (fault : bool)
      (m : Desktop.SQLiteManager) :
  (List.length (Inv.open_sessions (Desktop.db (Desktop.cleanup_old_data now days fault m)))
   <= List.length (Inv.open_sessions (Desktop.db m)))%nat.
Proof.
  unfold Desktop.cleanup_old_data. destruct fault; simpl; [lia|].
  apply open_after_filter.
Qed.

Lemma auto_create_session_open (now : Desktop.datetime) (fault : bool)
      (m : Desktop.SQLiteManager) :
  (List.length (Inv.open_sessions (Desktop.db m)) <= 1)%nat ->
  (List.length
     (Inv.open_sessions (Desktop.db (fst (Desktop.auto_create_session now fault m))))
   <= 1)%nat.
Proof.
  intro H. unfold Desktop.auto_create_session.
  destruct fault; simpl; [exact H|].
  destruct (Desktop.select_active_session (Desktop.db m)) eqn:A; simpl; [exact H|].
  apply select_active_session_none in A.
  unfold Inv.open_sessions in *. simpl.
  rewrite filter_app, A. simpl. lia.
Qed.

Lemma step_keeps_one_open (c : Desktop.Call)
      (s : Desktop.SQLiteManager * Desktop.Processor) :
  (List.length (Inv.open_sessions (Desktop.db (fst s))) <= 1)%nat ->
  (List.length (Inv.open_sessions (Desktop.db (fst (Desktop.step c s)))) <= 1)%nat.
Proof.
  intro H. destruct c; simpl.
  - apply auto_create_session_open. exact H.
  - etransitivity; [apply log_blink_open | exact H].
  - destruct (Desktop.end_current_session now fault (fst s)) eqn:E; [|exact H].
    simpl. etransitivity; [exact (end_current_session_open _ _ _ _ _ E) | exact H].
  - etransitivity; [apply cleanup_old_data_open | exact H].
  - unfold Inv.open_sessions in *. rewrite writer_pass_sessions. exact H.
  - unfold Inv.open_sessions in *. rewrite remaining_items_sessions. exact H.
Qed.

Lemma run_keeps_one_open (calls : list Desktop.Call) :
  forall s,
    (List.length (Inv.open_sessions (Desktop.db (fst s))) <= 1)%nat ->
    (List.length (Inv.open_sessions (Desktop.db (fst (Desktop.run calls s)))) <= 1)%nat.
Proof.
  induction calls as [|c calls IH]; intros s H; simpl; [exact H|].
  apply IH, step_keeps_one_open, H.
Qed.

(** *** The remote store *)

Lemma find_none_filter {A : Type} (p : A -> bool) (l : list A) :
  find p l = None -> filter p l = [].
Proof.
  induction l as [|x l IH]; simpl; [reflexivity|].
  destruct (p x); [discriminate | exact IH].
Qed.

Lemma filter_update_first_le {A : Type} (q p : A -> bool) (f : A -> A) (l : list A) :
  (forall x, q (f x) = true -> q x = true) ->
  (List.length (filter q (Py.update_first p f l)) <= List.length (filter q l))%nat.
Proof.
  intro K. induction l as [|x l IH]; simpl; [lia|].
  destruct (p x); simpl.
  - destruct (q (f x)) eqn:E.
    + rewrite (K _ E). simpl. lia.
    + destruct (q x); simpl; lia.
  - destruct (q x); simpl; lia.
Qed.

Lemma start_session_keeps_one_open
      (request_user : Cloud.uuid) (now : Cloud.datetime) (user : Cloud.uuid)
      (rdb rdb' : Cloud.DB) (resp : Cloud.SessionResponse) :
  Cloud.start_session request_user now user rdb = inr (rdb', resp) ->
  (forall u, (List.length (Inv.open_sessions_of u (Cloud.cloud_sessions rdb)) <= 1)%nat) ->
  forall u, (List.length (Inv.open_sessions_of u (Cloud.cloud_sessions rdb')) <= 1)%nat.
Proof.
  unfold Cloud.start_session.
  destruct (negb _); [discriminate|].
  unfold Cloud.get_active_session.
  destruct (find _ _) eqn:F; [discriminate|].
  intro H. injection H as <- _. intros I u. simpl.
  unfold Inv.open_sessions_of in *. rewrite filter_app. simpl.
  destruct (Nat.eqb_spec user u) as [->|N]; simpl.
  - rewrite (find_none_filter _ _ F). simpl. lia.
  - rewrite app_nil_r. apply I.
Qed.

Lemma end_session_keeps_one_open
      (request : Cloud.SessionEndRequest) (now : Cloud.datetime) (user : Cloud.uuid)
      (rdb rdb' : Cloud.DB) (resp : Cloud.SessionResponse) :
  Cloud.end_session request now user rdb = inr (rdb', resp) ->
  (forall u, (List.length (Inv.open_sessions_of u (Cloud.cloud_sessions rdb)) <= 1)%nat) ->
  forall u, (List.length (Inv.open_sessions_of u (Cloud.cloud_sessions rdb')) <= 1)%nat.
Proof.
  intros H I u.
  destruct (end_session_inr _ _ _ _ _ _ H) as (s & _ & _ & _ & -> & _).
  etransitivity; [|apply (I u)].
  apply filter_update_first_le. intros x. simpl.
  rewrite andb_false_r. discriminate.
Qed.

(** C3 (amended). On the local store every reachable state holds at most one
    open session: [auto_create_session] hands back the open session there is
    and inserts nothing, and no other call adds one.  On the remote store
    [start_session] and [end_session] keep at most one open session per
    owner.  ([upload_local_data] is not part of the statement: it stores each
    unmatched local session with the [end_time] it was sent.) *)
Theorem at_most_one_open_session :
  (forall user clock calls,
      (List.length
         (Inv.open_sessions
            (Desktop.db (fst (Desktop.run calls (Desktop.initial user clock)))))
       <= 1)%nat) /\
  (forall m now id,
      Desktop.select_active_session (Desktop.db m) = Some id ->
      (exists s, In s (Inv.open_sessions (Desktop.db m)) /\ Desktop.ls_id s = id) /\
      snd (Desktop.auto_create_session now false m) = inr id /\
      Desktop.db (fst (Desktop.auto_create_session now false m)) = Desktop.db m) /\
  (forall request_user now user rdb rdb' resp,
      Cloud.start_session request_user now user rdb = inr (rdb', resp) ->
      (forall u, (List.length (Inv.open_sessions_of u (Cloud.cloud_sessions rdb))
                  <= 1)%nat) ->
      forall u, (List.length (Inv.open_sessions_of u (Cloud.cloud_sessions rdb'))
                 <= 1)%nat) /\
  (forall request now user rdb rdb' resp,
      Cloud.end_session request now user rdb = inr (rdb', resp) ->
      (forall u, (List.length (Inv.open_sessions_of u (Cloud.cloud_sessions rdb))
                  <= 1)%nat) ->
      forall u, (List.length (Inv.open_sessions_of u (Cloud.cloud_sessions rdb'))
                 <= 1)%nat).
Proof.
  split; [|split; [|split]].
  - intros user clock calls. apply run_keeps_one_open. simpl. lia.
  - intros m now id H. split; [apply select_active_session_some; exact H|].
    unfold Desktop.auto_create_session. rewrite H. split; reflexivity.
  - exact start_session_keeps_one_open.
  - exact end_session_keeps_one_open.
Qed.

Lemma at_most_one_open_session_witness :
  Desktop.select_active_session (Desktop.db LocalExamples.tracking) = Some 1%nat /\
  snd (Desktop.auto_create_session (LocalExamples.T + 5000000) false
                                   LocalExamples.tracking) = inr 1%nat /\
  Desktop.db (fst (Desktop.auto_create_session (LocalExamples.T + 5000000) false
                                               LocalExamples.tracking))
  = Desktop.db LocalExamples.tracking /\
  List.length (Inv.open_sessions (Desktop.db LocalExamples.tracking)) = 1%nat.
Proof.
  split; [reflexivity|].
  split; [|split; [|reflexivity]];
    apply (proj1 (proj2 at_most_one_open_session) LocalExamples.tracking
                 (LocalExamples.T + 5000000) 1%nat eq_refl).
Defined.

(** The claim as stated fails on the upload path: two local sessions that are
    both still open become two open remote sessions of one owner, and so does
    one open local session uploaded while a session begun with
    [start_session] is open. *)
Lemma upload_creates_two_open_sessions :
  (exists db' resp,
      Cloud.upload_local_data Examples.upload_two_open Examples.alice
                              Examples.empty_db = inr (db', resp) /\
      Cloud.synced_sessions resp = 2 /\
      List.length (Inv.open_sessions_of Examples.alice (Cloud.cloud_sessions db'))
      = 2%nat) /\
  (exists db1 started db2 resp,
      Cloud.start_session Examples.alice Examples.T Examples.alice Examples.empty_db
      = inr (db1, started) /\
      Cloud.upload_local_data Examples.upload_one_open Examples.alice db1
      = inr (db2, resp) /\
      List.length (Inv.open_sessions_of Examples.alice (Cloud.cloud_sessions db1))
      = 1%nat /\
      List.length (Inv.open_sessions_of Examples.alice (Cloud.cloud_sessions db2))
      = 2%nat).
Proof.
  split.
  - eexists. eexists. split; [reflexivity|]. split; reflexivity.
  - eexists. eexists. eexists. eexists.
    split; [reflexivity|]. split; [reflexivity|]. split; reflexivity.
Qed.

(** ** Closing a session *)

Lemma end_current_session_returns (now : Desktop.datetime) (fault : bool)
      (m m1 : Desktop.SQLiteManager) (s : Desktop.LocalSession) :
  Desktop.end_current_session now fault m = Desktop.Returned m1 (Some s) ->
  exists id,
    Desktop.current_session_id m = Some id /\
    Desktop.current_session_id m1 = None /\
    Desktop.db m1 = Desktop.update_where_id id (Desktop.set_end now) (Desktop.db m) /\
    Desktop.get_session id m1 = Some s.
Proof.
  unfold Desktop.end_current_session.
  destruct (Desktop.current_session_id m) as [id|]; [|discriminate].
  destruct (negb _); [discriminate|].
  destruct fault; [discriminate|].
  destruct (Desktop.get_session id m); [|discriminate].
  destruct (Desktop.get_session id _) as [s'|] eqn:G; [|discriminate].
  intro H. injection H as <- <-. exists id. repeat split. exact G.
Qed.

Lemma find_map_rewritten (id : nat) (f : Desktop.LocalSession -> Desktop.LocalSession)
      (l : list Desktop.LocalSession) (s : Desktop.LocalSession) :
  (forall x, Desktop.ls_id (f x) = Desktop.ls_id x) ->
  find (fun x => Nat.eqb (Desktop.ls_id x) id)
       (map (fun x => if Nat.eqb (Desktop.ls_id x) id then f x else x) l) = Some s ->
  exists s0,
    find (fun x => Nat.eqb (Desktop.ls_id x) id) l = Some s0 /\ s = f s0.
Proof.
  intro K. induction l as [|x l IH]; simpl; [discriminate|].
  destruct (Nat.eqb (Desktop.ls_id x) id) eqn:E.
  - rewrite K, E. intro H. injection H as <-. exists x. split; reflexivity.
  - rewrite E. exact IH.
Qed.

(** C4 (amended). A second close changes nothing and closes nothing again,
    but it does not hand back the closed record: locally the first
    [end_current_session] returns the record with its [end_time] set and
    clears the current session, after which every further call returns [None]
    and leaves manager and database as they are; remotely a further
    [end_session] for the same session is refused with HTTP 400, the stored
    record, health score included, staying as the first close left it. *)
Theorem closing_a_closed_session :
  (forall now fault m m1 s,
      Desktop.end_current_session now fault m = Desktop.Returned m1 (Some s) ->
      Desktop.ls_end_time s = Some now /\
      forall now' fault',
        Desktop.end_current_session now' fault' m1 = Desktop.Returned m1 None) /\
  (forall request now user rdb rdb1 resp,
      Cloud.end_session request now user rdb = inr (rdb1, resp) ->
      exists closed,
        find (Cloud.has_id (Cloud.req_session_id request)) (Cloud.cloud_sessions rdb1)
        = Some closed /\
        Cloud.cs_end_time closed = Some now /\
        Cloud.cs_health_score closed = Cloud.resp_health_score resp /\
        forall request' now',
          Cloud.req_session_id request' = Cloud.req_session_id request ->
          Cloud.end_session request' now' user rdb1 = inl Cloud.HTTP_400_BAD_REQUEST).
Proof.
  split.
  - intros now fault m m1 s H.
    destruct (end_current_session_returns _ _ _ _ _ H) as (id & C & C1 & D & G).
    split.
    + unfold Desktop.get_session in G. rewrite D in G. simpl in G.
      destruct (find_map_rewritten id (Desktop.set_end now) _ _
                  (fun x => eq_refl) G) as (s0 & _ & ->).
      reflexivity.
    + intros now' fault'. unfold Desktop.end_current_session. rewrite C1.
      reflexivity.
  - intros request now user rdb rdb1 resp H.
    destruct (end_session_inr _ _ _ _ _ _ H) as (s & F & U & E & L & _ & R).
    exists (Cloud.close_with request now s).
    assert (F1 : find (Cloud.has_id (Cloud.req_session_id request))
                      (Cloud.cloud_sessions rdb1)
                 = Some (Cloud.close_with request now s)).
    { rewrite L. apply find_after_update_first; [exact F|].
      apply find_some in F. apply F. }
    split; [exact F1|]. split; [reflexivity|]. split; [symmetry; exact R|].
    intros request' now' I. unfold Cloud.end_session. rewrite I, F1. simpl.
    rewrite U, Nat.eqb_refl. reflexivity.
Qed.

Lemma closing_a_closed_session_witness :
  let closed :=
    Desktop.mkLocalSession 1 None None LocalExamples.T
      (Some (LocalExamples.T + 60000000)) 0 (0 # 1) (Some (0 # 1)%Q) 60 false None
      LocalExamples.T in
  exists m1,
    Desktop.end_current_session (LocalExamples.T + 60000000) false
                                LocalExamples.tracking
    = Desktop.Returned m1 (Some closed) /\
    Desktop.ls_end_time closed = Some (LocalExamples.T + 60000000) /\
    Desktop.end_current_session (LocalExamples.T + 70000000) false m1
    = Desktop.Returned m1 None.
Proof.
  eexists. split; [reflexivity|].
  pose proof (proj1 closing_a_closed_session (LocalExamples.T + 60000000) false
                LocalExamples.tracking _ _ eq_refl) as H.
  split; [exact (proj1 H) | exact (proj2 H _ _)].
Defined.

(** The claim as stated fails: the second close does not return the record
    the first one returned; locally it returns [None], remotely it is an
    error. *)
Lemma second_close_returns_no_record :
  (exists m1 closed,
      Desktop.end_current_session (LocalExamples.T + 60000000) false
                                  LocalExamples.tracking
      = Desktop.Returned m1 (Some closed) /\
      Desktop.end_current_session (LocalExamples.T + 60000000) false m1
      = Desktop.Returned m1 None) /\
  (exists rdb1 resp,
      Cloud.end_session Examples.end_request (Examples.T + 8000000000)
                        Examples.alice Examples.remote_db = inr (rdb1, resp) /\
      Cloud.end_session Examples.end_request (Examples.T + 8000000000)
                        Examples.alice rdb1 = inl Cloud.HTTP_400_BAD_REQUEST).
Proof.
  split; eexists; eexists; split; reflexivity.
Qed.

(** ** Ingest *)

(** C10. With no current session, [log_blink] only logs the warning: nothing
    is put on the queue, no row of the database is touched, the current
    session stays unset, whatever the arguments. *)
Theorem log_blink_without_session
        (now : Desktop.datetime) (fault : bool) (blink_count : Z) (blink_rate : Q)
        (eye_aspect_ratio : option Q) (m : Desktop.SQLiteManager) :
  Desktop.current_session_id m = None ->
  let m' := Desktop.log_blink now fault blink_count blink_rate eye_aspect_ratio m in
  Desktop.blink_queue m' = Desktop.blink_queue m /\
  Desktop.db m' = Desktop.db m /\
  Desktop.current_session_id m' = None /\
  Desktop.logged m' = Desktop.logged m ++ [Desktop.Warning_no_active_session].
Proof.
  intros C m'. subst m'. unfold Desktop.log_blink. rewrite C. simpl.
  repeat split. exact C.
Qed.

Lemma log_blink_without_session_witness :
  let m' := Desktop.log_blink LocalExamples.T false 1 (15 # 1) None
                              LocalExamples.fresh in
  Desktop.current_session_id LocalExamples.fresh = None /\
  Desktop.blink_queue m' = Desktop.Queue_new /\
  Desktop.db m' = Desktop.empty_database /\
  Desktop.logged m' = [Desktop.Warning_no_active_session].
Proof.
  split; [reflexivity|].
  destruct (log_blink_without_session LocalExamples.T false 1 (15 # 1) None
              LocalExamples.fresh eq_refl) as (Q & D & _ & L).
  split; [exact Q|]. split; [exact D | exact L].
Defined.

Lemma log_blink_active (now : Desktop.datetime) (fault : bool) (blink_count : Z)
      (blink_rate : Q) (eye_aspect_ratio : option Q) (m : Desktop.SQLiteManager)
      (session_id : nat) :
  Desktop.current_session_id m = Some session_id ->
  Desktop.full (Desktop.blink_queue m) = false ->
  let item :=
    Desktop.mkBlinkData None session_id (Desktop.user_id m) now blink_count
                        blink_rate eye_aspect_ratio false in
  let queued :=
    Desktop.set_queue
      (Desktop.mkQueue (Desktop.maxsize (Desktop.blink_queue m))
                       (Desktop.items (Desktop.blink_queue m) ++ [item])) m in
  Desktop.log_blink now fault blink_count blink_rate eye_aspect_ratio m
  = Desktop.log (Desktop.Debug_blink_logged blink_count blink_rate)
      (Desktop._update_session_totals fault blink_count blink_rate queued).
Proof.
  intros C F. unfold Desktop.log_blink, Desktop.put_nowait. rewrite C, F.
  reflexivity.
Qed.

Lemma update_session_totals_frame (fault : bool) (blink_count : Z) (blink_rate : Q)
      (m : Desktop.SQLiteManager) :
  let m' := Desktop._update_session_totals fault blink_count blink_rate m in
  Desktop.blink_queue m' = Desktop.blink_queue m /\
  Desktop.current_session_id m' = Desktop.current_session_id m /\
  Desktop.user_id m' = Desktop.user_id m.
Proof.
  intro m'. subst m'. unfold Desktop._update_session_totals.
  destruct fault; [repeat split|].
  destruct (Desktop.current_session_id m) eqn:C; simpl; rewrite ?C; repeat split.
Qed.

(** C6 (amended). [log_blink] always returns, with one of three outcomes.
    Without a current session it logs a warning.  With one, the sample is
    appended to the in-memory queue by a non-blocking put and the session
    totals are then written to the database before the call returns, a
    database error in that write being logged and not raised.  If the put
    reports [queue.Full], the sample is dropped, a warning is logged and
    nothing else changes. *)
Theorem log_blink_outcomes
        (now : Desktop.datetime) (fault : bool) (blink_count : Z) (blink_rate : Q)
        (eye_aspect_ratio : option Q) (m : Desktop.SQLiteManager) :
  let m' := Desktop.log_blink now fault blink_count blink_rate eye_aspect_ratio m in
  match Desktop.current_session_id m with
  | None => m' = Desktop.log Desktop.Warning_no_active_session m
  | Some session_id =>
      if Desktop.full (Desktop.blink_queue m)
      then m' = Desktop.log Desktop.Warning_queue_full_dropping m
      else
        Desktop.items (Desktop.blink_queue m')
        = Desktop.items (Desktop.blink_queue m)
            ++ [Desktop.mkBlinkData None session_id (Desktop.user_id m) now
                                    blink_count blink_rate eye_aspect_ratio false] /\
        Desktop.current_session_id m' = Some session_id /\
        if fault
        then Desktop.db m' = Desktop.db m /\
             Desktop.logged m'
             = Desktop.logged m
                 ++ [Desktop.Error_updating_session_totals;
                     Desktop.Debug_blink_logged blink_count blink_rate]
        else Desktop.db m'
             = Desktop.update_where_id session_id
                 (Desktop.set_totals blink_count blink_rate
                    (Desktop.avg_blink_rate_of (Desktop.db m) session_id))
                 (Desktop.db m) /\
             Desktop.logged m'
             = Desktop.logged m ++ [Desktop.Debug_blink_logged blink_count blink_rate]
  end.
Proof.
  intro m'. subst m'.
  destruct (Desktop.current_session_id m) as [session_id|] eqn:C.
  - destruct (Desktop.full (Desktop.blink_queue m)) eqn:F.
    + unfold Desktop.log_blink, Desktop.put_nowait. rewrite C, F. reflexivity.
    + rewrite (log_blink_active _ _ _ _ _ _ _ C F).
      unfold Desktop._update_session_totals.
      destruct fault; simpl.
      * rewrite <- app_assoc. repeat split. exact C.
      * rewrite C. simpl. repeat split. exact C.
  - unfold Desktop.log_blink. rewrite C. reflexivity.
Qed.

Lemma flood_queue (n : nat) :
  Desktop.maxsize (Desktop.blink_queue (LocalExamples.flood n)) = 0%nat /\
  Desktop.current_session_id (LocalExamples.flood n) = Some 1%nat /\
  Desktop.qsize (Desktop.blink_queue (LocalExamples.flood n)) = n.
Proof.
  induction n as [|n (M & C & L)]; [repeat split|].
  cbn [LocalExamples.flood].
  assert (F : Desktop.full (Desktop.blink_queue (LocalExamples.flood n)) = false).
  { unfold Desktop.full. rewrite M. reflexivity. }
  rewrite (log_blink_active _ _ _ _ _ _ _ C F).
  cbn [Desktop.log Desktop.blink_queue Desktop.current_session_id].
  match goal with
  | |- context [Desktop._update_session_totals ?f ?c ?r ?m] =>
      destruct (update_session_totals_frame f c r m) as (-> & -> & _)
  end.
  cbn [Desktop.set_queue Desktop.blink_queue Desktop.current_session_id
       Desktop.maxsize].
  split; [exact M|]. split; [exact C|].
  unfold Desktop.qsize in *. cbn [Desktop.items].
  rewrite length_app, L. simpl. lia.
Qed.

(** The claim as stated fails: the queue made by [__init__] has no capacity;
    after [n] calls of [log_blink] with no writer pass in between it holds
    [n] samples and is still not full, for every [n]. *)
Lemma blink_queue_has_no_bound :
  Desktop.maxsize (Desktop.blink_queue (Desktop.init Desktop.empty_database None))
  = 0%nat /\
  (forall n,
      Desktop.qsize (Desktop.blink_queue (LocalExamples.flood n)) = n /\
      Desktop.full (Desktop.blink_queue (LocalExamples.flood n)) = false).
Proof.
  split; [reflexivity|]. intro n.
  destruct (flood_queue n) as (M & _ & L). split; [exact L|].
  unfold Desktop.full. rewrite M. reflexivity.
Qed.

(** ** The batch writer *)

Lemma writer_pass_eq (t : Q) (fault : bool)
      (s : Desktop.SQLiteManager * Desktop.Processor) :
  Desktop.process_blink_batches_step t fault s
  = if Inv.flush_due t s
    then
      if fault
      then (Desktop.log Desktop.Error_in_blink_batch_processing
              (Desktop.log Desktop.Error_inserting_blink_batch (fst (Inv.taken s))),
            Desktop.mkProcessor (snd (Inv.taken s)) (Desktop.last_batch_time (snd s)))
      else (Desktop.log (Desktop.Debug_inserted_batch (List.length (snd (Inv.taken s))))
              (Desktop.set_db
                 (Desktop.insert_rows (Desktop.db (fst (Inv.taken s)))
                                      (snd (Inv.taken s)))
                 (fst (Inv.taken s))),
            Desktop.mkProcessor [] t)
    else (fst (Inv.taken s),
          Desktop.mkProcessor (snd (Inv.taken s)) (Desktop.last_batch_time (snd s))).
Proof.
  destruct s as [m p].
  unfold Desktop.process_blink_batches_step, Inv.flush_due, Inv.taken. simpl.
  destruct (Desktop.get (Desktop.blink_queue m)) as [[b q]|]; simpl;
    match goal with
    | |- context [Desktop.nonempty ?l] => destruct (Desktop.nonempty l) eqn:N
    end; simpl;
    repeat match goal with
           | |- context [if ?c then _ else _] =>
               lazymatch c with
               | context [if _ then _ else _] => fail
               | _ => destruct c
               end
           end; simpl; try reflexivity.
Qed.



Lemma insert_rows_content (l : list Desktop.BlinkData) :
  forall d,
    map Inv.row_content (Desktop.blink_data (Desktop.insert_rows d l))
    = map Inv.row_content (Desktop.blink_data d) ++ map Inv.item_content l.
Proof.
  induction l as [|b l IH]; intro d; simpl.
  - rewrite app_nil_r. reflexivity.
  - rewrite IH. simpl. rewrite map_app, <- app_assoc. reflexivity.
Qed.






(** ** Monotonicity of the aggregates *)

Lemma no_less_refl (s : Cloud.CloudSession) : Inv.no_less s s.
Proof. split; [reflexivity|]. split; [lia | apply Qle_refl]. Qed.

Lemma no_less_trans (a b c : Cloud.CloudSession) :
  Inv.no_less a b -> Inv.no_less b c -> Inv.no_less a c.
Proof.
  intros (I1 & T1 & M1) (I2 & T2 & M2).
  split; [congruence|]. split; [lia | eapply Qle_trans; eassumption].
Qed.

Lemma Forall2_no_less_refl (l : list Cloud.CloudSession) : Forall2 Inv.no_less l l.
Proof. induction l; constructor; [apply no_less_refl | assumption]. Qed.

Lemma Forall2_no_less_trans (l1 : list Cloud.CloudSession) :
  forall l2 l3,
    Forall2 Inv.no_less l1 l2 -> Forall2 Inv.no_less l2 l3 ->
    Forall2 Inv.no_less l1 l3.
Proof.
  induction l1 as [|a l1 IH]; intros l2 l3 H12 H23.
  - inversion H12; subst. inversion H23; subst. constructor.
  - inversion H12 as [|? b ? l2' Hab H12']; subst.
    inversion H23 as [|? c ? l3' Hbc H23']; subst.
    constructor; [eapply no_less_trans; eassumption | eapply IH; eassumption].
Qed.

Lemma grown_refl (l : list Cloud.CloudSession) : Inv.grown l l.
Proof.
  exists l, []. split; [symmetry; apply app_nil_r | apply Forall2_no_less_refl].
Qed.

Lemma grown_trans (l1 l2 l3 : list Cloud.CloudSession) :
  Inv.grown l1 l2 -> Inv.grown l2 l3 -> Inv.grown l1 l3.
Proof.
  intros (k & e & -> & H1) (k' & e' & -> & H2).
  apply Forall2_app_inv_l in H2. destruct H2 as (k1 & k2 & Hk & He & ->).
  exists k1, (k2 ++ e'). split; [symmetry; apply app_assoc|].
  eapply Forall2_no_less_trans; eassumption.
Qed.

Lemma grown_update_first (p : Cloud.CloudSession -> bool)
      (f : Cloud.CloudSession -> Cloud.CloudSession) (l : list Cloud.CloudSession) :
  (forall s, Inv.no_less s (f s)) -> Inv.grown l (Py.update_first p f l).
Proof.
  intro K. exists (Py.update_first p f l), [].
  split; [symmetry; apply app_nil_r|].
  induction l as [|x l IH]; simpl; [constructor|].
  destruct (p x); constructor;
    auto using no_less_refl, Forall2_no_less_refl.
Qed.

Lemma merge_existing_no_less (e : option Cloud.datetime)
      (blink_data : list Cloud.DataPoint) (s : Cloud.CloudSession) :
  Inv.no_less s (Cloud.merge_existing e blink_data s).
Proof.
  split; [apply merge_existing_key|].
  unfold Cloud.merge_existing.
  destruct e, (Cloud.cs_end_time s), blink_data; simpl;
    (split; [try rewrite max2_Z; lia | first [apply Qle_refl | apply max2_Q_left]]).
Qed.

Lemma upload_session_grown (user : Cloud.uuid) (st : Cloud.UploadState)
      (session : Cloud.LocalSessionDict) :
  Inv.grown (Cloud.cloud_sessions (Cloud.up_db st))
            (Cloud.cloud_sessions (Cloud.up_db (Cloud.upload_session user st session))).
Proof.
  destruct (Cloud.start_time session) as [t|] eqn:S.
  - destruct (find (Cloud.same_start user t) (Cloud.cloud_sessions (Cloud.up_db st)))
      as [e|] eqn:F.
    + rewrite (upload_session_matched _ _ _ _ _ S F). simpl.
      apply grown_update_first, merge_existing_no_less.
    + rewrite (upload_session_created _ _ _ _ S F). simpl.
      eexists. eexists. split; [reflexivity | apply Forall2_no_less_refl].
  - rewrite (upload_session_skipped _ _ _ S). apply grown_refl.
Qed.

Lemma upload_sessions_grown (user : Cloud.uuid) (l : list Cloud.LocalSessionDict) :
  forall st,
    Inv.grown (Cloud.cloud_sessions (Cloud.up_db st))
              (Cloud.cloud_sessions (Cloud.up_db (Cloud.upload_sessions user st l))).
Proof.
  induction l as [|s l IH]; intro st; simpl.
  - apply grown_refl.
  - eapply grown_trans; [apply upload_session_grown | apply IH].
Qed.

Lemma Forall2_map_self {A : Type} (R : A -> A -> Prop) (g : A -> A) (l : list A) :
  (forall x, R x (g x)) -> Forall2 R l (map g l).
Proof. intro K. induction l; simpl; constructor; auto. Qed.

Lemma set_totals_written (id : nat) (n : Z) (r : Q) (a : option Q)
      (s : Desktop.LocalSession) :
  Inv.totals_written id n s
    (if Nat.eqb (Desktop.ls_id s) id then Desktop.set_totals n r a s else s).
Proof.
  unfold Inv.totals_written.
  destruct (Nat.eqb (Desktop.ls_id s) id); simpl.
  - split; [reflexivity|]. split; [|reflexivity].
    destruct (Py.Qgtb r (Desktop.ls_max_blink_rate s)) eqn:E.
    + apply Qgtb_true in E. apply Qlt_le_weak. exact E.
    + apply Qle_refl.
  - split; [reflexivity|]. split; [apply Qle_refl | reflexivity].
Qed.

Lemma end_current_session_totals (now : Desktop.datetime) (fault : bool)
      (m m1 : Desktop.SQLiteManager) (r : option Desktop.LocalSession) :
  Desktop.end_current_session now fault m = Desktop.Returned m1 r ->
  map Desktop.ls_total_blinks (Desktop.local_sessions (Desktop.db m1))
  = map Desktop.ls_total_blinks (Desktop.local_sessions (Desktop.db m)).
Proof.
  assert (K : forall id,
             map Desktop.ls_total_blinks
                 (Desktop.local_sessions
                    (Desktop.update_where_id id (Desktop.set_end now) (Desktop.db m)))
             = map Desktop.ls_total_blinks (Desktop.local_sessions (Desktop.db m))).
  { intro id. unfold Desktop.update_where_id. simpl. rewrite map_map.
    apply map_ext. intro s. destruct (Nat.eqb (Desktop.ls_id s) id); reflexivity. }
  unfold Desktop.end_current_session.
  destruct (Desktop.current_session_id m) as [id|].
  - destruct (negb _); [discriminate|].
    destruct fault; [intro H; injection H as <- _; reflexivity|].
    destruct (Desktop.get_session id m);
      [|intro H; injection H as <- _; reflexivity].
    destruct (Desktop.get_session id _); intro H; injection H as <- _; apply K.
  - intro H. injection H as <- _. reflexivity.
Qed.

(** C8 (amended). On the remote store an upload leaves every session that
    was there in place with [total_blinks] and [max_blink_rate] no smaller
    than before, so repeated merges never lower them.  On the local store the
    per-sample update never lowers [max_blink_rate] and sets [total_blinks]
    of the current session to the [blink_count] of the call, whatever the
    stored value; closing the local session leaves every [total_blinks] as it
    is; the remote [end_session] stores the [total_blinks] of its request. *)
Theorem total_blinks_when_written :
  (forall request user rdb rdb' resp,
      Cloud.upload_local_data request user rdb = inr (rdb', resp) ->
      Inv.grown (Cloud.cloud_sessions rdb) (Cloud.cloud_sessions rdb')) /\
  (forall now blink_count blink_rate eye_aspect_ratio m id,
      Desktop.current_session_id m = Some id ->
      Desktop.full (Desktop.blink_queue m) = false ->
      Forall2 (Inv.totals_written id blink_count)
        (Desktop.local_sessions (Desktop.db m))
        (Desktop.local_sessions
           (Desktop.db (Desktop.log_blink now false blink_count blink_rate
                                          eye_aspect_ratio m)))) /\
  (forall now fault m m1 r,
      Desktop.end_current_session now fault m = Desktop.Returned m1 r ->
      map Desktop.ls_total_blinks (Desktop.local_sessions (Desktop.db m1))
      = map Desktop.ls_total_blinks (Desktop.local_sessions (Desktop.db m))) /\
  (forall request now user rdb rdb1 resp,
      Cloud.end_session request now user rdb = inr (rdb1, resp) ->
      exists closed,
        find (Cloud.has_id (Cloud.req_session_id request)) (Cloud.cloud_sessions rdb1)
        = Some closed /\
        Cloud.cs_total_blinks closed = Cloud.req_total_blinks request).
Proof.
  split; [|split; [|split]].
  - intros request user rdb rdb' resp. unfold Cloud.upload_local_data.
    destruct (negb _); [discriminate|].
    intro H. injection H as <- _.
    apply (upload_sessions_grown user (Cloud.sessions request)
                                 (Cloud.mkUploadState rdb 0 0)).
  - intros now n r e m id C F.
    rewrite (log_blink_active _ _ _ _ _ _ _ C F).
    unfold Desktop._update_session_totals. simpl. rewrite C. simpl.
    apply Forall2_map_self. intro s. apply set_totals_written.
  - exact end_current_session_totals.
  - intros request now user rdb rdb1 resp H.
    destruct (end_session_inr _ _ _ _ _ _ H) as (s & F & _ & _ & L & _).
    exists (Cloud.close_with request now s). split; [|reflexivity].
    rewrite L. apply find_after_update_first; [exact F|].
    apply find_some in F. apply F.
Qed.

Lemma total_blinks_when_written_witness :
  let m' := Desktop.log_blink (LocalExamples.T + 1000000) false 5 (15 # 1) None
                              LocalExamples.tracking in
  Desktop.current_session_id LocalExamples.tracking = Some 1%nat /\
  Desktop.full (Desktop.blink_queue LocalExamples.tracking) = false /\
  Forall2 (Inv.totals_written 1 5)
          (Desktop.local_sessions (Desktop.db LocalExamples.tracking))
          (Desktop.local_sessions (Desktop.db m')) /\
  map Desktop.ls_total_blinks (Desktop.local_sessions (Desktop.db m')) = [5].
Proof.
  split; [reflexivity|]. split; [reflexivity|]. split; [|reflexivity].
  exact (proj1 (proj2 total_blinks_when_written) (LocalExamples.T + 1000000) 5
               (15 # 1)%Q None LocalExamples.tracking 1%nat eq_refl eq_refl).
Defined.

(** The claim as stated fails: a sample that reports 3 blinks after one that
    reported 5 takes the stored total from 5 down to 3. *)
Lemma total_blinks_can_decrease :
  let m5 := Desktop.log_blink (LocalExamples.T + 1000000) false 5 (15 # 1) None
                              LocalExamples.tracking in
  let m3 := Desktop.log_blink (LocalExamples.T + 2000000) false 3 (15 # 1) None m5 in
  map Desktop.ls_total_blinks (Desktop.local_sessions (Desktop.db m5)) = [5] /\
  map Desktop.ls_total_blinks (Desktop.local_sessions (Desktop.db m3)) = [3].
Proof. split; reflexivity. Qed.

(** * Further properties of the code *)

(** ** Health score and session routes (sessions.py) *)

(** X1. The health score is never below 60 nor above 100, so the final
    [max(0, min(100, score))] never changes anything; it is 100 exactly for a
    rate within [10, 25] and a duration of at most an hour, and at a given
    rate a longer session never scores higher. *)
Theorem health_score_range (a : Q) (d d' : Z) :
  60 <= Cloud.calculate_health_score a d <= 100 /\
  (Cloud.calculate_health_score a d = 100
   <-> ((10 # 1) <= a)%Q /\ (a <= (25 # 1))%Q /\ d <= 3600) /\
  (d <= d' -> Cloud.calculate_health_score a d' <= Cloud.calculate_health_score a d).
Proof.
  unfold Cloud.calculate_health_score. rewrite !Z.gtb_ltb.
  destruct (Py.Qltb a (10 # 1)) eqn:L1;
    [apply Qltb_true in L1 | apply Qltb_false in L1];
    (destruct (Py.Qgtb a (30 # 1)) eqn:L2;
     [apply Qgtb_true in L2 | apply Qgtb_false in L2]);
    (destruct (Py.Qgtb a (25 # 1)) eqn:L3;
     [apply Qgtb_true in L3 | apply Qgtb_false in L3]);
    destruct (Z.ltb_spec 7200 d); destruct (Z.ltb_spec 3600 d);
    destruct (Z.ltb_spec 7200 d'); destruct (Z.ltb_spec 3600 d');
    (split; [lia|]); (split; [|lia]);
    (split; [intro E; try lia | intros (A & B & C); try lia]);
    try (repeat split; try lia; lra); exfalso; lra.
Qed.


Lemma map_update_first {A B : Type} (g : A -> B) (p : A -> bool) (f : A -> A)
      (l : list A) :
  (forall x, g (f x) = g x) -> map g (Py.update_first p f l) = map g l.
Proof.
  intro K. induction l as [|x l IH]; simpl; [reflexivity|].
  destruct (p x); simpl; [rewrite K | rewrite IH]; reflexivity.
Qed.


(** X2. [end_session] closes exactly one session or nothing: it answers 404
    when no session has the identifier, 403 when the session belongs to
    someone else (even if it is already closed), 400 when it is the caller's
    but closed, and otherwise rewrites that one row, leaving every other
    session, every sample and the identifier supply as they were. *)
Theorem end_session_outcomes
        (request : Cloud.SessionEndRequest) (now : Cloud.datetime)
        (user : Cloud.uuid) (db : Cloud.DB) :
  let found := find (Cloud.has_id (Cloud.req_session_id request))
                    (Cloud.cloud_sessions db) in
  match Cloud.end_session request now user db with
  | inl Cloud.HTTP_404_NOT_FOUND => found = None
  | inl Cloud.HTTP_403_FORBIDDEN =>
      exists s, found = Some s /\ Cloud.cs_user_id s <> user
  | inl Cloud.HTTP_400_BAD_REQUEST =>
      exists s, found = Some s /\ Cloud.cs_user_id s = user /\
                Cloud.cs_end_time s <> None
  | inl Cloud.HTTP_409_CONFLICT => False
  | inr (db', resp) =>
      exists before s after,
        found = Some s /\
        Cloud.cs_user_id s = user /\ Cloud.cs_end_time s = None /\
        Cloud.cloud_sessions db = before ++ s :: after /\
        Cloud.cloud_sessions db'
        = before ++ Cloud.close_with request now s :: after /\
        Cloud.session_data db' = Cloud.session_data db /\
        Cloud.next_uuid db' = Cloud.next_uuid db /\
        Cloud.resp_id resp = Cloud.cs_id s /\
        Cloud.resp_end_time resp = Some now /\
        Cloud.resp_total_blinks resp = Cloud.req_total_blinks request
  end.
Proof.
  intro found. subst found. unfold Cloud.end_session.
  destruct (find _ _) as [s|] eqn:F; [|reflexivity].
  destruct (Nat.eqb_spec (Cloud.cs_user_id s) user) as [U|U]; simpl.
  - destruct (Cloud.cs_end_time s) eqn:E.
    + exists s. repeat split; [exact U | congruence].
    + destruct (find_update_first _ (Cloud.close_with request now) _ _ F)
        as (before & after & L & L' & _).
      exists before, s, after. repeat split; assumption.
  - exists s. split; [reflexivity | exact U].
Qed.

Lemma cloud_ok_append (db : Cloud.DB) (session : Cloud.CloudSession)
      (rows : list Cloud.SessionData) :
  Wf.cloud_ok db ->
  Cloud.cs_id session = Cloud.next_uuid db ->
  Forall (fun r => (Cloud.sd_session_id r <= Cloud.next_uuid db)%nat) rows ->
  Wf.cloud_ok (Cloud.mkDB (Cloud.cloud_sessions db ++ [session])
                          (Cloud.session_data db ++ rows)
                          (S (Cloud.next_uuid db))).
Proof.
  intros (N & F & R) I Rows. unfold Wf.cloud_ok. simpl.
  split; [|split].
  - rewrite map_app. simpl.
    apply NoDup_app; [exact N | constructor; [intros [] | constructor] |].
    intros x Hx [<-|[]]. rewrite I in Hx. apply in_map_iff in Hx.
    destruct Hx as (y & E & Hy).
    rewrite Forall_forall in F. specialize (F _ Hy). simpl in F. lia.
  - apply Forall_app. split.
    + eapply Forall_impl; [|exact F]. simpl. intros; lia.
    + constructor; [simpl; lia | constructor].
  - apply Forall_app. split.
    + eapply Forall_impl; [|exact R]. simpl. intros; lia.
    + eapply Forall_impl; [|exact Rows]. simpl. intros; lia.
Qed.

Lemma cloud_ok_rewrite (db : Cloud.DB) (p : Cloud.CloudSession -> bool)
      (f : Cloud.CloudSession -> Cloud.CloudSession) (rows : list Cloud.SessionData) :
  Wf.cloud_ok db ->
  (forall s, Cloud.cs_id (f s) = Cloud.cs_id s) ->
  Forall (fun r => (Cloud.sd_session_id r < Cloud.next_uuid db)%nat) rows ->
  Wf.cloud_ok (Cloud.mkDB (Py.update_first p f (Cloud.cloud_sessions db))
                          (Cloud.session_data db ++ rows) (Cloud.next_uuid db)).
Proof.
  intros (N & F & R) K Rows. unfold Wf.cloud_ok. simpl.
  split; [|split].
  - rewrite (map_update_first Cloud.cs_id p f _ K). exact N.
  - apply Forall_map with (f := Cloud.cs_id) (P := fun i => (i < Cloud.next_uuid db)%nat).
    rewrite (map_update_first Cloud.cs_id p f _ K).
    apply Forall_map. exact F.
  - apply Forall_app. split; assumption.
Qed.

Lemma upload_session_ok (user : Cloud.uuid) (st : Cloud.UploadState)
      (session : Cloud.LocalSessionDict) :
  Wf.cloud_ok (Cloud.up_db st) ->
  Wf.cloud_ok (Cloud.up_db (Cloud.upload_session user st session)).
Proof.
  intro H.
  destruct (Cloud.start_time session) as [t|] eqn:S.
  - destruct (find (Cloud.same_start user t) (Cloud.cloud_sessions (Cloud.up_db st)))
      as [e|] eqn:F.
    + rewrite (upload_session_matched _ _ _ _ _ S F). simpl.
      apply cloud_ok_rewrite; [exact H | intro s; apply merge_existing_key |].
      apply Forall_map with (f := Cloud.session_data_row (Cloud.cs_id e))
                            (P := fun r => (Cloud.sd_session_id r
                                            < Cloud.next_uuid (Cloud.up_db st))%nat).
      apply Forall_forall. intros d _. simpl.
      destruct H as (_ & Fr & _). rewrite Forall_forall in Fr.
      apply Fr. apply find_some in F. apply F.
    + rewrite (upload_session_created _ _ _ _ S F). simpl.
      apply cloud_ok_append; [exact H | apply create_cloud_session_id |].
      apply Forall_map with (f := Cloud.session_data_row
                                    (Cloud.next_uuid (Cloud.up_db st)))
                            (P := fun r => (Cloud.sd_session_id r
                                            <= Cloud.next_uuid (Cloud.up_db st))%nat).
      apply Forall_forall. intros d _. simpl. lia.
  - rewrite (upload_session_skipped _ _ _ S). exact H.
Qed.

Lemma upload_sessions_ok (user : Cloud.uuid) (l : list Cloud.LocalSessionDict) :
  forall st,
    Wf.cloud_ok (Cloud.up_db st) ->
    Wf.cloud_ok (Cloud.up_db (Cloud.upload_sessions user st l)).
Proof.
  induction l as [|s l IH]; intros st H; simpl; [exact H|].
  apply IH, upload_session_ok, H.
Qed.

Lemma start_session_inr (request_user : Cloud.uuid) (now : Cloud.datetime)
      (user : Cloud.uuid) (db db1 : Cloud.DB) (resp : Cloud.SessionResponse) :
  Cloud.start_session request_user now user db = inr (db1, resp) ->
  request_user = user /\
  Cloud.get_active_session db user = None /\
  db1 = Cloud.mkDB (Cloud.cloud_sessions db
                      ++ [Cloud.new_session (Cloud.next_uuid db) user None now None])
                   (Cloud.session_data db) (S (Cloud.next_uuid db)) /\
  Cloud.resp_id resp = Cloud.next_uuid db.
Proof.
  unfold Cloud.start_session.
  destruct (Nat.eqb_spec request_user user) as [->|]; simpl; [|discriminate].
  destruct (Cloud.get_active_session db user); [discriminate|].
  intro H. injection H as <- <-. repeat split.
Qed.

Lemma end_session_db (request : Cloud.SessionEndRequest) (now : Cloud.datetime)
      (user : Cloud.uuid) (db db' : Cloud.DB) (resp : Cloud.SessionResponse) :
  Cloud.end_session request now user db = inr (db', resp) ->
  db' = Cloud.mkDB (Py.update_first (Cloud.has_id (Cloud.req_session_id request))
                                    (Cloud.close_with request now)
                                    (Cloud.cloud_sessions db))
                   (Cloud.session_data db) (Cloud.next_uuid db).
Proof.
  unfold Cloud.end_session.
  destruct (find _ _) as [s|]; [|discriminate].
  destruct (negb _); [discriminate|].
  destruct (Cloud.cs_end_time s); [discriminate|].
  intro H. injection H as <- _. reflexivity.
Qed.

(** X3. The routes that write sessions keep the remote store well formed:
    after [start_session], [end_session] or [upload_local_data] the session
    identifiers are still pairwise distinct, and every session and every
    sample row refers to an identifier that was handed out. *)
Theorem cloud_store_stays_well_formed (db db' : Cloud.DB) :
  Wf.cloud_ok db ->
  (exists request_user now user resp,
      Cloud.start_session request_user now user db = inr (db', resp)) \/
  (exists request now user resp,
      Cloud.end_session request now user db = inr (db', resp)) \/
  (exists request user resp,
      Cloud.upload_local_data request user db = inr (db', resp)) ->
  Wf.cloud_ok db'.
Proof.
  intros H [(ru & now & user & resp & E)|[(request & now & user & resp & E)
                                         |(request & user & resp & E)]].
  - destruct (start_session_inr _ _ _ _ _ _ E) as (_ & _ & -> & _).
    rewrite <- (app_nil_r (Cloud.session_data db)).
    apply cloud_ok_append; [exact H | reflexivity | constructor].
  - rewrite (end_session_db _ _ _ _ _ _ E).
    rewrite <- (app_nil_r (Cloud.session_data db)).
    apply cloud_ok_rewrite; [exact H | reflexivity | constructor].
  - unfold Cloud.upload_local_data in E.
    destruct (negb _); [discriminate|]. injection E as <- _.
    apply (upload_sessions_ok user (Cloud.sessions request)
                              (Cloud.mkUploadState db 0 0)). exact H.
Qed.

Lemma cloud_store_stays_well_formed_witness :
  Wf.cloud_ok Examples.empty_db /\
  (exists db', 
      (exists resp, Cloud.upload_local_data Examples.upload_40 Examples.alice
                                            Examples.empty_db = inr (db', resp)) /\
      Wf.cloud_ok db').
Proof.
  assert (H : Wf.cloud_ok Examples.empty_db).
  { repeat split; constructor. }
  split; [exact H|].
  eexists. split; [eexists; reflexivity|].
  refine (cloud_store_stays_well_formed Examples.empty_db _ H _).
  right. right. exists Examples.upload_40, Examples.alice. eexists. reflexivity.
Defined.



(** ** Upload reconciliation, continued (sync.py) *)

Lemma length_update_first {A : Type} (p : A -> bool) (f : A -> A) (l : list A) :
  List.length (Py.update_first p f l) = List.length l.
Proof.
  induction l as [|x l IH]; simpl; [reflexivity|].
  destruct (p x); simpl; [|rewrite IH]; reflexivity.
Qed.

Lemma upload_sessions_counts (user : Cloud.uuid) (l : list Cloud.LocalSessionDict) :
  forall st,
    Cloud.upload_sessions user st (Wf.timed l) = Cloud.upload_sessions user st l /\
    Cloud.up_synced_data_points (Cloud.upload_sessions user st l)
    = Cloud.up_synced_data_points st + Z.of_nat (Wf.samples (Wf.timed l)) /\
    List.length (Cloud.session_data (Cloud.up_db (Cloud.upload_sessions user st l)))
    = (List.length (Cloud.session_data (Cloud.up_db st))
       + Wf.samples (Wf.timed l))%nat /\
    exists created,
      (created <= List.length (Wf.timed l))%nat /\
      Cloud.up_synced_sessions (Cloud.upload_sessions user st l)
      = Cloud.up_synced_sessions st + Z.of_nat created /\
      List.length (Cloud.cloud_sessions (Cloud.up_db (Cloud.upload_sessions user st l)))
      = (List.length (Cloud.cloud_sessions (Cloud.up_db st)) + created)%nat /\
      Cloud.next_uuid (Cloud.up_db (Cloud.upload_sessions user st l))
      = (Cloud.next_uuid (Cloud.up_db st) + created)%nat.
Proof.
  induction l as [|s l IH]; intro st.
  - unfold Wf.samples. simpl. split; [reflexivity|]. split; [lia|]. split; [lia|].
    exists 0%nat. simpl. repeat split; lia.
  - cbn [Wf.timed filter Cloud.upload_sessions fold_left].
    fold (Wf.timed l). fold (Cloud.upload_sessions user (Cloud.upload_session user st s) l).
    destruct (IH (Cloud.upload_session user st s))
      as (T & P & D & created & C1 & C2 & C3 & C4).
    destruct (Cloud.start_time s) as [t|] eqn:St; simpl.
    + fold (Cloud.upload_sessions user (Cloud.upload_session user st s) (Wf.timed l)).
      split; [exact T|].
      unfold Wf.samples in *. cbn [map list_sum]. rewrite P, D.
      destruct (find (Cloud.same_start user t) (Cloud.cloud_sessions (Cloud.up_db st)))
        as [e|] eqn:F.
      * rewrite (upload_session_matched _ _ _ _ _ St F) in *. simpl in *.
        rewrite length_app, length_map, length_update_first in *.
        split; [lia|]. split; [lia|].
        exists created. repeat split; lia.
      * rewrite (upload_session_created _ _ _ _ St F) in *. simpl in *.
        rewrite !length_app, length_map in *. simpl in *.
        split; [lia|]. split; [lia|].
        exists (S created). repeat split; lia.
    + rewrite (upload_session_skipped _ _ _ St) in *.
      split; [exact T|]. split; [exact P|]. split; [exact D|].
      exists created. repeat split; assumption.
Qed.

(** X5. What an upload reports is what it stored.  [synced_data_points] is
    the number of samples in the sessions that carry a start time, and that
    many rows are added to [session_data]; [synced_sessions] is the number of
    rows added to [cloud_sessions] and of identifiers consumed, at most one
    per such session.  Sessions without a start time are skipped entirely:
    the upload behaves as if they had not been sent. *)
Theorem upload_accounting
        (request : Cloud.SyncUploadRequest) (user : Cloud.uuid)
        (db db' : Cloud.DB) (resp : Cloud.SyncResponse) :
  Cloud.upload_local_data request user db = inr (db', resp) ->
  let sent := Wf.timed (Cloud.sessions request) in
  Cloud.synced_data_points resp = Z.of_nat (Wf.samples sent) /\
  List.length (Cloud.session_data db')
  = (List.length (Cloud.session_data db) + Wf.samples sent)%nat /\
  0 <= Cloud.synced_sessions resp <= Z.of_nat (List.length sent) /\
  Z.of_nat (List.length (Cloud.cloud_sessions db'))
  = Z.of_nat (List.length (Cloud.cloud_sessions db)) + Cloud.synced_sessions resp /\
  Z.of_nat (Cloud.next_uuid db')
  = Z.of_nat (Cloud.next_uuid db) + Cloud.synced_sessions resp /\
  Cloud.upload_local_data (Cloud.mkSyncUploadRequest (Cloud.user_id request) sent)
                          user db
  = inr (db', resp).
Proof.
  intros H sent. subst sent. unfold Cloud.upload_local_data in *. simpl.
  destruct (negb _); [discriminate|].
  injection H as <- <-. simpl.
  destruct (upload_sessions_counts user (Cloud.sessions request)
                                   (Cloud.mkUploadState db 0 0))
    as (T & P & D & created & C1 & C2 & C3 & C4).
  simpl in *. unfold Cloud.upload_sessions in *.
  rewrite T, P, D, C2, C3, C4.
  repeat split; lia.
Qed.

Lemma upload_accounting_witness :
  exists db' resp,
    Cloud.upload_local_data Examples.upload_40 Examples.alice Examples.remote_db
    = inr (db', resp) /\
    Cloud.synced_data_points resp = 3 /\
    List.length (Cloud.session_data db') = 3%nat /\
    Cloud.synced_sessions resp = 0.
Proof.
  eexists. eexists. split; [reflexivity|].
  destruct (upload_accounting Examples.upload_40 Examples.alice Examples.remote_db
              _ _ eq_refl) as (P & D & _).
  split; [exact P|]. split; [exact D | reflexivity].
Defined.

Lemma same_start_key (user : Cloud.uuid) (t : Cloud.datetime) (s : Cloud.CloudSession) :
  Cloud.same_start user t s = true <-> Wf.key s = (user, t).
Proof.
  unfold Cloud.same_start, Wf.key. rewrite andb_true_iff, Nat.eqb_eq, Z.eqb_eq.
  split; [intros (-> & ->); reflexivity | intro H; injection H; auto].
Qed.

Lemma find_none_key (user : Cloud.uuid) (t : Cloud.datetime)
      (l : list Cloud.CloudSession) :
  find (Cloud.same_start user t) l = None -> ~ In (user, t) (map Wf.key l).
Proof.
  induction l as [|x l IH]; simpl; [tauto|].
  destruct (Cloud.same_start user t x) eqn:E; [discriminate|].
  intros H [K|K]; [|exact (IH H K)].
  apply same_start_key in K. congruence.
Qed.

Lemma upload_session_keys (user : Cloud.uuid) (st : Cloud.UploadState)
      (session : Cloud.LocalSessionDict) :
  Wf.keys_distinct (Cloud.cloud_sessions (Cloud.up_db st)) ->
  Wf.keys_distinct
    (Cloud.cloud_sessions (Cloud.up_db (Cloud.upload_session user st session))).
Proof.
  unfold Wf.keys_distinct. intro H.
  destruct (Cloud.start_time session) as [t|] eqn:St.
  - destruct (find (Cloud.same_start user t) (Cloud.cloud_sessions (Cloud.up_db st)))
      as [e|] eqn:F.
    + rewrite (upload_session_matched _ _ _ _ _ St F). simpl.
      rewrite map_update_first; [exact H|].
      intro x. unfold Wf.key.
      destruct (merge_existing_key (Cloud.end_time session)
                                   (Cloud.blink_data session) x) as (_ & -> & ->).
      reflexivity.
    + rewrite (upload_session_created _ _ _ _ St F). simpl.
      rewrite map_app. simpl.
      apply NoDup_app; [exact H | constructor; [intros [] | constructor] |].
      intros k Hk [<-|[]].
      assert (K : Wf.key (Cloud.create_cloud_session
                            (Cloud.next_uuid (Cloud.up_db st)) user t session)
                  = (user, t)).
      { unfold Cloud.create_cloud_session.
        destruct (Cloud.blink_data session); reflexivity. }
      rewrite K in Hk. exact (find_none_key _ _ _ F Hk).
  - rewrite (upload_session_skipped _ _ _ St). exact H.
Qed.

(** X6. An upload never creates a second remote session for an owner and
    start time that already has one: if no two remote sessions share owner
    and start time before the upload, none do after it, however often a start
    time is repeated inside the request. *)
Theorem upload_keeps_start_times_distinct
        (request : Cloud.SyncUploadRequest) (user : Cloud.uuid)
        (db db' : Cloud.DB) (resp : Cloud.SyncResponse) :
  Cloud.upload_local_data request user db = inr (db', resp) ->
  Wf.keys_distinct (Cloud.cloud_sessions db) ->
  Wf.keys_distinct (Cloud.cloud_sessions db').
Proof.
  unfold Cloud.upload_local_data.
  destruct (negb _); [discriminate|].
  intros H K. injection H as <- _.
  generalize (Cloud.mkUploadState db 0 0) (K : Wf.keys_distinct
    (Cloud.cloud_sessions (Cloud.up_db (Cloud.mkUploadState db 0 0)))).
  induction (Cloud.sessions request) as [|s l IH]; intros st Hst; simpl;
    [exact Hst|].
  apply IH, upload_session_keys, Hst.
Qed.

Lemma upload_keeps_start_times_distinct_witness :
  let twice := Cloud.mkSyncUploadRequest Examples.alice
                 [Examples.local_40; Examples.local_40] in
  exists db' resp,
    Cloud.upload_local_data twice Examples.alice Examples.empty_db = inr (db', resp) /\
    Wf.keys_distinct (Cloud.cloud_sessions Examples.empty_db) /\
    Cloud.synced_sessions resp = 1 /\
    Wf.keys_distinct (Cloud.cloud_sessions db').
Proof.
  intro twice. eexists. eexists. split; [reflexivity|].
  assert (K : Wf.keys_distinct (Cloud.cloud_sessions Examples.empty_db))
    by constructor.
  split; [exact K|]. split; [reflexivity|].
  exact (upload_keeps_start_times_distinct twice Examples.alice Examples.empty_db
           _ _ eq_refl K).
Defined.

Lemma set_statistics_same (s : Cloud.CloudSession) :
  Cloud.set_statistics (Cloud.cs_total_blinks s) (Cloud.cs_avg_blink_rate s)
                       (Cloud.cs_max_blink_rate s) s = s.
Proof. destruct s; reflexivity. Qed.

Lemma max2_Q_absorbs (a b : Q) : (b <= a)%Q -> Py.max2 Py.Qgtb a b = a.
Proof. intro H. unfold Py.max2. rewrite (proj2 (Qgtb_false b a) H). reflexivity. Qed.

Lemma max2_Z_absorbs (a b : Z) : b <= a -> Py.max2 Z.gtb a b = a.
Proof. intro H. rewrite max2_Z. lia. Qed.

Lemma absorbed_merge_id (e : option Cloud.datetime) (bd : list Cloud.DataPoint)
      (x : Cloud.CloudSession) :
  Wf.absorbed e bd x -> Cloud.merge_existing e bd x = x.
Proof.
  intros (E & St). unfold Cloud.merge_existing.
  assert (K : match e, Cloud.cs_end_time x with
              | Some t, None => Cloud.set_end_time (Some t) x
              | _, _ => x
              end = x).
  { destruct e as [t|]; [|reflexivity].
    destruct (Cloud.cs_end_time x); [reflexivity|].
    destruct E as [E|E]; [discriminate | congruence]. }
  rewrite K. destruct bd as [|d ds]; [reflexivity|].
  destruct St as (T & A & M).
  rewrite (max2_Z_absorbs _ _ T), (max2_Q_absorbs _ _ A), (max2_Q_absorbs _ _ M).
  apply set_statistics_same.
Qed.

Lemma merge_existing_stats (e : option Cloud.datetime) (bd : list Cloud.DataPoint)
      (x : Cloud.CloudSession) :
  Cloud.cs_total_blinks x <= Cloud.cs_total_blinks (Cloud.merge_existing e bd x) /\
  (Cloud.cs_avg_blink_rate x <= Cloud.cs_avg_blink_rate (Cloud.merge_existing e bd x))%Q /\
  (Cloud.cs_max_blink_rate x <= Cloud.cs_max_blink_rate (Cloud.merge_existing e bd x))%Q /\
  (Cloud.cs_end_time x <> None ->
   Cloud.cs_end_time (Cloud.merge_existing e bd x) <> None).
Proof.
  rewrite merge_existing_end_time. unfold Cloud.merge_existing.
  destruct e, (Cloud.cs_end_time x), bd; simpl;
    rewrite ?max2_Z;
    (split; [lia|]); (split; [first [apply Qle_refl | apply max2_Q_left]|]);
    (split; [first [apply Qle_refl | apply max2_Q_left]|]); congruence.
Qed.

Lemma merge_absorbs (e : option Cloud.datetime) (bd : list Cloud.DataPoint)
      (x : Cloud.CloudSession) :
  Wf.absorbed e bd (Cloud.merge_existing e bd x).
Proof.
  split.
  - rewrite merge_existing_end_time.
    destruct e; [right | left; reflexivity].
    destruct (Cloud.cs_end_time x); discriminate.
  - unfold Cloud.merge_existing.
    destruct bd as [|d ds]; [exact I|].
    destruct e, (Cloud.cs_end_time x); simpl; rewrite max2_Z;
      (split; [lia | split; apply max2_Q_right]).
Qed.

Lemma absorbed_after_merge (e e2 : option Cloud.datetime)
      (bd bd2 : list Cloud.DataPoint) (x : Cloud.CloudSession) :
  Wf.absorbed e bd x -> Wf.absorbed e bd (Cloud.merge_existing e2 bd2 x).
Proof.
  intros (E & St).
  destruct (merge_existing_stats e2 bd2 x) as (T & A & M & N).
  split.
  - destruct E as [E|E]; [left; exact E | right; exact (N E)].
  - destruct bd as [|d ds]; [exact I|].
    destruct St as (T' & A' & M').
    split; [lia|]. split; eapply Qle_trans; eassumption.
Qed.

Lemma create_absorbs (id user : Cloud.uuid) (t : Cloud.datetime)
      (s : Cloud.LocalSessionDict) :
  Wf.absorbed (Cloud.end_time s) (Cloud.blink_data s)
              (Cloud.create_cloud_session id user t s).
Proof.
  unfold Cloud.create_cloud_session. split.
  - destruct (Cloud.end_time s) eqn:E; [right | left; reflexivity].
    destruct (Cloud.blink_data s); simpl; discriminate.
  - destruct (Cloud.blink_data s) as [|d ds]; [exact I|]. simpl.
    split; [lia | split; apply Qle_refl].
Qed.

Lemma find_update_first_either (p q : Cloud.CloudSession -> bool)
      (f : Cloud.CloudSession -> Cloud.CloudSession) (l : list Cloud.CloudSession)
      (e : Cloud.CloudSession) :
  (forall x, p (f x) = p x) ->
  find p l = Some e ->
  exists e', find p (Py.update_first q f l) = Some e' /\ (e' = e \/ e' = f e).
Proof.
  intro K. induction l as [|x l IH]; simpl; [discriminate|].
  destruct (q x); simpl.
  - rewrite K. destruct (p x).
    + intro H. injection H as <-. exists (f x). auto.
    + intro H. exists e. auto.
  - destruct (p x).
    + intro H. exists e. auto.
    + exact IH.
Qed.

Lemma update_first_id {A : Type} (p : A -> bool) (f : A -> A) (l : list A) (e : A) :
  find p l = Some e -> f e = e -> Py.update_first p f l = l.
Proof.
  induction l as [|x l IH]; simpl; [reflexivity|].
  destruct (p x).
  - intros H E. injection H as ->. rewrite E. reflexivity.
  - intros H E. rewrite (IH H E). reflexivity.
Qed.

Lemma covered_step (user : Cloud.uuid) (st : Cloud.UploadState)
      (s next : Cloud.LocalSessionDict) :
  Wf.covered user (Cloud.cloud_sessions (Cloud.up_db st)) s ->
  Wf.covered user
    (Cloud.cloud_sessions (Cloud.up_db (Cloud.upload_session user st next))) s.
Proof.
  intros C t St. destruct (C t St) as (e & F & A).
  destruct (Cloud.start_time next) as [t2|] eqn:S2.
  - destruct (find (Cloud.same_start user t2) (Cloud.cloud_sessions (Cloud.up_db st)))
      as [e2|] eqn:F2.
    + rewrite (upload_session_matched _ _ _ _ _ S2 F2). simpl.
      destruct (find_update_first_either (Cloud.same_start user t)
                  (Cloud.same_start user t2)
                  (Cloud.merge_existing (Cloud.end_time next) (Cloud.blink_data next))
                  (Cloud.cloud_sessions (Cloud.up_db st)) e) as (e' & F' & [->| ->]).
      * intro x. apply same_start_keeps, merge_existing_keeps_key.
      * exact F.
      * exists e. split; assumption.
      * eexists. split; [exact F' | apply absorbed_after_merge, A].
    + rewrite (upload_session_created _ _ _ _ S2 F2). simpl.
      exists e. split; [apply find_app_some, F | exact A].
  - rewrite (upload_session_skipped _ _ _ S2). exists e. split; assumption.
Qed.

Lemma covered_self (user : Cloud.uuid) (st : Cloud.UploadState)
      (s : Cloud.LocalSessionDict) :
  Wf.covered user
    (Cloud.cloud_sessions (Cloud.up_db (Cloud.upload_session user st s))) s.
Proof.
  intros t St.
  destruct (find (Cloud.same_start user t) (Cloud.cloud_sessions (Cloud.up_db st)))
    as [e|] eqn:F.
  - rewrite (upload_session_matched _ _ _ _ _ St F). simpl.
    eexists. split; [|apply merge_absorbs].
    apply find_after_update_first; [exact F|].
    rewrite (same_start_keeps _ _ _ _ (merge_existing_keeps_key _ _)).
    apply find_some in F. apply F.
  - rewrite (upload_session_created _ _ _ _ St F). simpl.
    eexists. split; [|apply create_absorbs].
    rewrite (find_app_none _ _ _ F). simpl.
    assert (K : Cloud.same_start user t
                  (Cloud.create_cloud_session (Cloud.next_uuid (Cloud.up_db st))
                                              user t s) = true).
    { apply same_start_key. unfold Cloud.create_cloud_session.
      destruct (Cloud.blink_data s); reflexivity. }
    rewrite K. reflexivity.
Qed.

Lemma covered_after (user : Cloud.uuid) (s : Cloud.LocalSessionDict)
      (l : list Cloud.LocalSessionDict) :
  forall st,
    Wf.covered user (Cloud.cloud_sessions (Cloud.up_db st)) s ->
    Wf.covered user
      (Cloud.cloud_sessions (Cloud.up_db (Cloud.upload_sessions user st l))) s.
Proof.
  induction l as [|x l IH]; intros st C; simpl; [exact C|].
  apply IH, covered_step, C.
Qed.

Lemma all_covered (user : Cloud.uuid) (l : list Cloud.LocalSessionDict) :
  forall st,
    Forall (Wf.covered user
              (Cloud.cloud_sessions (Cloud.up_db (Cloud.upload_sessions user st l))))
           l.
Proof.
  induction l as [|s l IH]; intro st; simpl; constructor.
  - apply covered_after, covered_self.
  - apply IH.
Qed.

Lemma covered_rerun (user : Cloud.uuid) (l : list Cloud.LocalSessionDict) :
  forall st,
    Forall (Wf.covered user (Cloud.cloud_sessions (Cloud.up_db st))) l ->
    Cloud.cloud_sessions (Cloud.up_db (Cloud.upload_sessions user st l))
    = Cloud.cloud_sessions (Cloud.up_db st) /\
    Cloud.next_uuid (Cloud.up_db (Cloud.upload_sessions user st l))
    = Cloud.next_uuid (Cloud.up_db st).
Proof.
  induction l as [|s l IH]; intros st H; simpl; [split; reflexivity|].
  inversion H as [|? ? C Rest]; subst.
  assert (K : Cloud.cloud_sessions (Cloud.up_db (Cloud.upload_session user st s))
              = Cloud.cloud_sessions (Cloud.up_db st) /\
              Cloud.next_uuid (Cloud.up_db (Cloud.upload_session user st s))
              = Cloud.next_uuid (Cloud.up_db st)).
  { destruct (Cloud.start_time s) as [t|] eqn:St.
    - destruct (C t St) as (e & F & A).
      rewrite (upload_session_matched _ _ _ _ _ St F). simpl.
      split; [|reflexivity].
      apply (update_first_id _ _ _ e F), absorbed_merge_id, A.
    - rewrite (upload_session_skipped _ _ _ St). split; reflexivity. }
  destruct K as (K1 & K2).
  destruct (IH (Cloud.upload_session user st s)) as (I1 & I2).
  - rewrite K1. exact Rest.
  - fold (Cloud.upload_sessions user (Cloud.upload_session user st s) l).
    rewrite I1, I2. split; assumption.
Qed.

(** X7. A repeated upload changes no session: after the same request has
    been uploaded twice the table [cloud_sessions] is exactly what the first
    upload left (end times and aggregates included), and no identifier has
    been consumed. *)
Theorem repeated_upload_changes_no_session
        (request : Cloud.SyncUploadRequest) (user : Cloud.uuid)
        (db db1 db2 : Cloud.DB) (r1 r2 : Cloud.SyncResponse) :
  Cloud.upload_local_data request user db = inr (db1, r1) ->
  Cloud.upload_local_data request user db1 = inr (db2, r2) ->
  Cloud.cloud_sessions db2 = Cloud.cloud_sessions db1 /\
  Cloud.next_uuid db2 = Cloud.next_uuid db1.
Proof.
  unfold Cloud.upload_local_data.
  destruct (negb _); [discriminate|].
  intros H1 H2. injection H1 as <- _. injection H2 as <- _.
  apply (covered_rerun user (Cloud.sessions request)
           (Cloud.mkUploadState _ 0 0)).
  simpl. apply (all_covered user (Cloud.sessions request) (Cloud.mkUploadState db 0 0)).
Qed.

Lemma repeated_upload_changes_no_session_witness :
  exists db1 r1 db2 r2,
    Cloud.upload_local_data Examples.upload_40 Examples.alice Examples.remote_db
    = inr (db1, r1) /\
    Cloud.upload_local_data Examples.upload_40 Examples.alice db1 = inr (db2, r2) /\
    map Cloud.cs_total_blinks (Cloud.cloud_sessions db1) = [40] /\
    Cloud.cloud_sessions db2 = Cloud.cloud_sessions db1.
Proof.
  eexists. eexists. eexists. eexists.
  split; [reflexivity|]. split; [reflexivity|]. split; [reflexivity|].
  exact (proj1 (repeated_upload_changes_no_session Examples.upload_40 Examples.alice
                  Examples.remote_db _ _ _ _ eq_refl eq_refl)).
Defined.

Lemma resolve_session_conflicts_fold (db : Cloud.DB) (user : Cloud.uuid)
      (l : list Cloud.LocalSessionDict) :
  forall acc,
    fold_left
      (fun conflicts local_session =>
         match Cloud.start_time local_session with
         | None => conflicts
         | Some t =>
             if negb (Cloud.truthy (Cloud.local_id local_session)) then conflicts
             else
               match find (Cloud.same_start user t) (Cloud.cloud_sessions db) with
               | Some existing_session =>
                   conflicts
                     ++ [Cloud.SessionConflicts
                           (Py.get (Cloud.local_id local_session) 0)
                           (Cloud.cs_id existing_session)]
               | None => conflicts
               end
         end) l acc
    = acc ++ flat_map (Wf.conflict_of db user) l.
Proof.
  induction l as [|s l IH]; intro acc; simpl; [symmetry; apply app_nil_r|].
  rewrite IH. unfold Wf.conflict_of at 2, Cloud.truthy.
  destruct (Cloud.start_time s) as [t|]; [|reflexivity].
  destruct (Cloud.local_id s) as [lid|]; simpl; [|reflexivity].
  destruct (Z.eqb lid 0); simpl; [reflexivity|].
  destruct (find _ _); simpl; [rewrite <- app_assoc|]; reflexivity.
Qed.

(** X8. The conflict helper reports, in the order of the request, one
    message for each local session that has a start time, a local identifier
    other than 0, and a remote session of the user with the same start time,
    naming the first such remote session; a session sent with local
    identifier 0 is passed over like one without identifier, and nothing is
    reported against an empty remote store. *)
Theorem conflicts_reported (db : Cloud.DB) (user : Cloud.uuid)
        (l : list Cloud.LocalSessionDict) :
  Cloud.resolve_session_conflicts db user l = flat_map (Wf.conflict_of db user) l /\
  (forall lid cid,
      In (Cloud.SessionConflicts lid cid) (Cloud.resolve_session_conflicts db user l)
      <-> exists s t e,
          In s l /\ Cloud.start_time s = Some t /\ Cloud.local_id s = Some lid /\
          lid <> 0 /\
          find (Cloud.same_start user t) (Cloud.cloud_sessions db) = Some e /\
          Cloud.cs_id e = cid) /\
  (List.length (Cloud.resolve_session_conflicts db user l) <= List.length l)%nat /\
  (Cloud.cloud_sessions db = [] -> Cloud.resolve_session_conflicts db user l = []).
Proof.
  assert (E : Cloud.resolve_session_conflicts db user l
              = flat_map (Wf.conflict_of db user) l).
  { unfold Cloud.resolve_session_conflicts.
    rewrite resolve_session_conflicts_fold. reflexivity. }
  split; [exact E|]. rewrite E. split; [|split].
  - intros lid cid. rewrite in_flat_map. split.
    + intros (s & I & C). unfold Wf.conflict_of in C.
      destruct (Cloud.start_time s) as [t|] eqn:St; [|destruct C].
      destruct (Cloud.local_id s) as [lid'|] eqn:L; [|destruct C].
      destruct (Z.eqb_spec lid' 0); [destruct C|].
      destruct (find _ _) as [e|] eqn:F; [|destruct C].
      destruct C as [C|[]]. injection C as -> <-.
      exists s, t, e. repeat split; assumption.
    + intros (s & t & e & I & St & L & N & F & C).
      exists s. split; [exact I|].
      unfold Wf.conflict_of. rewrite St, L, F.
      destruct (Z.eqb_spec lid 0); [contradiction|]. left. congruence.
  - induction l as [|s l IH]; simpl; [lia|].
    rewrite length_app.
    assert (K : (List.length (Wf.conflict_of db user s) <= 1)%nat).
    { unfold Wf.conflict_of.
      destruct (Cloud.start_time s); [|simpl; lia].
      destruct (Cloud.local_id s) as [lid|]; [|simpl; lia].
      destruct (Z.eqb lid 0); [simpl; lia|].
      destruct (find _ _); simpl; lia. }
    assert (IH' : (List.length (flat_map (Wf.conflict_of db user) l)
                   <= List.length l)%nat).
    { apply IH. unfold Cloud.resolve_session_conflicts.
      rewrite resolve_session_conflicts_fold. reflexivity. }
    lia.
  - intro Empty. induction l as [|s l IH]; simpl; [reflexivity|].
    rewrite IH.
    + unfold Wf.conflict_of. rewrite Empty.
      destruct (Cloud.start_time s); [|reflexivity].
      destruct (Cloud.local_id s) as [lid|]; [|reflexivity].
      destruct (Z.eqb lid 0); reflexivity.
    + unfold Cloud.resolve_session_conflicts.
      rewrite resolve_session_conflicts_fold. reflexivity.
Qed.

(** ** Download, details and deletion *)

Lemma filter_rows_of (id : Cloud.uuid) (rows : list Cloud.SessionData)
      (bd : list Cloud.DataPoint) :
  filter (fun r => Nat.eqb (Cloud.sd_session_id r) id)
         (rows ++ map (Cloud.session_data_row id) bd)
  = filter (fun r => Nat.eqb (Cloud.sd_session_id r) id) rows
      ++ map (Cloud.session_data_row id) bd.
Proof.
  rewrite filter_app. f_equal.
  induction bd as [|d bd IH]; simpl; [reflexivity|].
  rewrite Nat.eqb_refl, IH. reflexivity.
Qed.

Lemma filter_rows_fresh (n : Cloud.uuid) (rows : list Cloud.SessionData) :
  Forall (fun r => (Cloud.sd_session_id r < n)%nat) rows ->
  filter (fun r => Nat.eqb (Cloud.sd_session_id r) n) rows = [].
Proof.
  induction 1 as [|r rows H _ IH]; simpl; [reflexivity|].
  destruct (Nat.eqb_spec (Cloud.sd_session_id r) n); [lia | exact IH].
Qed.


Lemma create_cloud_session_fields (id user : Cloud.uuid) (t : Cloud.datetime)
      (s : Cloud.LocalSessionDict) :
  let c := Cloud.create_cloud_session id user t s in
  Cloud.cs_user_id c = user /\ Cloud.cs_start_time c = t /\
  Cloud.cs_end_time c = Cloud.end_time s /\
  Cloud.cs_local_session_id c = Cloud.local_id s.
Proof.
  unfold Cloud.create_cloud_session.
  destruct (Cloud.blink_data s); repeat split.
Qed.



Lemma find_other_after_delete (id id' : Cloud.uuid) (l : list Cloud.CloudSession) :
  id' <> id ->
  find (Cloud.has_id id') (filter (fun s => negb (Cloud.has_id id s)) l)
  = find (Cloud.has_id id') l.
Proof.
  intro N. induction l as [|x l IH]; simpl; [reflexivity|].
  destruct (Cloud.has_id id x) eqn:E; destruct (Cloud.has_id id' x) eqn:E'; simpl;
    rewrite ?E'; try exact IH; try reflexivity.
  unfold Cloud.has_id in E, E'. apply Nat.eqb_eq in E, E'. congruence.
Qed.

Lemma find_deleted (id : Cloud.uuid) (l : list Cloud.CloudSession) :
  find (Cloud.has_id id) (filter (fun s => negb (Cloud.has_id id s)) l) = None.
Proof.
  induction l as [|x l IH]; simpl; [reflexivity|].
  destruct (Cloud.has_id id x) eqn:E; simpl; [exact IH|].
  rewrite E. exact IH.
Qed.

Lemma rows_of_deleted (id : Cloud.uuid) (rows : list Cloud.SessionData) :
  filter (fun r => Nat.eqb (Cloud.sd_session_id r) id)
         (filter (fun r => negb (Nat.eqb (Cloud.sd_session_id r) id)) rows) = [].
Proof.
  induction rows as [|r rows IH]; simpl; [reflexivity|].
  destruct (Nat.eqb (Cloud.sd_session_id r) id) eqn:E; simpl; [exact IH|].
  rewrite E. exact IH.
Qed.

Lemma rows_of_other (id other : Cloud.uuid) (rows : list Cloud.SessionData) :
  other <> id ->
  filter (fun r => Nat.eqb (Cloud.sd_session_id r) other)
         (filter (fun r => negb (Nat.eqb (Cloud.sd_session_id r) id)) rows)
  = filter (fun r => Nat.eqb (Cloud.sd_session_id r) other) rows.
Proof.
  intro N. induction rows as [|r rows IH]; simpl; [reflexivity|].
  destruct (Nat.eqb (Cloud.sd_session_id r) id) eqn:E;
    destruct (Nat.eqb (Cloud.sd_session_id r) other) eqn:E'; simpl;
    rewrite ?E', ?IH; try reflexivity.
  apply Nat.eqb_eq in E, E'. congruence.
Qed.

Lemma delete_session_inr (session_id : option Cloud.uuid) (user : Cloud.uuid)
      (db db' : Cloud.DB) :
  Routes.delete_session session_id user db = inr db' ->
  exists id session,
    session_id = Some id /\
    find (Cloud.has_id id) (Cloud.cloud_sessions db) = Some session /\
    Cloud.cs_user_id session = user /\
    db' = Cloud.mkDB
            (filter (fun s => negb (Cloud.has_id id s)) (Cloud.cloud_sessions db))
            (filter (fun r => negb (Nat.eqb (Cloud.sd_session_id r) id))
                    (Cloud.session_data db))
            (Cloud.next_uuid db).
Proof.
  unfold Routes.delete_session.
  destruct session_id as [id|]; [|discriminate].
  destruct (find _ _) as [session|] eqn:F; [|discriminate].
  destruct (Nat.eqb_spec (Cloud.cs_user_id session) user); simpl; [|discriminate].
  intro H. injection H as <-. exists id, session. repeat split; assumption.
Qed.

(** X10. [delete_session] removes one session and its samples and nothing
    else: afterwards the identifier is unknown to [get_session_details] and
    to a second [delete_session] (404), no sample refers to it, every other
    session answers [get_session_details] as before and keeps its samples,
    and the store is still well formed. *)
Theorem delete_session_removes_one
        (id user : Cloud.uuid) (db db' : Cloud.DB) :
  Routes.delete_session (Some id) user db = inr db' ->
  (forall anyone,
      Routes.get_session_details (Some id) anyone db' = inl Cloud.HTTP_404_NOT_FOUND /\
      Routes.delete_session (Some id) anyone db' = inl Cloud.HTTP_404_NOT_FOUND) /\
  Routes.data_points db' id = [] /\
  (forall other anyone,
      other <> id ->
      Routes.get_session_details (Some other) anyone db'
      = Routes.get_session_details (Some other) anyone db /\
      Routes.data_points db' other = Routes.data_points db other) /\
  (Wf.cloud_ok db -> Wf.cloud_ok db').
Proof.
  intro H. destruct (delete_session_inr _ _ _ _ H) as (i & s & E & F & U & ->).
  injection E as <-.
  split; [|split; [|split]].
  - intro anyone. unfold Routes.get_session_details, Routes.delete_session. simpl.
    rewrite find_deleted. split; reflexivity.
  - unfold Routes.data_points. simpl. apply rows_of_deleted.
  - intros other anyone N. split.
    + unfold Routes.get_session_details. simpl.
      rewrite (find_other_after_delete id other _ N). reflexivity.
    + unfold Routes.data_points. simpl. apply rows_of_other, N.
  - intros (N & Fr & R). unfold Wf.cloud_ok. simpl. split; [|split].
    + clear - N. induction (Cloud.cloud_sessions db) as [|x l IH]; simpl; [constructor|].
      inversion N as [|? ? Hx Hl]; subst.
      destruct (negb (Cloud.has_id id x)); simpl; [|exact (IH Hl)].
      constructor; [|exact (IH Hl)].
      intro I. apply Hx. apply in_map_iff in I. destruct I as (y & Ey & Iy).
      apply in_map_iff. exists y. split; [exact Ey|].
      apply filter_In in Iy. apply Iy.
    + apply Forall_forall. intros x I. apply filter_In in I.
      rewrite Forall_forall in Fr. apply Fr, I.
    + apply Forall_forall. intros x I. apply filter_In in I.
      rewrite Forall_forall in R. apply R, I.
Qed.

Lemma delete_session_removes_one_witness :
  exists db',
    Routes.delete_session (Some 1%nat) Examples.alice Examples.remote_db = inr db' /\
    Routes.get_session_details (Some 1%nat) Examples.alice Examples.remote_db
    = inr (Routes.session_response Examples.remote_30) /\
    Routes.get_session_details (Some 1%nat) Examples.alice db'
    = inl Cloud.HTTP_404_NOT_FOUND.
Proof.
  eexists. split; [reflexivity|]. split; [reflexivity|].
  exact (proj1 (proj1 (delete_session_removes_one 1%nat Examples.alice
                         Examples.remote_db _ eq_refl) Examples.alice)).
Defined.

(** X11. What is shown of a session after it was closed.  Once
    [end_session] has succeeded, [get_session_details] for the owner reports
    the session as ended with the totals and the health score of the closing
    request, and with a duration computed from the stored start and end
    times, whereas the answer of [end_session] itself carried the duration
    the client sent. *)
Theorem details_after_close
        (request : Cloud.SessionEndRequest) (now : Cloud.datetime)
        (user : Cloud.uuid) (db db1 : Cloud.DB) (closed : Cloud.SessionResponse) :
  Cloud.end_session request now user db = inr (db1, closed) ->
  Cloud.resp_duration closed = Cloud.req_session_duration request /\
  exists shown,
    Routes.get_session_details (Some (Cloud.req_session_id request)) user db1
    = inr shown /\
    Cloud.resp_status shown = Cloud.ENDED /\
    Cloud.resp_end_time shown = Some now /\
    Cloud.resp_duration shown
    = Cloud.calculate_session_duration (Cloud.resp_start_time closed) now /\
    Cloud.resp_total_blinks shown = Cloud.req_total_blinks request /\
    Cloud.resp_health_score shown
    = Some (Cloud.calculate_health_score (Cloud.req_avg_blink_rate request)
                                         (Cloud.req_session_duration request)).
Proof.
  intro H.
  destruct (end_session_inr _ _ _ _ _ _ H) as (s & F & U & E & L & _ & _).
  pose proof H as H'. unfold Cloud.end_session in H'.
  rewrite F, U, Nat.eqb_refl, E in H'. simpl in H'. injection H' as _ <-.
  split; [reflexivity|].
  exists (Routes.session_response (Cloud.close_with request now s)).
  split; [|repeat split].
  unfold Routes.get_session_details. rewrite L.
  rewrite (find_after_update_first _ (Cloud.close_with request now) _ _ F).
  - simpl. rewrite U, Nat.eqb_refl. reflexivity.
  - apply find_some in F. apply F.
Qed.

Lemma details_after_close_witness :
  exists db1 closed shown,
    Cloud.end_session Examples.end_request (Examples.T + 90000000) Examples.alice
                      Examples.remote_db = inr (db1, closed) /\
    Cloud.resp_duration closed = 8000 /\
    Routes.get_session_details (Some 1%nat) Examples.alice db1 = inr shown /\
    Cloud.resp_duration shown = 90.
Proof.
  destruct (details_after_close Examples.end_request (Examples.T + 90000000)
              Examples.alice Examples.remote_db _ _ eq_refl)
    as (D & shown & G & _ & _ & Du & _).
  eexists. eexists. exists shown.
  split; [reflexivity|]. split; [exact D|]. split; [exact G | exact Du].
Defined.

(** ** Session history *)












(** ** Manual sync *)

Lemma manual_sync_eq (user : Cloud.uuid) (db : Cloud.DB) :
  Cloud.synced_sessions (Routes.manual_sync user db)
  = Z.of_nat (List.length (Wf.ids_of user (Cloud.cloud_sessions db))) /\
  Cloud.synced_data_points (Routes.manual_sync user db)
  = Z.of_nat (Wf.counted (Cloud.session_data db)
                         (Wf.ids_of user (Cloud.cloud_sessions db))).
Proof.
  unfold Routes.manual_sync, Wf.ids_of, Wf.counted. simpl.
  rewrite length_map. split; [reflexivity|].
  rewrite map_map.
  assert (G : forall l acc,
             fold_left
               (fun total session =>
                  total + Z.of_nat (List.length
                                      (Routes.data_points db (Cloud.cs_id session))))
               l acc
             = acc + Z.of_nat
                       (list_sum
                          (map (fun x =>
                                  List.length
                                    (filter (fun r => Nat.eqb (Cloud.sd_session_id r)
                                                              (Cloud.cs_id x))
                                            (Cloud.session_data db))) l))).
  { induction l as [|x l IH]; intro acc; simpl; [lia|].
    rewrite IH. unfold Routes.data_points. lia. }
  rewrite G. reflexivity.
Qed.

Lemma filter_rows_other (k i : Cloud.uuid) (bd : list Cloud.DataPoint) :
  k <> i ->
  filter (fun r => Nat.eqb (Cloud.sd_session_id r) i)
         (map (Cloud.session_data_row k) bd) = [].
Proof.
  intro N. induction bd as [|d bd IH]; simpl; [reflexivity|].
  destruct (Nat.eqb_spec k i); [contradiction | exact IH].
Qed.

Lemma counted_other (rows : list Cloud.SessionData) (k : Cloud.uuid)
      (bd : list Cloud.DataPoint) (ids : list Cloud.uuid) :
  ~ In k ids ->
  Wf.counted (rows ++ map (Cloud.session_data_row k) bd) ids = Wf.counted rows ids.
Proof.
  unfold Wf.counted. induction ids as [|i ids IH]; intro N; simpl; [reflexivity|].
  rewrite IH by (intro; apply N; right; assumption).
  f_equal. rewrite filter_app, length_app.
  rewrite (filter_rows_other k i bd) by (intros ->; apply N; left; reflexivity).
  simpl. lia.
Qed.

Lemma counted_one (rows : list Cloud.SessionData) (k : Cloud.uuid)
      (bd : list Cloud.DataPoint) (ids : list Cloud.uuid) :
  NoDup ids -> In k ids ->
  Wf.counted (rows ++ map (Cloud.session_data_row k) bd) ids
  = (Wf.counted rows ids + List.length bd)%nat.
Proof.
  induction 1 as [|i ids Ni Nd IH]; intro I; [destruct I|].
  destruct I as [->|I].
  - pose proof (counted_other rows k bd ids Ni) as O.
    unfold Wf.counted in *. simpl. rewrite O, filter_rows_of, length_app, length_map.
    lia.
  - assert (i <> k) by (intros ->; contradiction).
    specialize (IH I). unfold Wf.counted in *. simpl. rewrite IH.
    rewrite filter_app, length_app.
    rewrite (filter_rows_other k i bd) by congruence.
    simpl. lia.
Qed.

Lemma ids_of_update_first (user : Cloud.uuid) (p : Cloud.CloudSession -> bool)
      (f : Cloud.CloudSession -> Cloud.CloudSession) (l : list Cloud.CloudSession) :
  Inv.keeps_key f ->
  Wf.ids_of user (Py.update_first p f l) = Wf.ids_of user l.
Proof.
  intro K. unfold Wf.ids_of, Routes.owned_by.
  induction l as [|x l IH]; simpl; [reflexivity|].
  destruct (p x); simpl.
  - destruct (K x) as (I & U & _). rewrite U.
    destruct (Nat.eqb (Cloud.cs_user_id x) user); simpl; [rewrite I|]; reflexivity.
  - destruct (Nat.eqb (Cloud.cs_user_id x) user); simpl; rewrite IH; reflexivity.
Qed.

Lemma ids_of_nodup (user : Cloud.uuid) (l : list Cloud.CloudSession) :
  NoDup (map Cloud.cs_id l) -> NoDup (Wf.ids_of user l).
Proof.
  unfold Wf.ids_of. induction l as [|x l IH]; simpl; intro N; [constructor|].
  inversion N as [|? ? Hx Hl]; subst.
  destruct (Routes.owned_by user x); simpl; [|exact (IH Hl)].
  constructor; [|exact (IH Hl)].
  intro I. apply Hx. apply in_map_iff in I. destruct I as (y & E & Iy).
  apply in_map_iff. exists y. split; [exact E|]. apply filter_In in Iy. apply Iy.
Qed.

Lemma ids_of_snoc (user : Cloud.uuid) (l : list Cloud.CloudSession)
      (c : Cloud.CloudSession) :
  Cloud.cs_user_id c = user ->
  Wf.ids_of user (l ++ [c]) = Wf.ids_of user l ++ [Cloud.cs_id c].
Proof.
  intro U. unfold Wf.ids_of. rewrite filter_app, map_app. simpl.
  unfold Routes.owned_by at 2. rewrite U, Nat.eqb_refl. reflexivity.
Qed.

Lemma upload_session_manual (user : Cloud.uuid) (st : Cloud.UploadState)
      (s : Cloud.LocalSessionDict) :
  Wf.cloud_ok (Cloud.up_db st) ->
  let st' := Cloud.upload_session user st s in
  Z.of_nat (List.length (Wf.ids_of user (Cloud.cloud_sessions (Cloud.up_db st'))))
  - Cloud.up_synced_sessions st'
  = Z.of_nat (List.length (Wf.ids_of user (Cloud.cloud_sessions (Cloud.up_db st))))
    - Cloud.up_synced_sessions st /\
  Z.of_nat (Wf.counted (Cloud.session_data (Cloud.up_db st'))
                       (Wf.ids_of user (Cloud.cloud_sessions (Cloud.up_db st'))))
  - Cloud.up_synced_data_points st'
  = Z.of_nat (Wf.counted (Cloud.session_data (Cloud.up_db st))
                         (Wf.ids_of user (Cloud.cloud_sessions (Cloud.up_db st))))
    - Cloud.up_synced_data_points st.
Proof.
  intros (N & Fr & R) st'. subst st'.
  destruct (Cloud.start_time s) as [t|] eqn:St.
  - destruct (find (Cloud.same_start user t) (Cloud.cloud_sessions (Cloud.up_db st)))
      as [e|] eqn:F.
    + rewrite (upload_session_matched _ _ _ _ _ St F). simpl.
      rewrite (ids_of_update_first _ _ _ _ (merge_existing_keeps_key _ _)).
      split; [reflexivity|].
      rewrite counted_one; [lia | apply ids_of_nodup, N |].
      unfold Wf.ids_of. apply in_map, filter_In.
      apply find_some in F. destruct F as (I & K). split; [exact I|].
      unfold Cloud.same_start in K. apply andb_true_iff in K. apply K.
    + rewrite (upload_session_created _ _ _ _ St F). simpl.
      destruct (create_cloud_session_fields (Cloud.next_uuid (Cloud.up_db st)) user t s)
        as (Cu & _).
      rewrite (ids_of_snoc _ _ _ Cu), length_app, create_cloud_session_id. simpl.
      split; [lia|].
      assert (Fresh : ~ In (Cloud.next_uuid (Cloud.up_db st))
                           (Wf.ids_of user (Cloud.cloud_sessions (Cloud.up_db st)))).
      { intro I. unfold Wf.ids_of in I. apply in_map_iff in I.
        destruct I as (y & E & Iy). apply filter_In in Iy.
        rewrite Forall_forall in Fr. specialize (Fr y (proj1 Iy)). simpl in Fr. lia. }
      rewrite counted_one.
      * replace (Wf.counted (Cloud.session_data (Cloud.up_db st))
                            (Wf.ids_of user (Cloud.cloud_sessions (Cloud.up_db st))
                               ++ [Cloud.next_uuid (Cloud.up_db st)]))
          with (Wf.counted (Cloud.session_data (Cloud.up_db st))
                           (Wf.ids_of user (Cloud.cloud_sessions (Cloud.up_db st))));
          [lia|].
        unfold Wf.counted. rewrite map_app, list_sum_app. simpl.
        rewrite (filter_rows_fresh _ _ R). simpl.
        rewrite Nat.add_0_r. reflexivity.
      * apply NoDup_app; [apply ids_of_nodup, N | repeat constructor; intros [] |].
        intros x Ix [<-|[]]. exact (Fresh Ix).
      * apply in_or_app. right. left. reflexivity.
  - rewrite (upload_session_skipped _ _ _ St). split; reflexivity.
Qed.

(** X13. The counts of [manual_sync] move with what an upload reports: on a
    well-formed store, after an upload the number of sessions [manual_sync]
    finds for the user has grown by the upload's [synced_sessions], and the
    number of data points it counts by the upload's [synced_data_points]. *)
Theorem manual_sync_after_upload
        (request : Cloud.SyncUploadRequest) (user : Cloud.uuid)
        (db db' : Cloud.DB) (resp : Cloud.SyncResponse) :
  Wf.cloud_ok db ->
  Cloud.upload_local_data request user db = inr (db', resp) ->
  Cloud.synced_sessions (Routes.manual_sync user db')
  = Cloud.synced_sessions (Routes.manual_sync user db) + Cloud.synced_sessions resp /\
  Cloud.synced_data_points (Routes.manual_sync user db')
  = Cloud.synced_data_points (Routes.manual_sync user db)
    + Cloud.synced_data_points resp /\
  Cloud.conflicts (Routes.manual_sync user db') = [].
Proof.
  intros Ok U. unfold Cloud.upload_local_data in U.
  destruct (negb _); [discriminate|]. injection U as <- <-.
  assert (C : Cloud.conflicts
                (Routes.manual_sync user
                   (Cloud.up_db (Cloud.upload_sessions user (Cloud.mkUploadState db 0 0)
                                                       (Cloud.sessions request))))
              = []) by reflexivity.
  rewrite C.
  destruct (manual_sync_eq user db) as (-> & ->).
  destruct (manual_sync_eq user
              (Cloud.up_db (Cloud.upload_sessions user (Cloud.mkUploadState db 0 0)
                                                  (Cloud.sessions request))))
    as (-> & ->).
  assert (G : forall l st,
             Wf.cloud_ok (Cloud.up_db st) ->
             let st' := Cloud.upload_sessions user st l in
             Z.of_nat (List.length
                         (Wf.ids_of user (Cloud.cloud_sessions (Cloud.up_db st'))))
             - Cloud.up_synced_sessions st'
             = Z.of_nat (List.length
                           (Wf.ids_of user (Cloud.cloud_sessions (Cloud.up_db st))))
               - Cloud.up_synced_sessions st /\
             Z.of_nat (Wf.counted (Cloud.session_data (Cloud.up_db st'))
                         (Wf.ids_of user (Cloud.cloud_sessions (Cloud.up_db st'))))
             - Cloud.up_synced_data_points st'
             = Z.of_nat (Wf.counted (Cloud.session_data (Cloud.up_db st))
                           (Wf.ids_of user (Cloud.cloud_sessions (Cloud.up_db st))))
               - Cloud.up_synced_data_points st).
  { induction l as [|s l IH]; intros st H; simpl; [split; reflexivity|].
    destruct (upload_session_manual user st s H) as (A & B).
    destruct (IH (Cloud.upload_session user st s) (upload_session_ok _ _ _ H))
      as (A' & B').
    simpl in A', B'. unfold Cloud.upload_sessions in *. split; lia. }
  destruct (G (Cloud.sessions request) (Cloud.mkUploadState db 0 0) Ok) as (A & B).
  cbn [Cloud.synced_sessions Cloud.synced_data_points Cloud.up_db
       Cloud.up_synced_sessions Cloud.up_synced_data_points] in *.
  repeat split; lia.
Qed.

Lemma manual_sync_after_upload_witness :
  Wf.cloud_ok Examples.remote_db /\
  exists db' resp,
    Cloud.upload_local_data Examples.upload_40 Examples.alice Examples.remote_db
    = inr (db', resp) /\
    Cloud.synced_data_points (Routes.manual_sync Examples.alice Examples.remote_db) = 0 /\
    Cloud.synced_data_points (Routes.manual_sync Examples.alice db') = 3.
Proof.
  assert (H : Wf.cloud_ok Examples.remote_db).
  { repeat split; repeat constructor; simpl; auto. }
  split; [exact H|].
  eexists. eexists. split; [reflexivity|]. split; [reflexivity|].
  exact (proj1 (proj2 (manual_sync_after_upload Examples.upload_40 Examples.alice
                         Examples.remote_db _ _ H eq_refl))).
Defined.

(** ** Conflict resolution *)

Lemma not_lowered_refl (s : Cloud.CloudSession) : Wf.not_lowered s s.
Proof.
  split; [lia|]. split; [apply Qle_refl|]. split; [apply Qle_refl|].
  destruct (Cloud.cs_health_score s) as [h|]; [|exact I].
  exists h. split; [reflexivity | lia].
Qed.

Lemma not_lowered_trans (a b c : Cloud.CloudSession) :
  Wf.not_lowered a b -> Wf.not_lowered b c -> Wf.not_lowered a c.
Proof.
  intros (T1 & A1 & M1 & H1) (T2 & A2 & M2 & H2).
  split; [lia|]. split; [eapply Qle_trans; eassumption|].
  split; [eapply Qle_trans; eassumption|].
  destruct (Cloud.cs_health_score a) as [h|]; [|exact I].
  destruct H1 as (h' & E & L). rewrite E in H2. destruct H2 as (h'' & E' & L').
  exists h''. split; [exact E' | lia].
Qed.

Lemma apply_resolution_fixed (r : Routes.Resolution) (s : Cloud.CloudSession) :
  Wf.fixed_columns (Routes.apply_resolution r s) = Wf.fixed_columns s.
Proof.
  unfold Routes.apply_resolution.
  destruct (Routes.res_resolution_type r) as [[| | |]|];
    destruct (Routes.res_local_data r); reflexivity.
Qed.

Lemma apply_merge_not_lowered (d : Routes.LocalData) (s : Cloud.CloudSession) :
  Wf.not_lowered s (Routes.apply_merge d s).
Proof.
  unfold Routes.apply_merge, Wf.not_lowered. simpl.
  split; [rewrite max2_Z; lia|]. split; [apply max2_Q_left|].
  split; [apply max2_Q_left|].
  destruct (Cloud.cs_health_score s) as [h|] eqn:E; [|exact I].
  destruct (Routes.ld_health_score d) as [l|]; [|exists h; split; [reflexivity | lia]].
  simpl. destruct (negb (l =? 0)); simpl;
    [|exists h; split; [reflexivity | lia]].
  rewrite Z.gtb_ltb. destruct (Z.ltb_spec h l).
  - exists l. split; [reflexivity | lia].
  - exists h. split; [reflexivity | lia].
Qed.

Lemma apply_resolution_gentle (r : Routes.Resolution) (s : Cloud.CloudSession) :
  Wf.gentle r -> Wf.not_lowered s (Routes.apply_resolution r s).
Proof.
  unfold Wf.gentle, Routes.apply_resolution. intro G.
  destruct (Routes.res_resolution_type r) as [[| | |]|];
    destruct (Routes.res_local_data r);
    try apply not_lowered_refl; [congruence | apply apply_merge_not_lowered].
Qed.

Lemma apply_resolution_idle (r : Routes.Resolution) (s : Cloud.CloudSession) :
  Wf.idle r -> Routes.apply_resolution r s = s.
Proof.
  unfold Wf.idle, Routes.apply_resolution. intros [E|[E|E]]; rewrite E;
    try reflexivity.
  destruct (Routes.res_resolution_type r) as [[| | |]|]; reflexivity.
Qed.

Lemma Forall2_update_first {A : Type} (R : A -> A -> Prop) (p : A -> bool)
      (f : A -> A) (l : list A) :
  (forall x, R x x) -> (forall x, R x (f x)) -> Forall2 R l (Py.update_first p f l).
Proof.
  intros Rr Rf. induction l as [|x l IH]; simpl; [constructor|].
  destruct (p x); constructor; auto.
  clear IH. induction l; constructor; auto.
Qed.

Lemma Forall2_trans {A : Type} (R : A -> A -> Prop) :
  (forall a b c, R a b -> R b c -> R a c) ->
  forall l1 l2 l3, Forall2 R l1 l2 -> Forall2 R l2 l3 -> Forall2 R l1 l3.
Proof.
  intros T l1. induction l1 as [|a l1 IH]; intros l2 l3 H12 H23.
  - inversion H12; subst. inversion H23; subst. constructor.
  - inversion H12; subst. inversion H23; subst.
    constructor; [eapply T; eassumption | eapply IH; eassumption].
Qed.

Lemma others_update_first (user : Cloud.uuid) (p : Cloud.CloudSession -> bool)
      (f : Cloud.CloudSession -> Cloud.CloudSession) (l : list Cloud.CloudSession) :
  (forall x, p x = true -> Routes.owned_by user x = true) ->
  (forall x, Routes.owned_by user (f x) = Routes.owned_by user x) ->
  filter (fun s => negb (Routes.owned_by user s)) (Py.update_first p f l)
  = filter (fun s => negb (Routes.owned_by user s)) l.
Proof.
  intros P K. induction l as [|x l IH]; simpl; [reflexivity|].
  destruct (p x) eqn:E; simpl.
  - rewrite K, (P x E). reflexivity.
  - rewrite IH. reflexivity.
Qed.

Lemma resolve_one_effects (user : Cloud.uuid) (db : Cloud.DB) (n : Z)
      (r : Routes.Resolution) :
  let db' := fst (Routes.resolve_one user (db, n) r) in
  let n' := snd (Routes.resolve_one user (db, n) r) in
  n <= n' <= n + 1 /\
  Cloud.session_data db' = Cloud.session_data db /\
  Cloud.next_uuid db' = Cloud.next_uuid db /\
  map Wf.fixed_columns (Cloud.cloud_sessions db')
  = map Wf.fixed_columns (Cloud.cloud_sessions db) /\
  filter (fun s => negb (Routes.owned_by user s)) (Cloud.cloud_sessions db')
  = filter (fun s => negb (Routes.owned_by user s)) (Cloud.cloud_sessions db) /\
  (Wf.gentle r ->
   Forall2 Wf.not_lowered (Cloud.cloud_sessions db) (Cloud.cloud_sessions db')) /\
  (Wf.idle r -> Cloud.cloud_sessions db' = Cloud.cloud_sessions db).
Proof.
  assert (Same : forall l, Forall2 Wf.not_lowered l l).
  { induction l; constructor; [apply not_lowered_refl | assumption]. }
  unfold Routes.resolve_one.
  destruct (Routes.res_resolution_type r) as [ty|] eqn:Ty;
    [|simpl; repeat split; try lia; auto].
  destruct (Routes.res_session_id r) as [sid|];
    [|simpl; repeat split; try lia; auto].
  destruct (negb (Routes.truthy_string _));
    [simpl; repeat split; try lia; auto|].
  destruct (find _ _) as [s|] eqn:F; [|simpl; repeat split; try lia; auto].
  simpl. split; [lia|]. split; [reflexivity|]. split; [reflexivity|].
  split; [|split; [|split]].
  - apply map_update_first, apply_resolution_fixed.
  - apply others_update_first.
    + intros x H. apply andb_true_iff in H. apply H.
    + intro x. unfold Routes.owned_by.
      pose proof (apply_resolution_fixed r x) as K. unfold Wf.fixed_columns in K.
      injection K as _ -> _. reflexivity.
  - intro G. apply Forall2_update_first;
      [apply not_lowered_refl | intro x; apply apply_resolution_gentle, G].
  - intro I. apply (update_first_id _ _ _ s F), apply_resolution_idle, I.
Qed.

(** X14. What [resolve_conflicts] can and cannot do.  It counts at most one
    resolved conflict per resolution; it adds and removes nothing, writes no
    sample, and leaves identifier, owner, local identifier, start time, end
    time and duration of every session alone; sessions of other users are
    left exactly as they are.  If no resolution asks to keep the local
    values, no session ends with a smaller total, average or maximum or a
    worse health score; if every resolution keeps the cloud values, is of an
    unknown type or brings no local data, no session changes at all. *)
Theorem resolve_conflicts_effects
        (resolutions : list Routes.Resolution) (user : Cloud.uuid) (db : Cloud.DB) :
  let db' := fst (Routes.resolve_conflicts resolutions user db) in
  let resolved := snd (Routes.resolve_conflicts resolutions user db) in
  0 <= resolved <= Z.of_nat (List.length resolutions) /\
  Cloud.session_data db' = Cloud.session_data db /\
  Cloud.next_uuid db' = Cloud.next_uuid db /\
  map Wf.fixed_columns (Cloud.cloud_sessions db')
  = map Wf.fixed_columns (Cloud.cloud_sessions db) /\
  filter (fun s => negb (Routes.owned_by user s)) (Cloud.cloud_sessions db')
  = filter (fun s => negb (Routes.owned_by user s)) (Cloud.cloud_sessions db) /\
  (Forall Wf.gentle resolutions ->
   Forall2 Wf.not_lowered (Cloud.cloud_sessions db) (Cloud.cloud_sessions db')) /\
  (Forall Wf.idle resolutions -> Cloud.cloud_sessions db' = Cloud.cloud_sessions db).
Proof.
  intros db' resolved. subst db' resolved. unfold Routes.resolve_conflicts.
  assert (G : forall l db0 n,
             let out := fold_left (Routes.resolve_one user) l (db0, n) in
             n <= snd out <= n + Z.of_nat (List.length l) /\
             Cloud.session_data (fst out) = Cloud.session_data db0 /\
             Cloud.next_uuid (fst out) = Cloud.next_uuid db0 /\
             map Wf.fixed_columns (Cloud.cloud_sessions (fst out))
             = map Wf.fixed_columns (Cloud.cloud_sessions db0) /\
             filter (fun s => negb (Routes.owned_by user s))
                    (Cloud.cloud_sessions (fst out))
             = filter (fun s => negb (Routes.owned_by user s))
                      (Cloud.cloud_sessions db0) /\
             (Forall Wf.gentle l ->
              Forall2 Wf.not_lowered (Cloud.cloud_sessions db0)
                      (Cloud.cloud_sessions (fst out))) /\
             (Forall Wf.idle l ->
              Cloud.cloud_sessions (fst out) = Cloud.cloud_sessions db0)).
  { induction l as [|r l IH]; intros db0 n.
    - simpl. repeat split; try lia.
      intros _. induction (Cloud.cloud_sessions db0); constructor;
        [apply not_lowered_refl | assumption].
    - cbn [fold_left].
      destruct (resolve_one_effects user db0 n r) as (N & D & U & C & O & Ge & Id).
      destruct (Routes.resolve_one user (db0, n) r) as [db1 n1]. simpl in *.
      destruct (IH db1 n1) as (N' & D' & U' & C' & O' & Ge' & Id').
      cbv zeta in *.
      split; [lia|]. split; [congruence|]. split; [congruence|].
      split; [congruence|]. split; [congruence|]. split.
      + intro F. inversion F; subst.
        eapply Forall2_trans; [exact not_lowered_trans | apply Ge | apply Ge'];
          assumption.
      + intro F. inversion F; subst. rewrite Id', Id; auto. }
  destruct (G resolutions db 0) as (N & Rest). split; [lia | exact Rest].
Qed.

(** ** The path of a sample: queue, batch, table *)

Lemma taken_pipeline (s : Desktop.SQLiteManager * Desktop.Processor) :
  map Inv.row_content (Desktop.blink_data (Desktop.db (fst (Inv.taken s))))
      ++ map Inv.item_content (snd (Inv.taken s))
      ++ map Inv.item_content (Desktop.items (Desktop.blink_queue (fst (Inv.taken s))))
  = Wf.pipeline s.
Proof.
  destruct s as [m p]. unfold Inv.taken, Wf.pipeline, Desktop.get.
  cbn [fst snd].
  destruct (Desktop.items (Desktop.blink_queue m)) as [|x q] eqn:E; cbn [fst snd];
    [rewrite E; reflexivity|].
  simpl. rewrite map_app, <- app_assoc. reflexivity.
Qed.

Lemma writer_pass_pipeline (t : Q) (fault : bool)
      (s : Desktop.SQLiteManager * Desktop.Processor) :
  Wf.pipeline (Desktop.process_blink_batches_step t fault s) = Wf.pipeline s.
Proof.
  rewrite writer_pass_eq, <- (taken_pipeline s).
  destruct (Inv.flush_due t s); [destruct fault|]; unfold Wf.pipeline; simpl;
    try reflexivity.
  rewrite insert_rows_content, <- app_assoc. reflexivity.
Qed.

Lemma update_where_id_rows (id : nat) (f : Desktop.LocalSession -> Desktop.LocalSession)
      (d : Desktop.Database) :
  Desktop.blink_data (Desktop.update_where_id id f d) = Desktop.blink_data d.
Proof. reflexivity. Qed.

Lemma auto_create_session_frame (now : Desktop.datetime) (fault : bool)
      (m : Desktop.SQLiteManager) :
  let m' := fst (Desktop.auto_create_session now fault m) in
  Desktop.blink_data (Desktop.db m') = Desktop.blink_data (Desktop.db m) /\
  Desktop.blink_queue m' = Desktop.blink_queue m.
Proof.
  unfold Desktop.auto_create_session. destruct fault; [split; reflexivity|].
  destruct (Desktop.select_active_session (Desktop.db m)); split; reflexivity.
Qed.

Lemma end_current_session_frame (now : Desktop.datetime) (fault : bool)
      (m m' : Desktop.SQLiteManager) (r : option Desktop.LocalSession) :
  Desktop.end_current_session now fault m = Desktop.Returned m' r ->
  Desktop.blink_data (Desktop.db m') = Desktop.blink_data (Desktop.db m) /\
  Desktop.blink_queue m' = Desktop.blink_queue m.
Proof.
  unfold Desktop.end_current_session.
  destruct (Desktop.current_session_id m) as [id|];
    [|intro H; injection H as <- _; split; reflexivity].
  destruct (negb _); [discriminate|].
  destruct fault; [intro H; injection H as <- _; split; reflexivity|].
  destruct (Desktop.get_session id m);
    [|intro H; injection H as <- _; split; reflexivity].
  destruct (Desktop.get_session id _); intro H; injection H as <- _;
    split; reflexivity.
Qed.

Lemma log_blink_pipeline (now : Desktop.datetime) (fault : bool) (n : Z) (r : Q)
      (e : option Q) (s : Desktop.SQLiteManager * Desktop.Processor) :
  exists extra,
    Wf.pipeline (Desktop.log_blink now fault n r e (fst s), snd s)
    = Wf.pipeline s ++ extra /\
    (extra = [] \/
     exists id, Desktop.current_session_id (fst s) = Some id /\
                extra = [(id, now, n, r, e, false)]).
Proof.
  destruct s as [m p]. simpl fst. simpl snd.
  destruct (Desktop.current_session_id m) as [id|] eqn:C.
  - destruct (Desktop.full (Desktop.blink_queue m)) eqn:F.
    + exists []. split; [|left; reflexivity].
      unfold Desktop.log_blink, Desktop.put_nowait. rewrite C, F.
      unfold Wf.pipeline. simpl. rewrite app_nil_r. reflexivity.
    + exists [(id, now, n, r, e, false)]. split; [|right; exists id; auto].
      rewrite (log_blink_active _ _ _ _ _ _ _ C F).
      unfold Wf.pipeline, Desktop._update_session_totals.
      destruct fault; simpl; rewrite ?C; simpl;
        rewrite map_app, <- !app_assoc; reflexivity.
  - exists []. split; [|left; reflexivity].
    unfold Desktop.log_blink. rewrite C. unfold Wf.pipeline. simpl.
    rewrite app_nil_r. reflexivity.
Qed.

Lemma step_pipeline (c : Desktop.Call) (s : Desktop.SQLiteManager * Desktop.Processor) :
  Wf.keeps_samples c = true ->
  exists extra, Wf.pipeline (Desktop.step c s) = Wf.pipeline s ++ extra.
Proof.
  destruct c; simpl; try discriminate; intros _.
  - exists []. rewrite app_nil_r. unfold Wf.pipeline. simpl.
    destruct (auto_create_session_frame now fault (fst s)) as (-> & ->). reflexivity.
  - destruct (log_blink_pipeline now fault blink_count blink_rate eye_aspect_ratio s)
      as (extra & E & _).
    exists extra. exact E.
  - exists []. rewrite app_nil_r.
    destruct (Desktop.end_current_session now fault (fst s)) eqn:E; [|reflexivity].
    unfold Wf.pipeline. simpl.
    destruct (end_current_session_frame _ _ _ _ _ E) as (-> & ->). reflexivity.
  - exists []. rewrite app_nil_r. apply writer_pass_pipeline.
Qed.

(** X15. No sample is lost, duplicated or reordered on its way to the table.
    A pass of the writer thread, whether its flush succeeds, fails or is not
    due, leaves the sequence "rows stored, then batch, then queue" as it
    was; [log_blink] adds at most its own sample, at the end; and through any
    series of calls other than the retention sweep and a restart the earlier
    sequence remains a prefix of the later one. *)
Theorem samples_are_conserved :
  (forall t fault s,
      Wf.pipeline (Desktop.process_blink_batches_step t fault s) = Wf.pipeline s) /\
  (forall now fault blink_count blink_rate eye_aspect_ratio s,
      exists extra,
        Wf.pipeline (Desktop.log_blink now fault blink_count blink_rate
                                       eye_aspect_ratio (fst s), snd s)
        = Wf.pipeline s ++ extra /\
        (extra = [] \/
         exists id,
           Desktop.current_session_id (fst s) = Some id /\
           extra = [(id, now, blink_count, blink_rate, eye_aspect_ratio, false)])) /\
  (forall calls s,
      forallb Wf.keeps_samples calls = true ->
      exists later, Wf.pipeline (Desktop.run calls s) = Wf.pipeline s ++ later).
Proof.
  split; [exact writer_pass_pipeline|]. split; [exact log_blink_pipeline|].
  induction calls as [|c calls IH]; intros s K.
  - exists []. simpl. symmetry. apply app_nil_r.
  - simpl in K. apply andb_true_iff in K. destruct K as (Kc & K).
    destruct (step_pipeline c s Kc) as (e1 & E1).
    destruct (IH (Desktop.step c s) K) as (e2 & E2).
    exists (e1 ++ e2).
    change (Desktop.run (c :: calls) s) with (Desktop.run calls (Desktop.step c s)).
    rewrite E2, E1. symmetry. apply app_assoc.
Qed.

Lemma samples_are_conserved_witness :
  let calls :=
    [Desktop.Call_log_blink (LocalExamples.T + 2000000) false 2 (16 # 1)%Q None;
     Desktop.Writer_pass (3 # 1)%Q true;
     Desktop.Writer_pass (4 # 1)%Q false] in
  forallb Wf.keeps_samples calls = true /\
  Wf.pipeline LocalExamples.pending = [Inv.item_content LocalExamples.sample] /\
  Wf.pipeline (Desktop.run calls LocalExamples.pending)
  = [Inv.item_content LocalExamples.sample;
     (1%nat, LocalExamples.T + 2000000, 2, (16 # 1)%Q, None, false)] /\
  exists later,
    Wf.pipeline (Desktop.run calls LocalExamples.pending)
    = Wf.pipeline LocalExamples.pending ++ later.
Proof.
  intro calls. split; [reflexivity|]. split; [reflexivity|]. split; [reflexivity|].
  exact (proj2 (proj2 samples_are_conserved) calls LocalExamples.pending eq_refl).
Defined.

Lemma writer_pass_on_time (fault : bool)
      (s : Desktop.SQLiteManager * Desktop.Processor) :
  let s1 := Desktop.process_blink_batches_step
              (Desktop.last_batch_time (snd s)) fault s in
  Desktop.last_batch_time (snd s1) = Desktop.last_batch_time (snd s) /\
  Desktop.items (Desktop.blink_queue (fst s1))
  = tl (Desktop.items (Desktop.blink_queue (fst s))) /\
  Desktop.batch_timeout (fst s1) = Desktop.batch_timeout (fst s).
Proof.
  intro s1. subst s1. rewrite writer_pass_eq.
  assert (T : Desktop.items (Desktop.blink_queue (fst (Inv.taken s)))
              = tl (Desktop.items (Desktop.blink_queue (fst s))) /\
              Desktop.batch_timeout (fst (Inv.taken s))
              = Desktop.batch_timeout (fst s)).
  { unfold Inv.taken, Desktop.get.
    destruct (Desktop.items (Desktop.blink_queue (fst s))) as [|x q] eqn:E;
      cbn [fst snd]; [rewrite E|]; split; reflexivity. }
  destruct T as (T1 & T2).
  destruct (Inv.flush_due _ s); [destruct fault|]; simpl; repeat split; assumption.
Qed.

Lemma writer_passes_on_time (n : nat) :
  forall s,
    Desktop.qsize (Desktop.blink_queue (fst s)) = n ->
    let s' := Desktop.process_blink_batches
                (repeat (Desktop.last_batch_time (snd s), false) n) s in
    Desktop.last_batch_time (snd s') = Desktop.last_batch_time (snd s) /\
    Desktop.items (Desktop.blink_queue (fst s')) = [] /\
    Desktop.batch_timeout (fst s') = Desktop.batch_timeout (fst s) /\
    Wf.pipeline s' = Wf.pipeline s.
Proof.
  induction n as [|n IH]; intros s Q.
  - simpl. repeat split. unfold Desktop.qsize in Q.
    destruct (Desktop.items (Desktop.blink_queue (fst s))); [reflexivity | discriminate].
  - destruct (writer_pass_on_time false s) as (L & I & B).
    cbv zeta. cbn [repeat Desktop.process_blink_batches fold_left fst snd].
    set (s1 := Desktop.process_blink_batches_step
                 (Desktop.last_batch_time (snd s)) false s) in *.
    destruct (IH s1) as (L' & I' & B' & P').
    + unfold Desktop.qsize in *. rewrite I.
      destruct (Desktop.items (Desktop.blink_queue (fst s))); simpl in *; lia.
    + cbv zeta in *. unfold Desktop.process_blink_batches in *.
      rewrite L in *. rewrite L', I', B', P'.
      repeat split; try assumption.
      apply writer_pass_pipeline.
Qed.

Lemma Qgeb_after_timeout (last timeout : Q) :
  Py.Qgeb (last + timeout - last) timeout = true.
Proof.
  unfold Py.Qgeb.
  assert (E : (last + timeout - last == timeout)%Q) by ring.
  apply Qeq_alt in E. rewrite E. reflexivity.
Qed.

(** X16. Left alone, the writer stores everything.  From any state, if no
    flush fails, one pass for each queued sample followed by one pass a flush
    interval later empties the queue and the batch, and the table then holds
    every sample that was stored, batched or queued, in that order. *)
Theorem writer_drains (s : Desktop.SQLiteManager * Desktop.Processor) :
  let last := Desktop.last_batch_time (snd s) in
  let passes :=
    repeat (last, false) (Desktop.qsize (Desktop.blink_queue (fst s)))
      ++ [((last + Desktop.batch_timeout (fst s))%Q, false)] in
  let s' := Desktop.process_blink_batches passes s in
  Desktop.items (Desktop.blink_queue (fst s')) = [] /\
  Desktop.batch (snd s') = [] /\
  map Inv.row_content (Desktop.blink_data (Desktop.db (fst s'))) = Wf.pipeline s.
Proof.
  intros last passes s'. subst s' passes last.
  unfold Desktop.process_blink_batches. rewrite fold_left_app.
  fold (Desktop.process_blink_batches
          (repeat (Desktop.last_batch_time (snd s), false)
                  (Desktop.qsize (Desktop.blink_queue (fst s)))) s).
  destruct (writer_passes_on_time _ s eq_refl) as (L & I & B & P).
  cbv zeta in L, I, B, P.
  set (s1 := Desktop.process_blink_batches _ s) in *.
  cbn [fold_left fst snd]. rewrite <- L, <- B.
  pose proof (writer_pass_pipeline
                (Desktop.last_batch_time (snd s1) + Desktop.batch_timeout (fst s1))
                false s1) as C.
  rewrite writer_pass_eq in C |- *.
  assert (T : Inv.taken s1 = (fst s1, Desktop.batch (snd s1))).
  { unfold Inv.taken, Desktop.get. rewrite I. reflexivity. }
  unfold Inv.flush_due in *. rewrite T in *. cbn [fst snd] in *.
  rewrite Qgeb_after_timeout, orb_true_r, andb_true_r in *.
  destruct (Desktop.batch (snd s1)) as [|b bs] eqn:E.
  - simpl in *. split; [exact I|]. split; [reflexivity|].
    rewrite <- P. unfold Wf.pipeline. rewrite E, I. simpl.
    rewrite app_nil_r. reflexivity.
  - cbn [Desktop.nonempty fst snd Desktop.log Desktop.set_db Desktop.blink_queue
         Desktop.batch Desktop.db] in *.
    split; [exact I|]. split; [reflexivity|].
    rewrite <- P, <- C. unfold Wf.pipeline. simpl. rewrite I. simpl.
    rewrite app_nil_r. reflexivity.
Qed.

(** ** Invariants of the local store *)


Lemma update_where_id_ok (id : nat) (f : Desktop.LocalSession -> Desktop.LocalSession)
      (d : Desktop.Database) :
  (forall s, Desktop.ls_id (f s) = Desktop.ls_id s) ->
  Wf.local_ok d -> Wf.local_ok (Desktop.update_where_id id f d).
Proof.
  intros K (N1 & F1 & N2 & F2). unfold Wf.local_ok, Desktop.update_where_id. simpl.
  assert (E : map Desktop.ls_id
                  (map (fun s => if Nat.eqb (Desktop.ls_id s) id then f s else s)
                       (Desktop.local_sessions d))
              = map Desktop.ls_id (Desktop.local_sessions d)).
  { rewrite map_map. apply map_ext. intro s.
    destruct (Nat.eqb (Desktop.ls_id s) id); [apply K | reflexivity]. }
  split; [rewrite E; exact N1|]. split; [|split; assumption].
  apply Forall_map with (f := Desktop.ls_id)
                        (P := fun i => (i <= Desktop.seq_local_sessions d)%nat).
  rewrite E. apply Forall_map. exact F1.
Qed.




Lemma same_sessions_current (m m' : Desktop.SQLiteManager) :
  Desktop.current_session_id m' = Desktop.current_session_id m ->
  Desktop.local_sessions (Desktop.db m') = Desktop.local_sessions (Desktop.db m) ->
  Wf.current_open m -> Wf.current_open m'.
Proof. unfold Wf.current_open. intros -> ->. trivial. Qed.

Lemma auto_create_session_invariant (now : Desktop.datetime) (fault : bool)
      (m : Desktop.SQLiteManager) :
  Wf.local_ok (Desktop.db m) -> Wf.current_open m ->
  Wf.local_ok (Desktop.db (fst (Desktop.auto_create_session now fault m))) /\
  Wf.current_open (fst (Desktop.auto_create_session now fault m)).
Proof.
  intros Ok Cur. unfold Desktop.auto_create_session.
  destruct fault; [split; assumption|].
  destruct (Desktop.select_active_session (Desktop.db m)) as [id|] eqn:A; simpl.
  - split; [exact Ok|].
    destruct (select_active_session_some _ _ A) as (s & I & E).
    unfold Inv.open_sessions in I. apply filter_In in I. destruct I as (I & O).
    exists s. split; [exact I|]. split; [exact E|].
    unfold Desktop.is_open in O. destruct (Desktop.ls_end_time s); [discriminate|].
    reflexivity.
  - split.
    + destruct Ok as (N1 & F1 & N2 & F2). unfold Wf.local_ok. simpl.
      split; [|split; [|split; assumption]].
      * rewrite map_app. simpl.
        apply NoDup_app; [exact N1 | constructor; [intros [] | constructor] |].
        intros x Hx [<-|[]]. apply in_map_iff in Hx. destruct Hx as (y & E & Hy).
        rewrite Forall_forall in F1. specialize (F1 _ Hy). simpl in F1. lia.
      * apply Forall_app. split.
        -- eapply Forall_impl; [|exact F1]. simpl. intros; lia.
        -- constructor; [simpl; lia | constructor].
    + unfold Wf.current_open. simpl. eexists.
      split; [apply in_or_app; right; left; reflexivity | split; reflexivity].
Qed.


Lemma end_current_session_invariant (now : Desktop.datetime) (fault : bool)
      (m m' : Desktop.SQLiteManager) (r : option Desktop.LocalSession) :
  Desktop.end_current_session now fault m = Desktop.Returned m' r ->
  Wf.local_ok (Desktop.db m) -> Wf.current_open m ->
  Wf.local_ok (Desktop.db m') /\ Wf.current_open m'.
Proof.
  intros H Ok Cur. unfold Desktop.end_current_session in H.
  destruct (Desktop.current_session_id m) as [id|] eqn:C.
  - destruct (negb _); [discriminate|].
    destruct fault.
    + injection H as <- _. split; [exact Ok | apply (same_sessions_current m); auto].
    + destruct (Desktop.get_session id m).
      * destruct (Desktop.get_session id _); injection H as <- _; simpl;
          (split; [apply update_where_id_ok; [reflexivity | exact Ok] | exact I]).
      * injection H as <- _.
        split; [exact Ok | apply (same_sessions_current m); auto].
  - injection H as <- _. split; assumption.
Qed.








Lemma find_unique_id (l : list Desktop.LocalSession) (s : Desktop.LocalSession) :
  NoDup (map Desktop.ls_id l) -> In s l ->
  find (fun x => Nat.eqb (Desktop.ls_id x) (Desktop.ls_id s)) l = Some s.
Proof.
  induction l as [|x l IH]; simpl; intros N I; [destruct I|].
  inversion N as [|? ? Hx Hl]; subst.
  destruct I as [->|I]; [rewrite Nat.eqb_refl; reflexivity|].
  destruct (Nat.eqb_spec (Desktop.ls_id x) (Desktop.ls_id s)) as [E|E].
  - exfalso. apply Hx. rewrite E. apply in_map, I.
  - apply IH; assumption.
Qed.

Lemma find_in_rewritten (id : nat) (f : Desktop.LocalSession -> Desktop.LocalSession)
      (l : list Desktop.LocalSession) (s : Desktop.LocalSession) :
  (forall x, Desktop.ls_id (f x) = Desktop.ls_id x) ->
  find (fun x => Nat.eqb (Desktop.ls_id x) id) l = Some s ->
  find (fun x => Nat.eqb (Desktop.ls_id x) id)
       (map (fun x => if Nat.eqb (Desktop.ls_id x) id then f x else x) l)
  = Some (f s).
Proof.
  intro K. induction l as [|x l IH]; simpl; [discriminate|].
  destruct (Nat.eqb (Desktop.ls_id x) id) eqn:E.
  - intro H. injection H as <-. rewrite K, E. reflexivity.
  - rewrite E. exact IH.
Qed.




(** ** The session manager *)

Lemma stop_session_cloud_frame (now db_now : Manager.datetime) (fault : bool)
      (m : Manager.SessionManager) :
  exists m' b,
    Manager.stop_session now db_now fault Manager.CLOUD m = Some (m', b) /\
    Manager._local_session m' = Manager._local_session m /\
    Manager.db_manager m' = Manager.db_manager m /\
    Manager.user_id m' = Manager.user_id m /\
    (Manager._cloud_session m = None -> Manager._cloud_session m' = None).
Proof.
  unfold Manager.stop_session.
  destruct (Manager._cloud_session m) eqn:C; eexists; eexists;
    (split; [reflexivity|]); simpl; repeat split; try discriminate; auto.
Qed.

Lemma stop_session_local_frame (now db_now : Manager.datetime) (fault : bool)
      (m m' : Manager.SessionManager) (b : bool) :
  Manager.stop_session now db_now fault Manager.LOCAL m = Some (m', b) ->
  Manager._cloud_session m' = Manager._cloud_session m /\
  Manager.user_id m' = Manager.user_id m.
Proof.
  unfold Manager.stop_session.
  destruct (Manager._local_session m); [|intro H; injection H as <- _; auto].
  destruct (Desktop.end_current_session _ _ _); [|discriminate].
  intro H; injection H as <- _. split; reflexivity.
Qed.

Lemma auto_start_frame (db_now now : Manager.datetime) (fault : bool)
      (m : Manager.SessionManager) :
  Manager._cloud_session (Manager._auto_start_local_session db_now now fault m)
  = Manager._cloud_session m /\
  Manager.user_id (Manager._auto_start_local_session db_now now fault m)
  = Manager.user_id m.
Proof.
  unfold Manager._auto_start_local_session.
  destruct (Desktop.auto_create_session _ _ _) as [d [e|id]]; split; reflexivity.
Qed.

Lemma start_cloud_session_frame (seconds : Z) (now : Manager.datetime)
      (m : Manager.SessionManager) :
  let m' := fst (Manager.start_cloud_session seconds now m) in
  Manager._local_session m' = Manager._local_session m /\
  Manager.db_manager m' = Manager.db_manager m /\
  Manager.user_id m' = Manager.user_id m.
Proof.
  unfold Manager.start_cloud_session.
  destruct (negb _); [repeat split|].
  destruct (Manager.in_state _ _); repeat split.
Qed.

Lemma pause_session_frame (t : Manager.SessionType) (m : Manager.SessionManager) :
  let m' := fst (Manager.pause_session t m) in
  Manager.session_of (Wf.other_track t) m' = Manager.session_of (Wf.other_track t) m /\
  Manager.db_manager m' = Manager.db_manager m /\
  Manager.user_id m' = Manager.user_id m.
Proof.
  unfold Manager.pause_session.
  destruct (Manager.session_of t m) as [s|]; [|repeat split].
  destruct (Manager.SessionState_eqb _ _); [|repeat split].
  destruct t; repeat split.
Qed.

Lemma resume_session_frame (t : Manager.SessionType) (m : Manager.SessionManager) :
  let m' := fst (Manager.resume_session t m) in
  Manager.session_of (Wf.other_track t) m' = Manager.session_of (Wf.other_track t) m /\
  Manager.db_manager m' = Manager.db_manager m /\
  Manager.user_id m' = Manager.user_id m.
Proof.
  unfold Manager.resume_session.
  destruct (Manager.session_of t m) as [s|]; [|repeat split].
  destruct (Manager.SessionState_eqb _ _); [|repeat split].
  destruct t; repeat split.
Qed.

Lemma reset_session_local_frame (r : Manager.Readings)
      (m m' : Manager.SessionManager) (b : bool) :
  Manager.reset_session r Manager.LOCAL m = Some (m', b) ->
  Manager._cloud_session m' = Manager._cloud_session m /\
  Manager.user_id m' = Manager.user_id m.
Proof.
  unfold Manager.reset_session.
  destruct (Manager._local_session m).
  - destruct (Manager.stop_session _ _ _ _ _) as [[m1 b1]|] eqn:St; [|discriminate].
    simpl. intro H. injection H as <- _.
    destruct (stop_session_local_frame _ _ _ _ _ _ St) as (C & U).
    destruct (auto_start_frame (Manager.start_db_now r) (Manager.start_now r)
                               (Manager.start_fault r) m1) as (C' & U').
    split; congruence.
  - intro H. injection H as <- _.
    destruct (auto_start_frame (Manager.start_db_now r) (Manager.start_now r)
                               (Manager.start_fault r) m) as (C' & U').
    split; assumption.
Qed.

Lemma reset_session_cloud_frame (r : Manager.Readings) (m : Manager.SessionManager) :
  exists m' b,
    Manager.reset_session r Manager.CLOUD m = Some (m', b) /\
    Manager._local_session m' = Manager._local_session m /\
    Manager.db_manager m' = Manager.db_manager m /\
    Manager.user_id m' = Manager.user_id m /\
    (Manager.truthy (Manager.user_id m) = false ->
     Manager._cloud_session m = None -> Manager._cloud_session m' = None /\ b = false).
Proof.
  unfold Manager.reset_session.
  destruct (Manager._cloud_session m) eqn:C.
  - destruct (stop_session_cloud_frame (Manager.stop_now r) (Manager.stop_db_now r)
                                       (Manager.stop_fault r) m)
      as (m1 & b1 & St & L & D & U & _).
    rewrite St. simpl.
    destruct (start_cloud_session_frame (Manager.start_seconds r) (Manager.start_now r) m1)
      as (L' & D' & U').
    destruct (Manager.start_cloud_session _ _ m1) as [m2 b2]. simpl in *.
    exists m2, b2. split; [reflexivity|].
    repeat split; congruence.
  - destruct (start_cloud_session_frame (Manager.start_seconds r) (Manager.start_now r) m)
      as (L' & D' & U').
    destruct (Manager.start_cloud_session _ _ m) as [m2 b2] eqn:E. simpl in *.
    exists m2, b2. split; [reflexivity|].
    repeat split; try congruence;
      unfold Manager.start_cloud_session in E; rewrite H in E; simpl in E;
      injection E as <- <-; simpl; auto.
Qed.

(** X20. The two tracks do not interfere, and only stopping goes through to
    the store.  A call that names a track leaves the session of the other
    track as it is; apart from stopping or resetting the local track and
    [cleanup], no call on the manager touches the [SQLiteManager] or the
    writer's batch: pausing the local session in particular leaves the
    store's current session in place, so that [log_blink] during the pause
    does what it did before.  In the other direction, what the tracker logs
    and the writer stores never shows in either [SessionInfo]. *)
Theorem tracks_are_independent :
  (forall c t s,
      Wf.track_of c = Some t ->
      Manager.session_of (Wf.other_track t) (fst (Manager.step c s))
      = Manager.session_of (Wf.other_track t) (fst s)) /\
  (forall c s,
      Wf.reaches_store c = false ->
      Manager.db_manager (fst (Manager.step c s)) = Manager.db_manager (fst s) /\
      snd (Manager.step c s) = snd s) /\
  (forall now fault n rate e t s,
      Manager.session_of t (fst (Manager.step (Manager.Tracker_log_blink now fault n rate e) s))
      = Manager.session_of t (fst s)) /\
  (forall time fault t s,
      Manager.session_of t (fst (Manager.step (Manager.Writer_pass time fault) s))
      = Manager.session_of t (fst s)).
Proof.
  split; [|split; [|split]].
  - intros c t [m p] T. destruct c; simpl in T; try discriminate;
      injection T as <-; simpl.
    + apply start_cloud_session_frame.
    + apply pause_session_frame.
    + apply resume_session_frame.
    + destruct session_type.
      * destruct (Manager.stop_session _ _ _ _ _) as [[m' b]|] eqn:St; [|reflexivity].
        simpl. apply (stop_session_local_frame _ _ _ _ _ _ St).
      * destruct (stop_session_cloud_frame now db_now fault m)
          as (m' & b & St & L & _).
        rewrite St. exact L.
    + destruct session_type.
      * destruct (Manager.reset_session _ _ _) as [[m' b]|] eqn:St; [|reflexivity].
        simpl. apply (reset_session_local_frame _ _ _ _ St).
      * destruct (reset_session_cloud_frame r m) as (m' & b & St & L & _).
        rewrite St. exact L.
  - intros c [m p] R. destruct c; simpl in R; try discriminate; simpl.
    + split; [apply start_cloud_session_frame | reflexivity].
    + split; [apply pause_session_frame | reflexivity].
    + split; [apply resume_session_frame | reflexivity].
    + destruct session_type; [discriminate|].
      destruct (stop_session_cloud_frame now db_now fault m)
        as (m' & b & St & _ & D & _).
      rewrite St. split; [exact D | reflexivity].
    + destruct session_type; [discriminate|].
      destruct (reset_session_cloud_frame r m) as (m' & b & St & _ & D & _).
      rewrite St. split; [exact D | reflexivity].
    + split; reflexivity.
    + split; reflexivity.
    + split; reflexivity.
  - intros now fault n rate e t [m p]. destruct t; reflexivity.
  - intros time fault t [m p]. destruct t; reflexivity.
Qed.

Lemma auto_start_no_cloud (db_now now : Manager.datetime) (fault : bool)
      (m : Manager.SessionManager) :
  Manager._cloud_session m = None ->
  Manager._cloud_session (Manager._auto_start_local_session db_now now fault m) = None.
Proof. intro H. rewrite (proj1 (auto_start_frame db_now now fault m)). exact H. Qed.

Lemma step_without_user (c : Manager.Call)
      (s : Manager.SessionManager * Desktop.Processor) :
  Manager.truthy (Manager.user_id (fst s)) = false ->
  Manager._cloud_session (fst s) = None ->
  Manager.truthy (Manager.user_id (fst (Manager.step c s))) = false /\
  Manager._cloud_session (fst (Manager.step c s)) = None.
Proof.
  destruct s as [m p]. simpl. intros U C. destruct c; simpl.
  - unfold Manager.start_cloud_session. rewrite U. simpl. split; assumption.
  - destruct (pause_session_frame session_type m) as (O & _ & U').
    rewrite U'. split; [exact U|].
    unfold Manager.pause_session in *. destruct session_type; simpl in *.
    + rewrite O. exact C.
    + rewrite C. exact C.
  - destruct (resume_session_frame session_type m) as (O & _ & U').
    rewrite U'. split; [exact U|].
    unfold Manager.resume_session in *. destruct session_type; simpl in *.
    + rewrite O. exact C.
    + rewrite C. exact C.
  - destruct session_type.
    + destruct (Manager.stop_session _ _ _ _ _) as [[m' b]|] eqn:St;
        [|split; assumption].
      destruct (stop_session_local_frame _ _ _ _ _ _ St) as (C' & U').
      simpl. rewrite C', U'. split; assumption.
    + destruct (stop_session_cloud_frame now db_now fault m)
        as (m' & b & St & _ & _ & U' & C').
      rewrite St. simpl. rewrite U'. split; [exact U | exact (C' C)].
  - destruct session_type.
    + destruct (Manager.reset_session _ _ _) as [[m' b]|] eqn:St;
        [|split; assumption].
      destruct (reset_session_local_frame _ _ _ _ St) as (C' & U').
      simpl. rewrite C', U'. split; assumption.
    + destruct (reset_session_cloud_frame r m) as (m' & b & St & _ & _ & U' & C').
      rewrite St. simpl. rewrite U'. split; [exact U | exact (proj1 (C' U C))].
  - split; [exact U | rewrite C; reflexivity].
  - split; assumption.
  - split; assumption.
  - unfold Manager.cleanup.
    destruct (Manager.in_state Manager.ACTIVE (Manager._local_session m)).
    + destruct (Manager.stop_session _ _ _ Manager.LOCAL m) as [[m1 b1]|] eqn:St;
        [|split; assumption].
      destruct (stop_session_local_frame _ _ _ _ _ _ St) as (C' & U').
      simpl. rewrite C'. rewrite C. simpl. rewrite U'.
      split; [exact U | congruence].
    + rewrite C. simpl. split; assumption.
  - split; assumption.
  - split; assumption.
Qed.

(** X21. Without a signed-in user there is never a cloud session.  If the
    manager is created with no user, or with a user whose id is empty, then
    whatever is called afterwards [_cloud_session] stays [None], and
    [start_cloud_session] and [reset_session(CLOUD)] answer [False]. *)
Theorem no_cloud_session_without_user
        (d : Desktop.SQLiteManager) (p : Desktop.Processor)
        (user_data : option (string * string)) (db_now now : Manager.datetime)
        (fault : bool) (calls : list Manager.Call) :
  Manager.truthy (option_map fst user_data) = false ->
  let m := fst (Manager.run calls (Manager.init d user_data db_now now fault, p)) in
  Manager._cloud_session m = None /\
  (forall seconds t, snd (Manager.start_cloud_session seconds t m) = false) /\
  (forall r, option_map snd (Manager.reset_session r Manager.CLOUD m) = Some false).
Proof.
  intros U m.
  assert (G : forall calls s,
             Manager.truthy (Manager.user_id (fst s)) = false ->
             Manager._cloud_session (fst s) = None ->
             Manager.truthy (Manager.user_id (fst (Manager.run calls s))) = false /\
             Manager._cloud_session (fst (Manager.run calls s)) = None).
  { clear. induction calls as [|c l IH]; intros s U C; [split; assumption|].
    destruct (step_without_user c s U C) as (U' & C').
    exact (IH (Manager.step c s) U' C'). }
  assert (I : Manager.truthy (Manager.user_id (Manager.init d user_data db_now now fault))
              = false /\
              Manager._cloud_session (Manager.init d user_data db_now now fault) = None).
  { unfold Manager.init. simpl.
    set (m0 := Manager.mkSessionManager d user_data (option_map fst user_data)
                                        None None [] [] [] []).
    destruct (auto_start_frame db_now now fault m0) as (C0 & U0).
    rewrite U0. simpl. rewrite U. simpl. rewrite U0, C0. split; [exact U | reflexivity]. }
  destruct I as (U0 & C0).
  destruct (G calls (Manager.init d user_data db_now now fault, p) U0 C0) as (Um & Cm).
  fold m in Um, Cm. split; [exact Cm|]. split.
  - intros seconds t. unfold Manager.start_cloud_session. rewrite Um. reflexivity.
  - intro r. destruct (reset_session_cloud_frame r m) as (m' & b & St & _ & _ & _ & K).
    rewrite St. simpl. destruct (K Um Cm) as (_ & ->). reflexivity.
Qed.

Lemma no_cloud_session_without_user_witness :
  let m :=
    fst (Manager.run
           [Manager.Call_start_cloud_session 1700000000 LocalExamples.T;
            Manager.Call_pause_session Manager.CLOUD]
           (Manager.init LocalExamples.fresh None LocalExamples.T LocalExamples.T false,
            Desktop.mkProcessor [] (0 # 1))) in
  Manager.truthy (@option_map (string * string) string fst None) = false /\
  Manager._cloud_session m = None.
Proof.
  intro m. split; [reflexivity|].
  exact (proj1 (no_cloud_session_without_user LocalExamples.fresh
                  (Desktop.mkProcessor [] (0 # 1)) None LocalExamples.T LocalExamples.T
                  false
                  [Manager.Call_start_cloud_session 1700000000 LocalExamples.T;
                   Manager.Call_pause_session Manager.CLOUD]
                  eq_refl)).
Defined.




Lemma auto_create_session_current (now : Desktop.datetime) (fault : bool)
      (m d : Desktop.SQLiteManager) (id : nat) :
  Desktop.auto_create_session now fault m = (d, inr id) ->
  Desktop.current_session_id d = Some id.
Proof.
  unfold Desktop.auto_create_session. destruct fault; [discriminate|].
  destruct (Desktop.select_active_session (Desktop.db m));
    intro H; injection H as <- <-; reflexivity.
Qed.




Lemma consistent_ended (m : Manager.SessionManager) (d : Desktop.SQLiteManager)
      (l : Manager.SessionInfo) :
  Manager.state l = Manager.ENDED ->
  Wf.local_ok (Desktop.db d) -> Wf.current_open d ->
  forall m', Manager._local_session m' = Some l -> Manager.db_manager m' = d ->
             Wf.consistent m'.
Proof.
  intros E Ok Cur m' L D. unfold Wf.consistent, Wf.agree.
  rewrite L, D. split; [left; exact E | split; assumption].
Qed.

Lemma stop_session_local_consistent (now db_now : Manager.datetime) (fault : bool)
      (m m' : Manager.SessionManager) (b : bool) :
  Manager.stop_session now db_now fault Manager.LOCAL m = Some (m', b) ->
  Wf.consistent m ->
  Wf.consistent m' /\
  Manager.in_state Manager.ACTIVE (Manager._local_session m') = false /\
  (Manager._local_session m = None -> Manager._local_session m' = None).
Proof.
  unfold Manager.stop_session. intros H (A & Ok & Cur).
  destruct (Manager._local_session m) as [l|] eqn:L.
  - destruct (Desktop.end_current_session _ _ _) as [d r|] eqn:E; [|discriminate].
    destruct (end_current_session_invariant _ _ _ _ _ E Ok Cur) as (Ok' & Cur').
    injection H as <- _. split; [|split; [|discriminate]].
    + eapply (consistent_ended m d); try eassumption; try reflexivity.
      destruct r; reflexivity.
    + simpl. destruct r; reflexivity.
  - injection H as <- _. split; [exact (conj A (conj Ok Cur))|].
    split; [rewrite L; reflexivity | trivial].
Qed.











Lemma end_current_session_closes (now : Desktop.datetime) (m : Desktop.SQLiteManager)
      (n : nat) (row : Desktop.LocalSession) :
  Desktop.current_session_id m = Some n ->
  Desktop.empty (Desktop.blink_queue m) = true ->
  find (fun x => Nat.eqb (Desktop.ls_id x) n) (Desktop.local_sessions (Desktop.db m))
  = Some row ->
  exists m',
    Desktop.end_current_session now false m
    = Desktop.Returned m' (Some (Desktop.set_end now row)) /\
    Desktop.current_session_id m' = None /\
    Desktop.db m' = Desktop.update_where_id n (Desktop.set_end now) (Desktop.db m) /\
    Desktop.user_id m' = Desktop.user_id m /\
    Desktop.user_email m' = Desktop.user_email m.
Proof.
  intros C E F. unfold Desktop.end_current_session. rewrite C, E. simpl.
  unfold Desktop.get_session at 1. rewrite F.
  unfold Desktop.get_session. simpl.
  rewrite (find_in_rewritten n (Desktop.set_end now) _ row (fun x => eq_refl) F).
  eexists. split; [reflexivity|]. repeat split.
Qed.

Lemma only_open_row (l : list Desktop.LocalSession) (row : Desktop.LocalSession) :
  (List.length (filter Desktop.is_open l) <= 1)%nat ->
  In row l -> Desktop.is_open row = true ->
  forall x, In x l -> Desktop.is_open x = true -> x = row.
Proof.
  intros Len I O x Ix Ox.
  assert (A : In row (filter Desktop.is_open l)) by (apply filter_In; auto).
  assert (B : In x (filter Desktop.is_open l)) by (apply filter_In; auto).
  destruct (filter Desktop.is_open l) as [|y [|z t]]; simpl in *;
    [destruct A | | lia].
  destruct A as [<-|[]]. destruct B as [<-|[]]. reflexivity.
Qed.

Lemma closing_leaves_none_open (now : Desktop.datetime) (n : nat)
      (l : list Desktop.LocalSession) :
  (forall x, In x l -> Desktop.is_open x = true -> Desktop.ls_id x = n) ->
  filter Desktop.is_open
         (map (fun s => if Nat.eqb (Desktop.ls_id s) n then Desktop.set_end now s else s) l)
  = [].
Proof.
  induction l as [|s l IH]; intro K; simpl; [reflexivity|].
  assert (IH' := IH (fun x I => K x (or_intror I))).
  destruct (Nat.eqb_spec (Desktop.ls_id s) n) as [E|E].
  - simpl. exact IH'.
  - destruct (Desktop.is_open s) eqn:O; [|exact IH'].
    exfalso. apply E. apply K; [left; reflexivity | exact O].
Qed.

Lemma find_beyond_sequence (n : nat) (l : list Desktop.LocalSession) :
  Forall (fun s => (Desktop.ls_id s <= n)%nat) l ->
  find (fun x => Nat.eqb (Desktop.ls_id x) (S n)) l = None.
Proof.
  induction 1 as [|s l H _ IH]; simpl; [reflexivity|].
  destruct (Nat.eqb_spec (Desktop.ls_id s) (S n)); [lia | exact IH].
Qed.

Lemma auto_create_session_fresh (now : Desktop.datetime) (m : Desktop.SQLiteManager) :
  Inv.open_sessions (Desktop.db m) = [] ->
  Wf.local_ok (Desktop.db m) ->
  let n := S (Desktop.seq_local_sessions (Desktop.db m)) in
  let row :=
    Desktop.mkLocalSession n (Desktop.user_id m) (Desktop.user_email m) now None
                           0 (0 # 1) (Some (0 # 1)%Q) 0 false None now in
  exists d,
    Desktop.auto_create_session now false m = (d, inr n) /\
    Store.get_current_session d = Some row /\
    Inv.open_sessions (Desktop.db d) = [row].
Proof.
  intros O (_ & F & _) n row. unfold Desktop.auto_create_session.
  unfold Desktop.select_active_session. unfold Inv.open_sessions in O. rewrite O.
  simpl. eexists. split; [reflexivity|]. split.
  - unfold Store.get_current_session, Desktop.get_session. simpl.
    rewrite find_app_none; [simpl; rewrite Nat.eqb_refl; reflexivity|].
    apply find_beyond_sequence, F.
  - unfold Inv.open_sessions. simpl. rewrite filter_app, O. reflexivity.
Qed.

Lemma auto_create_session_succeeds (now : Desktop.datetime)
      (m : Desktop.SQLiteManager) :
  exists d id, Desktop.auto_create_session now false m = (d, inr id).
Proof.
  unfold Desktop.auto_create_session.
  destruct (Desktop.select_active_session (Desktop.db m)); eexists; eexists; reflexivity.
Qed.

Lemma current_session_found (d : Desktop.SQLiteManager) (n : nat) :
  Wf.local_ok (Desktop.db d) -> Wf.current_open d ->
  Desktop.current_session_id d = Some n ->
  exists row,
    Store.get_current_session d = Some row /\
    Desktop.ls_id row = n /\ Desktop.ls_end_time row = None.
Proof.
  intros (N & _) Cu C. unfold Wf.current_open in Cu. rewrite C in Cu.
  destruct Cu as (row & I & E & O). exists row. split; [|split; assumption].
  unfold Store.get_current_session. rewrite C. unfold Desktop.get_session.
  rewrite <- E. apply find_unique_id; assumption.
Qed.

Lemma auto_start_fresh_info (db_now now : Manager.datetime) (m : Manager.SessionManager) :
  Wf.consistent m ->
  exists n row,
    Manager._local_session (Manager._auto_start_local_session db_now now false m)
    = Some (Manager.mkSessionInfo (Manager.Str n) Manager.LOCAL Manager.ACTIVE now None
                                  0 (Some (0 # 1)%Q) 0 false) /\
    Store.get_current_session
      (Manager.db_manager (Manager._auto_start_local_session db_now now false m))
    = Some row /\
    Desktop.ls_id row = n /\ Desktop.ls_end_time row = None.
Proof.
  intros (A & Ok & Cur).
  destruct (auto_create_session_invariant db_now false (Manager.db_manager m) Ok Cur)
    as (Ok' & Cur').
  unfold Manager._auto_start_local_session.
  destruct (auto_create_session_succeeds db_now (Manager.db_manager m)) as (d & id & E).
  pose proof (auto_create_session_current _ _ _ _ _ E) as C.
  rewrite E in Ok', Cur' |- *. simpl in Ok', Cur' |- *.
  destruct (current_session_found d id Ok' Cur' C) as (row & G & Id & O).
  exists id, row. repeat split; assumption.
Qed.

Lemma auto_start_refused (db_now now : Manager.datetime) (m : Manager.SessionManager) :
  Manager._local_session (Manager._auto_start_local_session db_now now true m)
  = Manager._local_session m.
Proof. reflexivity. Qed.

Lemma end_current_session_waits (now : Desktop.datetime) (fault : bool)
      (m : Desktop.SQLiteManager) (n : nat) :
  Desktop.current_session_id m = Some n ->
  Desktop.empty (Desktop.blink_queue m) = false ->
  Desktop.end_current_session now fault m = Desktop.Waiting.
Proof.
  intros C E. unfold Desktop.end_current_session. rewrite C, E. reflexivity.
Qed.

(** X23. What [reset_session(LOCAL)] leaves behind.  Whenever it returns it
    returns [True].  If the database refuses to start a session, no local
    session is active afterwards although [True] was returned.  Otherwise the
    local track shows a new [ACTIVE] session with zero counters whose id is
    the key of the store's current, open session; and if a session that was
    not yet ended is reset and its stop met no database error, that stored
    session is a new row, created at the reset with zero counters, and it is
    the only open one: the session that was running has been closed. *)
Theorem reset_local_session
        (r : Manager.Readings) (m m' : Manager.SessionManager) (b : bool) :
  Wf.consistent m ->
  (List.length (Inv.open_sessions (Desktop.db (Manager.db_manager m))) <= 1)%nat ->
  Manager.reset_session r Manager.LOCAL m = Some (m', b) ->
  b = true /\
  (Manager.start_fault r = true ->
   Manager.in_state Manager.ACTIVE (Manager._local_session m') = false) /\
  (Manager.start_fault r = false ->
   exists n row,
     Manager._local_session m'
     = Some (Manager.mkSessionInfo (Manager.Str n) Manager.LOCAL Manager.ACTIVE
                                   (Manager.start_now r) None 0 (Some (0 # 1)%Q) 0 false) /\
     Store.get_current_session (Manager.db_manager m') = Some row /\
     Desktop.ls_id row = n /\ Desktop.ls_end_time row = None /\
     (Manager.stop_fault r = false ->
      (exists l, Manager._local_session m = Some l /\
                 Manager.state l <> Manager.ENDED) ->
      row = Desktop.mkLocalSession
              (S (Desktop.seq_local_sessions (Desktop.db (Manager.db_manager m))))
              (Desktop.user_id (Manager.db_manager m))
              (Desktop.user_email (Manager.db_manager m))
              (Manager.start_db_now r) None 0 (0 # 1) (Some (0 # 1)%Q) 0 false None
              (Manager.start_db_now r) /\
      Inv.open_sessions (Desktop.db (Manager.db_manager m')) = [row])).
Proof.
  intros Co Len H.
  assert (P : exists m1,
             ((Manager._local_session m = None /\ m1 = m) \/
              (exists b1,
                  Manager.stop_session (Manager.stop_now r) (Manager.stop_db_now r)
                                       (Manager.stop_fault r) Manager.LOCAL m
                  = Some (m1, b1))) /\
             Wf.consistent m1 /\
             Manager.in_state Manager.ACTIVE (Manager._local_session m1) = false /\
             m' = Manager._auto_start_local_session
                    (Manager.start_db_now r) (Manager.start_now r)
                    (Manager.start_fault r) m1 /\
             b = true).
  { unfold Manager.reset_session in H.
    destruct (Manager._local_session m) eqn:L.
    - destruct (Manager.stop_session _ _ _ _ _) as [[m1 b1]|] eqn:St; [|discriminate].
      simpl in H. injection H as <- <-.
      destruct (stop_session_local_consistent _ _ _ _ _ _ St Co) as (Co1 & N1 & _).
      exists m1. split; [right; exists b1; reflexivity|]. auto.
    - injection H as <- <-. exists m. split; [left; auto|].
      split; [exact Co|]. rewrite L. auto. }
  destruct P as (m1 & Stop & Co1 & N1 & Em' & ->).
  split; [reflexivity|]. split.
  - intro F. rewrite Em', F, auto_start_refused. exact N1.
  - intro F. rewrite F in Em'.
    destruct (auto_start_fresh_info (Manager.start_db_now r) (Manager.start_now r) m1 Co1)
      as (n & row & L' & G & Id & O).
    rewrite <- Em' in L', G.
    exists n, row. split; [exact L'|]. split; [exact G|].
    split; [exact Id|]. split; [exact O|].
    intros SF (l & L & NE).
    destruct Stop as [(L0 & _)|(b1 & St)]; [congruence|].
    destruct Co as (A & Ok & Cur).
    unfold Wf.agree in A. rewrite L in A.
    destruct A as [A|(n0 & _ & C)]; [contradiction|].
    pose proof Cur as Cur0. unfold Wf.current_open in Cur0. rewrite C in Cur0.
    destruct Cur0 as (row0 & I0 & E0 & O0).
    assert (F0 : find (fun x => Nat.eqb (Desktop.ls_id x) n0)
                      (Desktop.local_sessions (Desktop.db (Manager.db_manager m)))
                 = Some row0).
    { rewrite <- E0. apply find_unique_id; [apply Ok | exact I0]. }
    unfold Manager.stop_session in St. rewrite L, SF in St.
    destruct (Desktop.empty (Desktop.blink_queue (Manager.db_manager m))) eqn:Em.
    2:{ rewrite (end_current_session_waits _ _ _ _ C Em) in St. discriminate. }
    destruct (end_current_session_closes (Manager.stop_db_now r) _ _ _ C Em F0)
      as (d1 & E1 & C1 & D1 & U1 & U2).
    pose proof (end_current_session_invariant _ _ _ _ _ E1 Ok Cur) as (Ok1 & _).
    rewrite E1 in St. injection St as M1 _.
    assert (O1 : Inv.open_sessions (Desktop.db d1) = []).
    { rewrite D1. unfold Inv.open_sessions, Desktop.update_where_id. simpl.
      apply closing_leaves_none_open. intros x Ix Ox.
      assert (R0 : Desktop.is_open row0 = true)
        by (unfold Desktop.is_open; rewrite O0; reflexivity).
      rewrite (only_open_row _ row0 Len I0 R0 x Ix Ox). exact E0. }
    destruct (auto_create_session_fresh (Manager.start_db_now r) d1 O1 Ok1)
      as (d & Ea & Ga & Oa).
    assert (Dm : Manager.db_manager m' = d).
    { assert (D : Manager.db_manager m1 = d1) by (rewrite <- M1; reflexivity).
      rewrite Em'. unfold Manager._auto_start_local_session.
      rewrite D, Ea. reflexivity. }
    rewrite Dm in G |- *. rewrite Ga in G. injection G as <-.
    rewrite D1, U1, U2 in Oa |- *. simpl in Oa |- *. split; [reflexivity | exact Oa].
Qed.

Lemma reset_local_session_witness :
  let m := Manager.init LocalExamples.fresh None LocalExamples.T LocalExamples.T false in
  let r :=
    Manager.mkReadings (LocalExamples.T + 5000000) (LocalExamples.T + 5000000) false
                       (LocalExamples.T + 6000000) (LocalExamples.T + 6000000) false
                       1700000006 in
  Wf.consistent m /\
  (List.length (Inv.open_sessions (Desktop.db (Manager.db_manager m))) <= 1)%nat /\
  exists m',
    Manager.reset_session r Manager.LOCAL m = Some (m', true) /\
    exists row,
      Store.get_current_session (Manager.db_manager m') = Some row /\
      Desktop.ls_id row = 2%nat /\
      Inv.open_sessions (Desktop.db (Manager.db_manager m')) = [row].
Proof.
  intros m r.
  assert (Co : Wf.consistent m).
  { split; [right; exists 1%nat; split; reflexivity|]. split.
    - repeat split; repeat constructor; simpl; intuition.
    - eexists. split; [left; reflexivity|]. split; reflexivity. }
  assert (Len : (List.length (Inv.open_sessions (Desktop.db (Manager.db_manager m)))
                 <= 1)%nat) by (simpl; lia).
  split; [exact Co|]. split; [exact Len|].
  eexists. split; [reflexivity|].
  destruct (reset_local_session r m _ true Co Len eq_refl) as (_ & _ & K).
  destruct (K eq_refl) as (n & row & _ & G & _ & _ & F).
  destruct (F eq_refl) as (R & O).
  - eexists. split; [reflexivity | discriminate].
  - exists row. split; [exact G|]. split; [rewrite R; reflexivity | exact O].
Defined.

(** X24. What [stop_session(LOCAL)] shows and stores.  Stopping a local
    session that is not yet ended returns [True] whenever it returns, and
    marks the session [ENDED] with the manager's own clock and start time.
    If the database closes the session, the totals shown are the stored
    ones, the stored session has the database's end time and duration, and
    the store has no current session any more.  If the database raises,
    [True] is returned all the same: the figures shown stay as they were,
    and the stored session stays open and current. *)
Theorem stop_local_session
        (now db_now : Manager.datetime) (fault : bool)
        (m m' : Manager.SessionManager) (b : bool) (l : Manager.SessionInfo) :
  Wf.consistent m ->
  Manager._local_session m = Some l ->
  Manager.state l <> Manager.ENDED ->
  Manager.stop_session now db_now fault Manager.LOCAL m = Some (m', b) ->
  b = true /\
  exists l' n row,
    Manager.session_id l = Manager.Str n /\
    Manager._local_session m' = Some l' /\
    Manager.session_id l' = Manager.session_id l /\
    Manager.state l' = Manager.ENDED /\
    Manager.end_time l' = Some now /\
    Manager.duration_seconds l' = Z.quot (now - Manager.start_time l) 1000000 /\
    Desktop.get_session n (Manager.db_manager m') = Some row /\
    if fault
    then Manager.total_blinks l' = Manager.total_blinks l /\
         Manager.blink_rate l' = Manager.blink_rate l /\
         Desktop.ls_end_time row = None /\
         Desktop.current_session_id (Manager.db_manager m') = Some n /\
         Desktop.db (Manager.db_manager m') = Desktop.db (Manager.db_manager m)
    else Manager.total_blinks l' = Desktop.ls_total_blinks row /\
         Manager.blink_rate l' = Desktop.ls_avg_blink_rate row /\
         Desktop.ls_end_time row = Some db_now /\
         Desktop.ls_session_duration row
         = Z.quot (db_now - Desktop.ls_start_time row) 1000000 /\
         Desktop.current_session_id (Manager.db_manager m') = None.
Proof.
  intros (A & Ok & Cur) L NE H.
  unfold Wf.agree in A. rewrite L in A.
  destruct A as [A|(n & Id & C)]; [contradiction|].
  unfold Wf.current_open in Cur. rewrite C in Cur.
  destruct Cur as (row & I & E & O).
  assert (F : find (fun x => Nat.eqb (Desktop.ls_id x) n)
                   (Desktop.local_sessions (Desktop.db (Manager.db_manager m)))
              = Some row).
  { rewrite <- E. apply find_unique_id; [apply Ok | exact I]. }
  unfold Manager.stop_session in H. rewrite L in H.
  destruct (Desktop.empty (Desktop.blink_queue (Manager.db_manager m))) eqn:Em.
  2:{ rewrite (end_current_session_waits _ _ _ _ C Em) in H. discriminate. }
  destruct fault.
  - unfold Desktop.end_current_session in H. rewrite C, Em in H. simpl in H.
    injection H as <- <-. split; [reflexivity|].
    exists (Manager.ended now l), n, row. simpl.
    repeat split; try assumption.
  - destruct (end_current_session_closes db_now _ _ _ C Em F)
      as (d1 & E1 & C1 & D1 & _).
    rewrite E1 in H. injection H as <- <-. split; [reflexivity|].
    eexists. exists n, (Desktop.set_end db_now row). simpl.
    split; [exact Id|]. split; [reflexivity|]. repeat split; try assumption.
    unfold Desktop.get_session. rewrite D1. simpl.
    apply find_in_rewritten; [reflexivity | exact F].
Qed.

Lemma stop_local_session_witness :
  let m :=
    Manager.set_db_manager
      (Desktop.log_blink (LocalExamples.T + 1000000) false 9 (18 # 1) None
         LocalExamples.tracking)
      (Manager.init LocalExamples.fresh None LocalExamples.T (LocalExamples.T + 7) false) in
  let m1 := fst (Manager.step (Manager.Writer_pass (5 # 1) false)
                              (m, Desktop.mkProcessor [] (0 # 1))) in
  Wf.consistent m1 /\
  exists l m',
    Manager._local_session m1 = Some l /\ Manager.state l = Manager.ACTIVE /\
    Manager.stop_session (LocalExamples.T + 9000000) (LocalExamples.T + 9000001) false
                         Manager.LOCAL m1 = Some (m', true) /\
    exists l', Manager._local_session m' = Some l' /\ Manager.total_blinks l' = 9.
Proof.
  intros m m1.
  assert (Co : Wf.consistent m1).
  { split; [right; exists 1%nat; split; reflexivity|]. split.
    - repeat split; repeat constructor; simpl; intuition.
    - eexists. split; [left; reflexivity|]. split; reflexivity. }
  split; [exact Co|].
  eexists. eexists. split; [reflexivity|]. split; [reflexivity|].
  split; [reflexivity|].
  destruct (stop_local_session (LocalExamples.T + 9000000) (LocalExamples.T + 9000001)
              false m1 _ true _ Co eq_refl ltac:(discriminate) eq_refl)
    as (_ & l' & n & row & Id & L' & _ & _ & _ & _ & G & T & _).
  exists l'. split; [exact L'|]. rewrite T.
  injection Id as <-. vm_compute in G. injection G as <-. reflexivity.
Defined.

Lemma cleanup_frame (r : Manager.Readings) (m m' : Manager.SessionManager)
      (t : Manager.SessionType) :
  Manager.cleanup r m = Some m' ->
  Manager.in_state Manager.ACTIVE (Manager.session_of t m) = false ->
  Manager.session_of t m' = Manager.session_of t m.
Proof.
  unfold Manager.cleanup. intros H N.
  destruct t; simpl in N |- *.
  - rewrite N in H. cbv beta iota zeta in H.
    destruct (Manager.in_state Manager.ACTIVE (Manager._cloud_session m)).
    + destruct (stop_session_cloud_frame (Manager.start_now r) (Manager.stop_db_now r)
                                         (Manager.stop_fault r) m)
        as (m2 & b2 & St & L2 & _).
      rewrite St in H. simpl in H. injection H as <-. exact L2.
    + injection H as <-. reflexivity.
  - assert (P : exists m1,
               (if Manager.in_state Manager.ACTIVE (Manager._local_session m)
                then option_map fst
                       (Manager.stop_session (Manager.stop_now r) (Manager.stop_db_now r)
                                             (Manager.stop_fault r) Manager.LOCAL m)
                else Some m) = Some m1 /\
               Manager._cloud_session m1 = Manager._cloud_session m).
    { destruct (Manager.in_state Manager.ACTIVE (Manager._local_session m)).
      - destruct (Manager.stop_session _ _ _ Manager.LOCAL m) as [[m1 b1]|] eqn:St;
          [|discriminate].
        exists m1. split; [reflexivity|].
        apply (stop_session_local_frame _ _ _ _ _ _ St).
      - exists m. auto. }
    destruct P as (m1 & E1 & C1). rewrite E1 in H. cbv beta iota zeta in H.
    rewrite C1, N in H. injection H as <-. exact C1.
Qed.

Lemma ended_step (t : Manager.SessionType) (c : Manager.Call)
      (s : Manager.SessionManager * Desktop.Processor) (l : Manager.SessionInfo) :
  Wf.restarts t c = false ->
  Manager.session_of t (fst s) = Some l ->
  Manager.state l = Manager.ENDED ->
  exists l',
    Manager.session_of t (fst (Manager.step c s)) = Some l' /\
    Manager.state l' = Manager.ENDED /\
    Manager.session_id l' = Manager.session_id l /\
    Manager.start_time l' = Manager.start_time l.
Proof.
  destruct s as [m p]. simpl. intros R S E.
  assert (Same : forall m', Manager.session_of t m' = Manager.session_of t m ->
                            exists l', Manager.session_of t m' = Some l' /\
                                       Manager.state l' = Manager.ENDED /\
                                       Manager.session_id l' = Manager.session_id l /\
                                       Manager.start_time l' = Manager.start_time l).
  { intros m' H. exists l. rewrite H. auto. }
  destruct c; simpl.
  - destruct t; [|discriminate]. apply Same. apply start_cloud_session_frame.
  - apply Same. unfold Manager.pause_session.
    destruct (Manager.session_of session_type m) as [x|] eqn:X; [|reflexivity].
    destruct (Manager.SessionState_eqb (Manager.state x) Manager.ACTIVE) eqn:SE;
      [|reflexivity].
    destruct session_type, t; simpl in *; try reflexivity;
      rewrite X in S; injection S as ->; rewrite E in SE; discriminate.
  - apply Same. unfold Manager.resume_session.
    destruct (Manager.session_of session_type m) as [x|] eqn:X; [|reflexivity].
    destruct (Manager.SessionState_eqb (Manager.state x) Manager.PAUSED) eqn:SE;
      [|reflexivity].
    destruct session_type, t; simpl in *; try reflexivity;
      rewrite X in S; injection S as ->; rewrite E in SE; discriminate.
  - destruct session_type.
    + destruct (Manager.stop_session _ _ _ _ _) as [[m' b]|] eqn:St;
        [|apply Same; reflexivity].
      destruct t; simpl in S.
      * unfold Manager.stop_session in St. rewrite S in St.
        destruct (Desktop.end_current_session _ _ _) as [d res|]; [|discriminate].
        injection St as <- _. simpl. eexists. split; [reflexivity|].
        destruct res; simpl; auto.
      * apply Same. apply (stop_session_local_frame _ _ _ _ _ _ St).
    + destruct t; simpl in S.
      * destruct (stop_session_cloud_frame now db_now fault m)
          as (m' & b & St & L & _).
        rewrite St. apply Same. exact L.
      * unfold Manager.stop_session. rewrite S. simpl.
        eexists. split; [reflexivity|]. simpl. auto.
  - destruct session_type, t; simpl in R; try discriminate.
    + destruct (Manager.reset_session _ _ _) as [[m' b]|] eqn:St;
        [|apply Same; reflexivity].
      apply Same. apply (reset_session_local_frame _ _ _ _ St).
    + destruct (reset_session_cloud_frame r m) as (m' & b & St & L & _).
      rewrite St. apply Same. exact L.
  - destruct t; simpl in *; rewrite S; unfold Manager.updated; rewrite E; simpl;
      exists l; auto.
  - apply Same. destruct t; reflexivity.
  - apply Same. destruct t; reflexivity.
  - destruct (Manager.cleanup r m) as [m'|] eqn:Cl; [|apply Same; reflexivity].
    apply Same. apply (cleanup_frame _ _ _ _ Cl).
    rewrite S. simpl. rewrite E. reflexivity.
  - apply Same. destruct t; reflexivity.
  - apply Same. destruct t; reflexivity.
Qed.

(** X25. An ended session stays ended.  Once a track shows a session as
    [ENDED], no sequence of calls brings it back or replaces it, unless the
    sequence contains a [reset_session] of that track or, for the cloud
    track, a [start_cloud_session]: pausing, resuming, updating the
    statistics, stopping again and [cleanup] all leave it [ENDED], with the
    same id and start time. *)
Theorem ended_session_stays_ended
        (t : Manager.SessionType) (calls : list Manager.Call)
        (s : Manager.SessionManager * Desktop.Processor) (l : Manager.SessionInfo) :
  forallb (fun c => negb (Wf.restarts t c)) calls = true ->
  Manager.session_of t (fst s) = Some l ->
  Manager.state l = Manager.ENDED ->
  exists l',
    Manager.session_of t (fst (Manager.run calls s)) = Some l' /\
    Manager.state l' = Manager.ENDED /\
    Manager.session_id l' = Manager.session_id l /\
    Manager.start_time l' = Manager.start_time l.
Proof.
  revert s l. induction calls as [|c calls IH]; intros s l R S E.
  - exists l. auto.
  - simpl in R. apply andb_prop in R. destruct R as (Rc & R).
    apply negb_true_iff in Rc.
    destruct (ended_step t c s l Rc S E) as (l1 & S1 & E1 & I1 & T1).
    destruct (IH (Manager.step c s) l1 R S1 E1) as (l' & S' & E' & I' & T').
    exists l'. repeat split; try assumption; congruence.
Qed.

Lemma ended_session_stays_ended_witness :
  let m := Manager.init LocalExamples.fresh None LocalExamples.T LocalExamples.T false in
  let s :=
    Manager.run [Manager.Call_stop_session (LocalExamples.T + 9000000)
                                           (LocalExamples.T + 9000000) false Manager.LOCAL]
                (m, Desktop.mkProcessor [] (0 # 1)) in
  let calls :=
    [Manager.Call_resume_session Manager.LOCAL;
     Manager.Call_update_session_stats (LocalExamples.T + 10000000)
                                       (LocalExamples.T + 10000000) 5 (15 # 1);
     Manager.Call_pause_session Manager.LOCAL] in
  exists l,
    Manager.session_of Manager.LOCAL (fst s) = Some l /\
    Manager.state l = Manager.ENDED /\
    exists l',
      Manager.session_of Manager.LOCAL (fst (Manager.run calls s)) = Some l' /\
      Manager.state l' = Manager.ENDED.
Proof.
  intros m s calls. eexists. split; [reflexivity|]. split; [reflexivity|].
  destruct (ended_session_stays_ended Manager.LOCAL calls s _ eq_refl eq_refl eq_refl)
    as (l' & S' & E' & _).
  exists l'. split; assumption.
Defined.
